(** * OpenEHallPass: the pass lifecycle, its time windows and teacher routing

    A shallow embedding of [app/models/core.py] and [app/routes/passes.py].
    The relational store is a record of tables, each table a list of rows in
    row order.  A request handler is a function from the store, the logged-in
    user, the request and the clock reading to either an exception or the
    committed store together with the flashed messages.  An exception leaves
    the store as it was: the session is rolled back when the request ends. *)

From Stdlib Require Import ZArith List String Ascii Bool Lia DecimalString.
Import ListNotations.

Local Open Scope string_scope.
Local Open Scope Z_scope.

(** ** Exceptions and results *)

(** The exception classes the modelled code can raise; each of them derives
    from Python's [Exception]. *)
Inductive exn : Type :=
| TypeError
| ValueError
| OverflowError
| AttributeError
| IndexError
| IntegrityError.

Inductive pyresult (A : Type) : Type :=
| Ok (a : A)
| Raise (e : exn).

Arguments Ok {A} a.
Arguments Raise {A} e.

Definition bind {A B : Type} (m : pyresult A) (k : A -> pyresult B) : pyresult B :=
  match m with
  | Ok a => k a
  | Raise e => Raise e
  end.

Notation "x <- m ;; k" := (bind m (fun x => k))
  (at level 61, m at next level, right associativity).
Notation "' pat <- m ;; k" := (bind m (fun x => match x with pat => k end))
  (at level 61, pat pattern, m at next level, right associativity).

(** [try: m  except Exception: h]; every class of [exn] is an [Exception]. *)
Definition try_except {A : Type} (m : pyresult A) (h : exn -> pyresult A)
  : pyresult A :=
  match m with
  | Ok a => Ok a
  | Raise e => h e
  end.

(** [[f(x) for x in xs]] where [f] may raise. *)
Fixpoint mapM {A B : Type} (f : A -> pyresult B) (xs : list A)
  : pyresult (list B) :=
  match xs with
  | [] => Ok []
  | x :: rest => y <- f x ;; ys <- mapM f rest ;; Ok (y :: ys)
  end.

(** [for x in xs: acc = f(acc, x)] where the body may raise. *)
Fixpoint foldM {A B : Type} (f : B -> A -> pyresult B) (xs : list A) (acc : B)
  : pyresult B :=
  match xs with
  | [] => Ok acc
  | x :: rest => acc' <- f acc x ;; foldM f rest acc'
  end.

(** ** The Python built-ins the code relies on *)

Module Py.

(** A [str] is modelled as a Rocq [string]: a sequence of code points below
    256, one [ascii] per code point. *)

Definition code (c : ascii) : Z := Z.of_N (N_of_ascii c).

(** Code points [int()] strips as white space: TAB..CR, space, NEL, NBSP. *)
Definition is_space (c : ascii) : bool :=
  let n := code c in
  ((9 <=? n) && (n <=? 13)) || (n =? 32) || (n =? 133) || (n =? 160).

Definition is_decimal (c : ascii) : bool :=
  let n := code c in (48 <=? n) && (n <=? 57).

Definition digit_value (c : ascii) : Z := code c - 48.

(** [str.isdigit] on one code point: the decimal digits and the superscripts
    two, three and one, which are digits that [int()] does not accept. *)
Definition is_digit_char (c : ascii) : bool :=
  let n := code c in
  is_decimal c || (n =? 178) || (n =? 179) || (n =? 185).

Fixpoint all_chars (f : ascii -> bool) (s : string) : bool :=
  match s with
  | EmptyString => true
  | String c r => f c && all_chars f r
  end.

(** [s.isdigit()]: at least one character and all of them digits. *)
Definition isdigit (s : string) : bool :=
  match s with
  | EmptyString => false
  | _ => all_chars is_digit_char s
  end.

Fixpoint lstrip (s : string) : string :=
  match s with
  | String c r => if is_space c then lstrip r else s
  | EmptyString => EmptyString
  end.

(** The digit run of an integer literal: decimal digits with single
    underscores between them.  [prev_us] tells that the previous character
    was an underscore, [seen] that a digit was read.  Returns the value and
    the unread rest, or [None] for a malformed run. *)
Fixpoint digits_run (prev_us seen : bool) (acc : Z) (s : string)
  : option (Z * string) :=
  match s with
  | String c r =>
      if is_decimal c then digits_run false true (acc * 10 + digit_value c) r
      else if Ascii.eqb c "_"%char then
        if prev_us || negb seen then None else digits_run true seen acc r
      else if prev_us || negb seen then None else Some (acc, s)
  | EmptyString => if prev_us || negb seen then None else Some (acc, s)
  end.

(** [int(s)] for a [str] argument and the default base 10.  (The
    interpreter's configurable cap on the number of digits is left out.) *)
Definition int (s : string) : pyresult Z :=
  let s1 := lstrip s in
  let '(sign, s2) :=
    match s1 with
    | String c r =>
        if Ascii.eqb c "+"%char then (1, r)
        else if Ascii.eqb c "-"%char then (-1, r)
        else (1, s1)
    | EmptyString => (1, s1)
    end in
  match digits_run false false 0 s2 with
  | Some (v, rest) =>
      match lstrip rest with
      | EmptyString => Ok (sign * v)
      | _ => Raise ValueError
      end
  | None => Raise ValueError
  end.

(** [s.split(sep)] for a one-character separator. *)
Fixpoint split (sep : ascii) (s : string) : list string :=
  match s with
  | EmptyString => [EmptyString]
  | String c r =>
      if Ascii.eqb c sep then EmptyString :: split sep r
      else match split sep r with
           | h :: t => String c h :: t
           | [] => [String c EmptyString]
           end
  end.

(** White space for [str.strip()]: as for [int()], and the separators
    FS, GS, RS and US. *)
Definition isspace (c : ascii) : bool :=
  is_space c || ((28 <=? code c) && (code c <=? 31)).

Fixpoint lstrip_ws (s : string) : string :=
  match s with
  | String c r => if isspace c then lstrip_ws r else s
  | EmptyString => EmptyString
  end.

Fixpoint rstrip_ws (s : string) : string :=
  match s with
  | EmptyString => EmptyString
  | String c r =>
      match rstrip_ws r with
      | EmptyString => if isspace c then EmptyString else String c EmptyString
      | r' => String c r'
      end
  end.

(** [s.strip()]. *)
Definition strip (s : string) : string := rstrip_ws (lstrip_ws s).

(** [str(n)] for an [int]. *)
Definition str (n : Z) : string := NilZero.string_of_int (Z.to_int n).

(** Truthiness of an [int] and of a [str]. *)
Definition truthy (n : Z) : bool := negb (n =? 0).
Definition nonempty (s : string) : bool :=
  match s with EmptyString => false | _ => true end.

(** *** [datetime] and [timedelta]

    A naive [datetime] is the number of microseconds since
    0001-01-01T00:00:00, the first instant the type can hold; a
    [timedelta] is a signed number of microseconds. *)

Definition datetime : Type := Z.
Definition timedelta : Type := Z.

Definition US_PER_SECOND : Z := 1000000.
Definition US_PER_MINUTE : Z := 60 * US_PER_SECOND.
Definition US_PER_HOUR : Z := 60 * US_PER_MINUTE.
Definition US_PER_DAY : Z := 24 * US_PER_HOUR.


(** [date.max.toordinal()] days are representable. *)
Definition MAX_DAYS : Z := 3652059.
Definition MAX_DELTA_DAYS : Z := 999999999.

Definition datetime_valid (d : datetime) : bool :=
  (0 <=? d) && (d <? MAX_DAYS * US_PER_DAY).

(** [timedelta(minutes=m)] for an [int] m. *)
Definition timedelta_minutes (m : Z) : pyresult timedelta :=
  let us := m * US_PER_MINUTE in
  let days := us / US_PER_DAY in
  if (- MAX_DELTA_DAYS <=? days) && (days <=? MAX_DELTA_DAYS) then Ok us
  else Raise OverflowError.

(** [d + td]. *)
Definition datetime_add (d : datetime) (td : timedelta) : pyresult datetime :=
  let r := d + td in
  if datetime_valid r then Ok r else Raise OverflowError.

(** [a - b] on two datetimes. *)
Definition datetime_sub (a b : datetime) : timedelta := a - b.

(** [int(td.total_seconds())].  [total_seconds()] is the float nearest to
    the quotient of the microseconds by 10^6 (the true division of two ints
    is correctly rounded) and [int] truncates it towards zero.  With [n]
    whole seconds and a remainder, that float is [n + 1] exactly when the
    gap to [n + 1] is under half a unit in the last place of a 53-bit float
    of the size of [n], and lies in [n, n + 1) otherwise; no tie arises for
    the spans a [timedelta] can hold. *)
Definition int_total_seconds (td : timedelta) : Z :=
  let a := Z.abs td in
  let n := a / US_PER_SECOND in
  let gap := US_PER_SECOND - a mod US_PER_SECOND in
  let rounds_up :=
    (0 <? n) && (gap <? US_PER_SECOND)
    && (gap * 2 ^ (53 - Z.log2 n) <? US_PER_SECOND) in
  Z.sgn td * (if rounds_up then n + 1 else n).

Definition hour (d : datetime) : Z := (d / US_PER_HOUR) mod 24.
Definition minute (d : datetime) : Z := (d / US_PER_MINUTE) mod 60.

(** [d.weekday()]: Monday is 0; 0001-01-01 was a Monday. *)
Definition weekday (d : datetime) : Z := (d / US_PER_DAY) mod 7.

(** The instant [h:m:s] on the day with the given ordinal (ordinal 1 is
    0001-01-01). *)
Definition at_time (ordinal h m s : Z) : datetime :=
  (ordinal - 1) * US_PER_DAY + h * US_PER_HOUR + m * US_PER_MINUTE
  + s * US_PER_SECOND.

End Py.

(** ** The data model ([app/models/core.py])

    One module per mapped class; its record [t] is a row of the table.  Only
    the columns the modelled code reads or writes are kept: credentials,
    e-mail addresses, the surrogate keys of association and event rows and
    the server-side [created_at] defaults are left out. *)

Module Role.
Record t : Type := { id : Z; name : string }.
End Role.

Module User.
Record t : Type :=
  { id : Z; full_name : string; is_active_flag : Z; role_id : Z }.
End User.

Module Destination.
Record t : Type :=
  { id : Z; name : string; default_minutes : Z; max_concurrent : Z }.
End Destination.

Module ClassPeriod.

Record t : Type :=
  { id : Z;
    name : string;
    teacher_id : Z;
    start_time : option string;
    end_time : option string;
    days_mask : option string;
    room : option string;
    is_active : Z }.

(** [sh, sm = [int(x) for x in s.split(":")]]: the comprehension raises
    where [int] does, the unpacking when there are not exactly two parts. *)
Definition parse_hhmm (s : string) : pyresult (Z * Z) :=
  xs <- mapM Py.int (Py.split ":" s) ;;
  match xs with
  | [h; m] => Ok (h, m)
  | _ => Raise ValueError
  end.

(** The body of the [try] block. *)
Definition window_body (start_time end_time : string)
    (days_mask : option string) (now : Py.datetime) : pyresult bool :=
  '(sh, sm) <- parse_hhmm start_time ;;
  '(eh, em) <- parse_hhmm end_time ;;
  let start_minutes := sh * 60 + sm in
  let end_minutes := eh * 60 + em in
  let now_minutes := Py.hour now * 60 + Py.minute now in
  let in_time :=
    (start_minutes <=? now_minutes) && (now_minutes <=? end_minutes) in
  match days_mask with
  | Some mask =>
      if Py.nonempty mask && (Z.of_nat (String.length mask) =? 7) then
        let idx := Py.weekday now in
        if in_time then
          match String.get (Z.to_nat idx) mask with
          | Some c => Ok (Ascii.eqb c "1"%char)
          | None => Raise IndexError
          end
        else Ok false
      else Ok in_time
  | None => Ok in_time
  end.

Definition is_now_in_window (self : t) (now : Py.datetime) : pyresult bool :=
  match start_time self, end_time self with
  | Some st, Some en =>
      if negb (Py.nonempty st) || negb (Py.nonempty en) then Ok true
      else try_except (window_body st en (days_mask self) now)
                      (fun _ => Ok true)
  | _, _ => Ok true
  end.

End ClassPeriod.

Module StudentEnrollment.
Record t : Type :=
  { id : Z; student_id : Z; class_period_id : Z; is_active : Z }.
End StudentEnrollment.

Inductive PassState : Type :=
| PENDING
| ACTIVE
| EXPIRED
| CANCELLED
| DENIED
| ARCHIVED.

Definition PassState_eqb (a b : PassState) : bool :=
  match a, b with
  | PENDING, PENDING | ACTIVE, ACTIVE | EXPIRED, EXPIRED
  | CANCELLED, CANCELLED | DENIED, DENIED | ARCHIVED, ARCHIVED => true
  | _, _ => false
  end.

(** SQL's three-valued logic, for the table constraint: [None] is NULL. *)
Module Sql.
Definition and3 (a b : option bool) : option bool :=
  match a, b with
  | Some false, _ | _, Some false => Some false
  | Some true, Some true => Some true
  | _, _ => None
  end.
Definition or3 (a b : option bool) : option bool :=
  match a, b with
  | Some true, _ | _, Some true => Some true
  | Some false, Some false => Some false
  | _, _ => None
  end.
Definition is_null {A : Type} (a : option A) : option bool :=
  match a with None => Some true | Some _ => Some false end.
Definition gt (a b : option Z) : option bool :=
  match a, b with
  | Some x, Some y => Some (y <? x)
  | _, _ => None
  end.
(** A CHECK constraint is violated only when its expression is false. *)
Definition check (e : option bool) : bool :=
  match e with Some false => false | _ => true end.
End Sql.

Module Pass.

Record t : Type :=
  { id : Z;
    student_id : Z;
    destination_id : Z;
    issued_at : option Py.datetime;
    expires_at : option Py.datetime;
    state : PassState }.

Definition set_state (self : t) (s : PassState) : t :=
  {| id := id self; student_id := student_id self;
     destination_id := destination_id self; issued_at := issued_at self;
     expires_at := expires_at self; state := s |}.

Definition set_expires_at (self : t) (e : option Py.datetime) : t :=
  {| id := id self; student_id := student_id self;
     destination_id := destination_id self; issued_at := issued_at self;
     expires_at := e; state := state self |}.

(** [(issued_at IS NULL AND expires_at IS NULL) OR (expires_at > issued_at)] *)
Definition ck_pass_time_order (self : t) : bool :=
  Sql.check
    (Sql.or3 (Sql.and3 (Sql.is_null (issued_at self))
                       (Sql.is_null (expires_at self)))
             (Sql.gt (expires_at self) (issued_at self))).

(** [not self.expires_at]: a [datetime] is always truthy, [None] is not. *)
Definition unset (d : option Py.datetime) : bool :=
  match d with None => true | Some _ => false end.

(** [utcnow] is the reading of [datetime.utcnow()]. *)
Definition remaining_seconds (self : t) (utcnow : Py.datetime) : Z :=
  if negb (PassState_eqb (state self) ACTIVE) || unset (expires_at self)
  then 0
  else match expires_at self with
       | Some e => Z.max 0 (Py.int_total_seconds (Py.datetime_sub e utcnow))
       | None => 0
       end.

Definition mark_expired_if_needed (self : t) (utcnow : Py.datetime) : t :=
  if PassState_eqb (state self) ACTIVE
     && negb (unset (expires_at self))
     && match expires_at self with
        | Some e => utcnow >=? e
        | None => false
        end
  then set_state self EXPIRED
  else self.

End Pass.

Module PassAssignment.
Record t : Type := { pass_id : Z; teacher_id : Z }.
End PassAssignment.

Module Override.
Record t : Type :=
  { pass_id : Z;
    performed_by_id : Z;
    previous_expires_at : Py.datetime;
    new_expires_at : Py.datetime;
    reason : option string }.
End Override.

Module LogEntry.
Record t : Type :=
  { actor_id : option Z;
    action : string;
    target_type : option string;
    target_id : option Z;
    message : option string }.
End LogEntry.

Module Setting.
Record t : Type := { key : string; scope : string; value : string }.
End Setting.

Module Kiosk.
Record t : Type :=
  { id : Z;
    token : string;
    name : string;
    room : option string;
    class_period_id : option Z;
    teacher_id : option Z;
    is_active : Z }.
End Kiosk.

(** ** The store *)

Record DB : Type :=
  { roles : list Role.t;
    users : list User.t;
    destinations : list Destination.t;
    class_periods : list ClassPeriod.t;
    student_enrollments : list StudentEnrollment.t;
    passes : list Pass.t;
    pass_assignments : list PassAssignment.t;
    overrides : list Override.t;
    logs : list LogEntry.t;
    settings : list Setting.t;
    kiosks : list Kiosk.t }.

Definition with_passes (db : DB) (ps : list Pass.t) : DB :=
  {| roles := roles db; users := users db; destinations := destinations db;
     class_periods := class_periods db;
     student_enrollments := student_enrollments db;
     passes := ps; pass_assignments := pass_assignments db;
     overrides := overrides db; logs := logs db; settings := settings db;
     kiosks := kiosks db |}.

Definition with_pass_assignments (db : DB) (xs : list PassAssignment.t) : DB :=
  {| roles := roles db; users := users db; destinations := destinations db;
     class_periods := class_periods db;
     student_enrollments := student_enrollments db;
     passes := passes db; pass_assignments := xs;
     overrides := overrides db; logs := logs db; settings := settings db;
     kiosks := kiosks db |}.

Definition with_overrides (db : DB) (xs : list Override.t) : DB :=
  {| roles := roles db; users := users db; destinations := destinations db;
     class_periods := class_periods db;
     student_enrollments := student_enrollments db;
     passes := passes db; pass_assignments := pass_assignments db;
     overrides := xs; logs := logs db; settings := settings db;
     kiosks := kiosks db |}.

Definition with_logs (db : DB) (xs : list LogEntry.t) : DB :=
  {| roles := roles db; users := users db; destinations := destinations db;
     class_periods := class_periods db;
     student_enrollments := student_enrollments db;
     passes := passes db; pass_assignments := pass_assignments db;
     overrides := overrides db; logs := xs; settings := settings db;
     kiosks := kiosks db |}.

(** *** The session *)

(** [db.session.get(Pass, pass_id)] *)
Definition get_pass (db : DB) (pass_id : Z) : option Pass.t :=
  find (fun p => Pass.id p =? pass_id) (passes db).

Definition get_destination (db : DB) (dest_id : Z) : option Destination.t :=
  find (fun d => Destination.id d =? dest_id) (destinations db).

Definition get_class_period (db : DB) (cp_id : Z) : option ClassPeriod.t :=
  find (fun c => ClassPeriod.id c =? cp_id) (class_periods db).

Definition get_user (db : DB) (user_id : Z) : option User.t :=
  find (fun u => User.id u =? user_id) (users db).

(** Attribute writes on a loaded [Pass]: the row with its key is replaced. *)
Definition update_pass (db : DB) (p : Pass.t) : DB :=
  with_passes db
    (map (fun q => if Pass.id q =? Pass.id p then p else q) (passes db)).

(** [db.session.add(...)] of a new row. *)
Definition add_assignment (db : DB) (a : PassAssignment.t) : DB :=
  with_pass_assignments db (pass_assignments db ++ [a])%list.

Definition add_override (db : DB) (o : Override.t) : DB :=
  with_overrides db (overrides db ++ [o])%list.

Definition add_log (db : DB) (e : LogEntry.t) : DB :=
  with_logs db (logs db ++ [e])%list.

(** The key the store gives a new pass: one more than the largest in use. *)
Definition next_pass_id (db : DB) : Z :=
  1 + fold_right Z.max 0 (map Pass.id (passes db)).

(** [uq_pass_teacher]: no two assignment rows with the same pair. *)
Fixpoint uq_pass_teacher (xs : list PassAssignment.t) : bool :=
  match xs with
  | [] => true
  | a :: rest =>
      negb (existsb (fun b =>
                       (PassAssignment.pass_id a =? PassAssignment.pass_id b)
                       && (PassAssignment.teacher_id a =? PassAssignment.teacher_id b))
                    rest)
      && uq_pass_teacher rest
  end.

(** What the store enforces when the session is flushed.  SQLite evaluates
    the constraints on the rows a statement writes; every stored row passed
    them when it was written, so evaluating them on the whole table gives the
    same verdict on any store the application has built. *)
Definition constraints (db : DB) : bool :=
  forallb Pass.ck_pass_time_order (passes db)
  && uq_pass_teacher (pass_assignments db).

(** [db.session.commit()], and the flush it implies. *)
Definition commit (db : DB) : pyresult DB :=
  if constraints db then Ok db else Raise IntegrityError.

(** *** The logged-in user, settings, responses *)

Module CurrentUser.
(** [current_user.id] and [current_user.role.name], as authentication
    provides them. *)
Record t : Type := { id : Z; role_name : string }.
End CurrentUser.

Definition flash : Type := (string * string)%type.

(** What a handler answers: the messages it flashed, oldest first. *)
Definition Response : Type := list flash.

(** ** The request handlers ([app/routes/passes.py]) *)

Module Passes.

Definition is_admin (cu : CurrentUser.t) : bool :=
  String.eqb (CurrentUser.role_name cu) "Admin".

Definition is_teacher (cu : CurrentUser.t) : bool :=
  String.eqb (CurrentUser.role_name cu) "Teacher".

Definition is_student (cu : CurrentUser.t) : bool :=
  String.eqb (CurrentUser.role_name cu) "Student".

Definition get_setting (db : DB) (key default : string) : string :=
  match find (fun s => String.eqb (Setting.key s) key
                       && String.eqb (Setting.scope s) "global")
             (settings db) with
  | Some s => Setting.value s
  | None => default
  end.

(** [request.form.get(key, default)] for a field that may be missing. *)
Definition form_get (field : option string) (default : string) : string :=
  match field with Some v => v | None => default end.

(** [request.form.get("reason", default).strip() or None], the default
    being the empty string. *)
Definition form_reason (field : option string) : option string :=
  match Py.strip (form_get field EmptyString) with
  | EmptyString => None
  | r => Some r
  end.

Definition log_entry (cu : CurrentUser.t) (action : string) (p : Pass.t)
    (message : option string) : LogEntry.t :=
  {| LogEntry.actor_id := Some (CurrentUser.id cu);
     LogEntry.action := action;
     LogEntry.target_type := Some "pass";
     LogEntry.target_id := Some (Pass.id p);
     LogEntry.message := message |}.

(** A [PassAssignment] row joins pass [p] to the teacher. *)
Definition assigned_to (db : DB) (teacher_id : Z) (p : Pass.t) : bool :=
  existsb (fun a => (PassAssignment.pass_id a =? Pass.id p)
                    && (PassAssignment.teacher_id a =? teacher_id))
          (pass_assignments db).

(** The visibility join the teacher views share: a teacher sees the passes
    assigned to them, an admin all. *)
Definition visible (db : DB) (cu : CurrentUser.t) (p : Pass.t) : bool :=
  if is_teacher cu then assigned_to db (CurrentUser.id cu) p else true.

(** *** [index]: the sweep of elapsed passes *)

(** The filter of the [stale] query. *)
Definition is_stale (now : Py.datetime) (p : Pass.t) : bool :=
  PassState_eqb (Pass.state p) ACTIVE
  && negb (Pass.unset (Pass.expires_at p))
  && match Pass.expires_at p with
     | Some e => e <=? now
     | None => false
     end.

Definition expire (cu : CurrentUser.t) (db : DB) (p : Pass.t) : DB :=
  add_log (update_pass db (Pass.set_state p EXPIRED))
          (log_entry cu "pass_auto_expired" p (Some "expired by system")).

(** The listing the view renders is a read and is not modelled. *)
Definition index (db : DB) (cu : CurrentUser.t) (now : Py.datetime)
  : pyresult (DB * Response) :=
  if is_teacher cu || is_admin cu then
    let stale := filter (is_stale now) (passes db) in
    let db1 := fold_left (expire cu) stale db in
    match stale with
    | [] => Ok (db1, [])
    | _ => db2 <- commit db1 ;; Ok (db2, [])
    end
  else Ok (db, []).

(** *** [approve] *)

(** The first class period of the teacher in which the student has an active
    enrollment (the join of [ClassPeriod] with [StudentEnrollment], [first()]
    taken in the row order of the periods). *)
Definition first_enrolled_period (db : DB) (student_id teacher_id : Z)
  : option ClassPeriod.t :=
  find (fun c =>
          (ClassPeriod.teacher_id c =? teacher_id)
          && existsb (fun e =>
                        (StudentEnrollment.class_period_id e =? ClassPeriod.id c)
                        && (StudentEnrollment.student_id e =? student_id)
                        && (StudentEnrollment.is_active e =? 1))
                     (student_enrollments db))
       (class_periods db).

(** The class period whose window [approve] consults. *)
Definition approval_period (db : DB) (cu : CurrentUser.t) (p : Pass.t)
  : option ClassPeriod.t :=
  if is_teacher cu then
    let t_periods :=
      filter (fun c => (ClassPeriod.teacher_id c =? CurrentUser.id cu)
                       && (ClassPeriod.is_active c =? 1))
             (class_periods db) in
    match t_periods with
    | [] => None
    | _ => first_enrolled_period db (Pass.student_id p) (CurrentUser.id cu)
    end
  else if is_admin cu then
    let assigned_teacher :=
      find (fun u => existsb (fun a =>
                                (PassAssignment.teacher_id a =? User.id u)
                                && (PassAssignment.pass_id a =? Pass.id p))
                             (pass_assignments db))
           (users db) in
    match assigned_teacher with
    | Some t => first_enrolled_period db (Pass.student_id p) (User.id t)
    | None => None
    end
  else None.

(** [dest.default_minutes if dest else 5] *)
Definition pass_minutes (db : DB) (p : Pass.t) : Z :=
  match get_destination db (Pass.destination_id p) with
  | Some dest => Destination.default_minutes dest
  | None => 5
  end.

(** Start the timer: [issued_at = now], [expires_at = now + minutes],
    [state = ACTIVE]. *)
Definition activate (db : DB) (p : Pass.t) (now : Py.datetime)
  : pyresult Pass.t :=
  let minutes := pass_minutes db p in
  td <- Py.timedelta_minutes minutes ;;
  e <- Py.datetime_add now td ;;
  Ok {| Pass.id := Pass.id p; Pass.student_id := Pass.student_id p;
        Pass.destination_id := Pass.destination_id p;
        Pass.issued_at := Some now; Pass.expires_at := Some e;
        Pass.state := ACTIVE |}.

Definition NOT_APPROVABLE : flash :=
  ("Pass not found or not in approvable state.", "warning").

(** The two readings of the clock, for the window and for the timer, are
    taken as one instant [now].  The assignment query flushes the session
    before it runs and the commit flushes again; either raises the same
    error, so one [commit] at the end stands for both. *)
Definition approve (db : DB) (cu : CurrentUser.t) (pass_id : Z)
    (now : Py.datetime) : pyresult (DB * Response) :=
  if negb (is_teacher cu || is_admin cu) then
    Ok (db, [("Teacher/Admin required to approve.", "danger")])
  else
    match get_pass db pass_id with
    | None => Ok (db, [NOT_APPROVABLE])
    | Some p =>
        if negb (PassState_eqb (Pass.state p) PENDING
                 || PassState_eqb (Pass.state p) ACTIVE)
        then Ok (db, [NOT_APPROVABLE])
        else
          let enforce_window :=
            String.eqb (get_setting db "enforce_period_time_window" "false")
                       "true" in
          let allow_outside :=
            String.eqb
              (get_setting db "allow_teacher_approval_outside_period" "true")
              "true" in
          let selected_cp :=
            if enforce_window then approval_period db cu p else None in
          outside <-
            (if enforce_window then
               match selected_cp with
               | Some cp =>
                   inside <- ClassPeriod.is_now_in_window cp now ;;
                   Ok (negb inside)
               | None => Ok false
               end
             else Ok false) ;;
          if outside && negb allow_outside then
            Ok (db, [("Approval blocked: outside class period time window.",
                      "danger")])
          else
            let warning : Response :=
              if outside then
                [("Warning: approving outside class period time window.",
                  "warning")]
              else [] in
            p1 <- (if PassState_eqb (Pass.state p) PENDING
                   then activate db p now else Ok p) ;;
            let db1 := update_pass db p1 in
            let db2 :=
              if assigned_to db1 (CurrentUser.id cu) p1 then db1
              else add_assignment db1
                     {| PassAssignment.pass_id := Pass.id p1;
                        PassAssignment.teacher_id := CurrentUser.id cu |} in
            let db3 := add_log db2 (log_entry cu "pass_approved" p1
                                              (Some "approved")) in
            db4 <- commit db3 ;;
            Ok (db4, (warning ++ [("Approved", "success")])%list)
    end.

(** *** The batch views of [my_period] *)

(** [period_id and period_id.isdigit()], then the period with that key. *)
Definition form_period (db : DB) (period_id : option string)
  : pyresult (option ClassPeriod.t) :=
  match period_id with
  | Some s =>
      if Py.nonempty s && Py.isdigit s then
        n <- Py.int s ;; Ok (get_class_period db n)
      else Ok None
  | None => Ok None
  end.

(** The optional period filter: students with an active enrollment in the
    period, unless there are none. *)
Definition in_period (db : DB) (period : option ClassPeriod.t) (p : Pass.t)
  : bool :=
  match period with
  | Some c =>
      let student_ids :=
        map StudentEnrollment.student_id
            (filter (fun e =>
                       (StudentEnrollment.class_period_id e =? ClassPeriod.id c)
                       && (StudentEnrollment.is_active e =? 1))
                    (student_enrollments db)) in
      match student_ids with
      | [] => true
      | _ => existsb (Z.eqb (Pass.student_id p)) student_ids
      end
  | None => true
  end.

Definition approve_one (cu : CurrentUser.t) (now : Py.datetime)
    (acc : DB * Z) (p : Pass.t) : pyresult (DB * Z) :=
  let '(db, updated) := acc in
  p1 <- activate db p now ;;
  Ok (add_log (update_pass db p1) (log_entry cu "pass_approved" p (Some "batch")),
      updated + 1).

Definition my_period_approve_all (db : DB) (cu : CurrentUser.t)
    (period_id : option string) (now : Py.datetime)
  : pyresult (DB * Response) :=
  if negb (is_teacher cu) && negb (is_admin cu) then
    Ok (db, [("Teacher/Admin access required.", "danger")])
  else
    period <- form_period db period_id ;;
    let q :=
      filter (fun p => PassState_eqb (Pass.state p) PENDING
                       && visible db cu p
                       && in_period db period p)
             (passes db) in
    '(db1, updated) <- foldM (approve_one cu now) q (db, 0) ;;
    if Py.truthy updated then
      db2 <- commit db1 ;;
      Ok (db2, [(("Approved " ++ Py.str updated ++ " pending pass(es).")%string,
                 "success")])
    else Ok (db1, [("No pending passes to approve.", "info")]).

(** The selection of the three [*_selected] views: passes with one of the
    submitted keys and the given state, visible to the user.  [ids] are the
    submitted keys as the integers the store compares them to. *)
Definition selection (db : DB) (cu : CurrentUser.t) (ids : list Z)
    (st : PassState) : list Pass.t :=
  filter (fun p => existsb (Z.eqb (Pass.id p)) ids
                   && PassState_eqb (Pass.state p) st
                   && visible db cu p)
         (passes db).

Definition set_state_one (cu : CurrentUser.t) (st : PassState)
    (action : string) (acc : DB * Z) (p : Pass.t) : DB * Z :=
  let '(db, count) := acc in
  (add_log (update_pass db (Pass.set_state p st))
           (log_entry cu action p (Some "batch")),
   count + 1).

Definition my_period_deny_selected (db : DB) (cu : CurrentUser.t)
    (ids : list Z) : pyresult (DB * Response) :=
  if negb (is_teacher cu) && negb (is_admin cu) then
    Ok (db, [("Teacher/Admin access required.", "danger")])
  else
    match ids with
    | [] => Ok (db, [("No passes selected.", "info")])
    | _ =>
        let q := selection db cu ids PENDING in
        let '(db1, count) :=
          fold_left (set_state_one cu DENIED "pass_denied") q (db, 0) in
        if Py.truthy count then
          db2 <- commit db1 ;;
          Ok (db2, [(("Denied " ++ Py.str count ++ " pass(es).")%string,
                     "success")])
        else Ok (db1, [("No pending passes in selection.", "info")])
    end.

Definition my_period_cancel_selected (db : DB) (cu : CurrentUser.t)
    (ids : list Z) : pyresult (DB * Response) :=
  if negb (is_teacher cu) && negb (is_admin cu) then
    Ok (db, [("Teacher/Admin access required.", "danger")])
  else
    match ids with
    | [] => Ok (db, [("No passes selected.", "info")])
    | _ =>
        let q := selection db cu ids ACTIVE in
        let '(db1, count) :=
          fold_left (set_state_one cu CANCELLED "pass_cancelled") q (db, 0) in
        if Py.truthy count then
          db2 <- commit db1 ;;
          Ok (db2, [(("Cancelled " ++ Py.str count ++ " pass(es).")%string,
                     "success")])
        else Ok (db1, [("No active passes in selection.", "info")])
    end.

Definition override_action (cu : CurrentUser.t) : string :=
  if is_admin cu then "override_admin" else "override_teacher".

(** The effect of one extension: the new deadline on the pass, one
    [Override] row, one log entry. *)
Definition extend (db : DB) (cu : CurrentUser.t) (p : Pass.t)
    (prev new : Py.datetime) (reason : option string) : DB :=
  add_log
    (add_override
       (update_pass db (Pass.set_expires_at p (Some new)))
       {| Override.pass_id := Pass.id p;
          Override.performed_by_id := CurrentUser.id cu;
          Override.previous_expires_at := prev;
          Override.new_expires_at := new;
          Override.reason := reason |})
    (log_entry cu (override_action cu) p reason).

Definition override_one (cu : CurrentUser.t) (add_minutes : Z)
    (reason : option string) (acc : DB * Z) (p : Pass.t) : pyresult (DB * Z) :=
  let '(db, count) := acc in
  match Pass.expires_at p with
  | None => Ok (db, count)
  | Some prev =>
      td <- Py.timedelta_minutes add_minutes ;;
      new <- Py.datetime_add prev td ;;
      Ok (extend db cu p prev new reason, count + 1)
  end.

Definition my_period_override_selected (db : DB) (cu : CurrentUser.t)
    (ids : list Z) (add_minutes_field reason_field : option string)
  : pyresult (DB * Response) :=
  if negb (is_teacher cu) && negb (is_admin cu) then
    Ok (db, [("Teacher/Admin access required.", "danger")])
  else
    add_minutes <- Py.int (form_get add_minutes_field "0") ;;
    let reason := form_reason reason_field in
    if match ids with [] => true | _ => false end || (add_minutes <=? 0) then
      Ok (db, [("Select passes and specify minutes > 0.", "warning")])
    else
      let q := selection db cu ids ACTIVE in
      '(db1, count) <- foldM (override_one cu add_minutes reason) q (db, 0) ;;
      if Py.truthy count then
        db2 <- commit db1 ;;
        Ok (db2, [(("Overridden " ++ Py.str count ++ " pass(es) by +"
                    ++ Py.str add_minutes ++ " minutes.")%string, "success")])
      else Ok (db1, [("No active passes in selection.", "info")]).

(** *** [deny], [cancel], [override] *)

Definition deny (db : DB) (cu : CurrentUser.t) (pass_id : Z)
  : pyresult (DB * Response) :=
  if negb (is_teacher cu || is_admin cu) then
    Ok (db, [("Teacher/Admin required to deny.", "danger")])
  else
    match get_pass db pass_id with
    | None => Ok (db, [("Pass not found.", "warning")])
    | Some p =>
        if negb (PassState_eqb (Pass.state p) PENDING) then
          Ok (db, [("Only pending passes can be denied.", "warning")])
        else
          let db1 := update_pass db (Pass.set_state p DENIED) in
          let db2 := add_log db1 (log_entry cu "pass_denied" p None) in
          db3 <- commit db2 ;;
          Ok (db3, [("Denied", "danger")])
    end.

Definition cancel (db : DB) (cu : CurrentUser.t) (pass_id : Z)
  : pyresult (DB * Response) :=
  match get_pass db pass_id with
  | None => Ok (db, [("Pass not found.", "warning")])
  | Some p =>
      if negb (is_admin cu || is_teacher cu
               || (Pass.student_id p =? CurrentUser.id cu))
      then Ok (db, [("Not authorized.", "danger")])
      else if PassState_eqb (Pass.state p) CANCELLED
              || PassState_eqb (Pass.state p) EXPIRED
              || PassState_eqb (Pass.state p) ARCHIVED
              || PassState_eqb (Pass.state p) DENIED
      then Ok (db, [("Pass is not active.", "warning")])
      else
        let db1 := update_pass db (Pass.set_state p CANCELLED) in
        let db2 := add_log db1 (log_entry cu "pass_cancelled" p None) in
        db3 <- commit db2 ;;
        Ok (db3, [("Pass cancelled.", "success")])
  end.

(** [p.expires_at + timedelta(minutes=minutes)]: the operands are evaluated
    first, then the sum, which is a [TypeError] on [None]. *)
Definition override (db : DB) (cu : CurrentUser.t) (pass_id : Z)
    (add_minutes_field reason_field : option string)
  : pyresult (DB * Response) :=
  if negb (is_teacher cu || is_admin cu) then
    Ok (db, [("Teacher/Admin required to override.", "danger")])
  else
    match get_pass db pass_id with
    | None => Ok (db, [("Pass not found.", "warning")])
    | Some p =>
        minutes <- Py.int (form_get add_minutes_field "0") ;;
        let reason := form_reason reason_field in
        td <- Py.timedelta_minutes minutes ;;
        match Pass.expires_at p with
        | None => Raise TypeError
        | Some prev =>
            new <- Py.datetime_add prev td ;;
            let db1 := extend db cu p prev new reason in
            db2 <- commit db1 ;;
            if negb (is_admin cu) then
              Ok (db2, [("Timer overridden. Warning logged.", "warning")])
            else Ok (db2, [("Timer overridden.", "success")])
        end
    end.

(** *** [request_pass]: routing a request to its teacher *)

Inductive Method : Type := GET | POST.

Record PassRequest : Type :=
  { method : Method;
    args_token : option string;       (* request.args.get("token") *)
    cookie_token : option string;     (* request.cookies.get("kiosk_token") *)
    form_destination_id : option string;
    form_class_period_id : option string }.

(** [a or b] on two optional strings. *)
Definition or_else (a b : option string) : option string :=
  match a with
  | Some s => if Py.nonempty s then a else b
  | None => b
  end.

(** Truthiness of an optional key. *)
Definition some_truthy (k : option Z) : bool :=
  match k with Some n => Py.truthy n | None => false end.

Record KioskBinding : Type :=
  { is_kiosk : bool; kiosk_cp_id : option Z; kiosk_teacher_id : option Z }.

(** Lines 91-104: the binding the kiosk token stands for. *)
Definition kiosk_binding (db : DB) (kiosk_token : option string)
  : KioskBinding :=
  let none := {| is_kiosk := false; kiosk_cp_id := None;
                 kiosk_teacher_id := None |} in
  match kiosk_token with
  | Some tok =>
      if Py.nonempty tok then
        match find (fun k => String.eqb (Kiosk.token k) tok
                             && (Kiosk.is_active k =? 1)) (kiosks db) with
        | Some kiosk =>
            if some_truthy (Kiosk.class_period_id kiosk) then
              {| is_kiosk := true; kiosk_cp_id := Kiosk.class_period_id kiosk;
                 kiosk_teacher_id := None |}
            else if some_truthy (Kiosk.teacher_id kiosk) then
              {| is_kiosk := true; kiosk_cp_id := None;
                 kiosk_teacher_id := Kiosk.teacher_id kiosk |}
            else {| is_kiosk := true; kiosk_cp_id := None;
                    kiosk_teacher_id := None |}
        | None => none
        end
      else none
  | None => none
  end.

(** The three variables the routing assigns. *)
Record Routing : Type :=
  { target_teacher_id : option Z;
    selected_cp : option ClassPeriod.t;
    auto_assigned_note : option string }.

(** [selected_cp.teacher.full_name]: the relationship is [None] when the
    user row is missing. *)
Definition teacher_full_name (db : DB) (cp : ClassPeriod.t) : pyresult string :=
  match get_user db (ClassPeriod.teacher_id cp) with
  | Some t => Ok (User.full_name t)
  | None => Raise AttributeError
  end.

(** The [enrolled_periods] query: active periods with an active enrollment
    of the student, owned by an active user whose role is Teacher; rows in
    the order of the periods. *)
Definition enrolled_periods (db : DB) (cu : CurrentUser.t)
  : list ClassPeriod.t :=
  filter (fun c =>
            existsb (fun e =>
                       (StudentEnrollment.class_period_id e =? ClassPeriod.id c)
                       && (StudentEnrollment.student_id e =? CurrentUser.id cu)
                       && (StudentEnrollment.is_active e =? 1))
                    (student_enrollments db)
            && (ClassPeriod.is_active c =? 1)
            && existsb (fun u =>
                          (User.id u =? ClassPeriod.teacher_id c)
                          && (User.is_active_flag u =? 1)
                          && existsb (fun r =>
                                        (Role.id r =? User.role_id u)
                                        && String.eqb (Role.name r) "Teacher")
                                     (roles db))
                       (users db))
         (class_periods db).

(** [{p.teacher_id for p in enrolled_periods}], without repetition. *)
Definition unique_teachers (periods : list ClassPeriod.t) : list Z :=
  nodup Z.eq_dec (map ClassPeriod.teacher_id periods).

Definition not_resolved (r : Routing) : bool :=
  negb (some_truthy (target_teacher_id r)).

(** Lines 125-165: kiosk period, else kiosk teacher, else the only teacher
    of the student's enrollments. *)
Definition route_on_load (db : DB) (cu : CurrentUser.t) (kb : KioskBinding)
  : pyresult Routing :=
  let r0 := {| target_teacher_id := None; selected_cp := None;
               auto_assigned_note := None |} in
  r1 <-
    (if some_truthy (kiosk_cp_id kb) then
       match kiosk_cp_id kb with
       | Some cp_id =>
           match get_class_period db cp_id with
           | Some cp =>
               n <- teacher_full_name db cp ;;
               Ok {| target_teacher_id := Some (ClassPeriod.teacher_id cp);
                     selected_cp := Some cp;
                     auto_assigned_note :=
                       Some ("Auto-assigned to " ++ n ++ " ("
                             ++ ClassPeriod.name cp ++ ")")%string |}
           | None => Ok r0
           end
       | None => Ok r0
       end
     else if some_truthy (kiosk_teacher_id kb) then
       match kiosk_teacher_id kb with
       | Some t_id =>
           match get_user db t_id with
           | Some t =>
               Ok {| target_teacher_id := Some (User.id t);
                     selected_cp := None;
                     auto_assigned_note :=
                       Some ("Auto-assigned to " ++ User.full_name t)%string |}
           | None => Ok r0
           end
       | None => Ok r0
       end
     else Ok r0) ;;
  if not_resolved r1 then
    let periods := enrolled_periods db cu in
    match unique_teachers periods with
    | [t_id] =>
        match periods with
        | cp :: _ =>
            n <- teacher_full_name db cp ;;
            Ok {| target_teacher_id := Some t_id;
                  selected_cp := Some cp;
                  auto_assigned_note :=
                    Some ("Auto-assigned from enrollment: " ++ n ++ " ("
                          ++ ClassPeriod.name cp ++ ")")%string |}
        | [] => Ok {| target_teacher_id := Some t_id;
                      selected_cp := selected_cp r1;
                      auto_assigned_note := auto_assigned_note r1 |}
        end
    | _ => Ok r1
    end
  else Ok r1.

(** [int(sel_cp_id)], 0 on [ValueError]. *)
Definition form_cp_id (sel_cp_id : string) : Z :=
  match Py.int sel_cp_id with
  | Ok n => n
  | Raise _ => 0
  end.

Definition is_enrolled (db : DB) (cu : CurrentUser.t) (cp : ClassPeriod.t)
  : bool :=
  existsb (fun e =>
             (StudentEnrollment.student_id e =? CurrentUser.id cu)
             && (StudentEnrollment.class_period_id e =? ClassPeriod.id cp)
             && (StudentEnrollment.is_active e =? 1))
          (student_enrollments db).

(** Lines 174-211: under strict kiosk binding the kiosk's routing stands;
    otherwise the student's own choice of period, then the inference from
    the enrollments. *)
Definition route_on_post (db : DB) (cu : CurrentUser.t) (kb : KioskBinding)
    (kiosk_strict : bool) (sel_cp_id : option string) (r : Routing)
  : Routing :=
  if kiosk_strict && is_kiosk kb
     && (some_truthy (kiosk_cp_id kb) || some_truthy (kiosk_teacher_id kb))
  then r
  else
    let r1 :=
      match sel_cp_id with
      | Some s =>
          if Py.nonempty s then
            let cp_id := form_cp_id s in
            if Py.truthy cp_id then
              match get_class_period db cp_id with
              | Some cp =>
                  if is_enrolled db cu cp then
                    {| target_teacher_id := Some (ClassPeriod.teacher_id cp);
                       selected_cp := Some cp;
                       auto_assigned_note := auto_assigned_note r |}
                  else r
              | None => r
              end
            else r
          else r
      | None => r
      end in
    if not_resolved r1 then
      let periods := enrolled_periods db cu in
      match unique_teachers periods with
      | [t_id] =>
          {| target_teacher_id := Some t_id;
             selected_cp := match periods with
                            | cp :: _ => Some cp
                            | [] => selected_cp r1
                            end;
             auto_assigned_note := auto_assigned_note r1 |}
      | _ => r1
      end
    else r1.

(** The message of the [pass_requested] log entry. *)
Definition request_message (target : Z) (kiosk_token : option string)
    (cp : option ClassPeriod.t) : string :=
  (("to_teacher:" ++ Py.str target)
   ++ match kiosk_token with
      | Some tok =>
          if Py.nonempty tok then " via_kiosk:" ++ String.substring 0 6 tok
          else EmptyString
      | None => EmptyString
      end
   ++ match cp with
      | Some c => " period:" ++ Py.str (ClassPeriod.id c)
      | None => EmptyString
      end)%string.

Definition request_pass (db : DB) (cu : CurrentUser.t) (req : PassRequest)
    (now : Py.datetime) : pyresult (DB * Response) :=
  if negb (is_student cu) then
    Ok (db, [("Only students can request passes.", "warning")])
  else
    let kiosk_strict :=
      String.eqb (get_setting db "kiosk_strict_binding" "true") "true" in
    let enforce_window :=
      String.eqb (get_setting db "enforce_period_time_window" "false") "true" in
    let kiosk_token := or_else (args_token req) (cookie_token req) in
    let kb := kiosk_binding db kiosk_token in
    r <- route_on_load db cu kb ;;
    match method req with
    | GET => Ok (db, [])
    | POST =>
        dest_id <- Py.int (form_get (form_destination_id req) "0") ;;
        match get_destination db dest_id with
        | None => Ok (db, [("Invalid destination.", "warning")])
        | Some dest =>
            let r' := route_on_post db cu kb kiosk_strict
                                    (form_class_period_id req) r in
            match target_teacher_id r' with
            | Some target =>
                if Py.truthy target then
                  outside <-
                    (if enforce_window then
                       match selected_cp r' with
                       | Some cp =>
                           inside <- ClassPeriod.is_now_in_window cp now ;;
                           Ok (negb inside)
                       | None => Ok false
                       end
                     else Ok false) ;;
                  if outside then
                    Ok (db, [("Requests are restricted outside the class period time window.",
                              "danger")])
                  else
                    let p :=
                      {| Pass.id := next_pass_id db;
                         Pass.student_id := CurrentUser.id cu;
                         Pass.destination_id := Destination.id dest;
                         Pass.issued_at := None;
                         Pass.expires_at := None;
                         Pass.state := PENDING |} in
                    let db1 := with_passes db (passes db ++ [p])%list in
                    let db2 :=
                      add_assignment db1
                        {| PassAssignment.pass_id := Pass.id p;
                           PassAssignment.teacher_id := target |} in
                    let db3 :=
                      add_log db2
                        (log_entry cu "pass_requested" p
                           (Some (request_message target kiosk_token
                                                  (selected_cp r')))) in
                    db4 <- commit db3 ;;
                    Ok (db4, [("Pass requested. Awaiting teacher approval.",
                               "success")])
                else
                  Ok (db, [("Please select a class period (or use a kiosk).",
                            "warning")])
            | None =>
                Ok (db, [("Please select a class period (or use a kiosk).",
                          "warning")])
            end
        end
    end.

End Passes.

(** * Specification vocabulary *)

(** ** Time windows *)

(** A stored time is absent when it is NULL or the empty string. *)
Definition absent (t : option string) : Prop := t = None \/ t = Some EmptyString.

(** The window a period's two times describe, once both have parsed. *)
Definition in_time (now : Py.datetime) (sh sm eh em : Z) : bool :=
  (sh * 60 + sm <=? Py.hour now * 60 + Py.minute now)
  && (Py.hour now * 60 + Py.minute now <=? eh * 60 + em).

(** The period with its day mask removed. *)
Definition without_mask (p : ClassPeriod.t) : ClassPeriod.t :=
  {| ClassPeriod.id := ClassPeriod.id p; ClassPeriod.name := ClassPeriod.name p;
     ClassPeriod.teacher_id := ClassPeriod.teacher_id p;
     ClassPeriod.start_time := ClassPeriod.start_time p;
     ClassPeriod.end_time := ClassPeriod.end_time p;
     ClassPeriod.days_mask := None; ClassPeriod.room := ClassPeriod.room p;
     ClassPeriod.is_active := ClassPeriod.is_active p |}.

(** ** The lifecycle as a transition system *)

(** One request to one of the views that create or change a pass. *)
Inductive Operation : Type :=
| Request (cu : CurrentUser.t) (req : Passes.PassRequest) (now : Py.datetime)
| Approve (cu : CurrentUser.t) (pass_id : Z) (now : Py.datetime)
| ApproveAll (cu : CurrentUser.t) (period_id : option string) (now : Py.datetime)
| Deny (cu : CurrentUser.t) (pass_id : Z)
| DenySelected (cu : CurrentUser.t) (ids : list Z)
| Cancel (cu : CurrentUser.t) (pass_id : Z)
| CancelSelected (cu : CurrentUser.t) (ids : list Z)
| Extend (cu : CurrentUser.t) (pass_id : Z) (add_minutes reason : option string)
| ExtendSelected (cu : CurrentUser.t) (ids : list Z)
    (add_minutes reason : option string)
| Sweep (cu : CurrentUser.t) (now : Py.datetime).

Definition handle (op : Operation) (db : DB) : pyresult (DB * Response) :=
  match op with
  | Request cu req now => Passes.request_pass db cu req now
  | Approve cu pass_id now => Passes.approve db cu pass_id now
  | ApproveAll cu period_id now => Passes.my_period_approve_all db cu period_id now
  | Deny cu pass_id => Passes.deny db cu pass_id
  | DenySelected cu ids => Passes.my_period_deny_selected db cu ids
  | Cancel cu pass_id => Passes.cancel db cu pass_id
  | CancelSelected cu ids => Passes.my_period_cancel_selected db cu ids
  | Extend cu pass_id m r => Passes.override db cu pass_id m r
  | ExtendSelected cu ids m r => Passes.my_period_override_selected db cu ids m r
  | Sweep cu now => Passes.index db cu now
  end.

(** The store after the request: what the handler committed, or the store
    as it was when the handler raised. *)
Definition run (db : DB) (op : Operation) : DB :=
  match handle op db with
  | Ok (db', _) => db'
  | Raise _ => db
  end.

(** The stores the lifecycle reaches from [db0], one request at a time. *)
Inductive reachable (db0 : DB) : DB -> Prop :=
| reach_start : reachable db0 db0
| reach_step (db : DB) (op : Operation) :
    reachable db0 db -> reachable db0 (run db op).

(** The invariant of the two timestamps of a pass. *)
Definition time_ordered (p : Pass.t) : Prop :=
  (Pass.expires_at p <> None <-> Pass.issued_at p <> None)
  /\ (forall i e,
        Pass.issued_at p = Some i -> Pass.expires_at p = Some e -> i < e).

(** Both timestamps set, or neither. *)
Definition paired (p : Pass.t) : Prop :=
  match Pass.issued_at p, Pass.expires_at p with
  | None, None | Some _, Some _ => True
  | _, _ => False
  end.

(** What a request leaves behind: the store untouched, or a committed
    store in which the timestamps are still paired. *)
Definition kept_or_committed (db db' : DB) : Prop :=
  db' = db \/ (constraints db' = true /\ Forall paired (passes db')).

(** The primary key of [passes]. *)
Definition unique_ids (db : DB) : Prop := NoDup (map Pass.id (passes db)).

(** A store with its key, its constraints and its timestamps in order. *)
Definition well_formed (db : DB) : Prop :=
  unique_ids db /\ constraints db = true /\ Forall time_ordered (passes db).

(** ** Approval *)

(** The pass as approval leaves it: issued at [now], due [minutes] later,
    Active. *)
Definition activated (minutes : Z) (p : Pass.t) (now : Py.datetime) : Pass.t :=
  {| Pass.id := Pass.id p; Pass.student_id := Pass.student_id p;
     Pass.destination_id := Pass.destination_id p;
     Pass.issued_at := Some now;
     Pass.expires_at := Some (now + minutes * Py.US_PER_MINUTE);
     Pass.state := ACTIVE |}.

(** The message of a committed [approve]. *)
Definition APPROVED : flash := ("Approved", "success").

(** The setting that makes [approve] and [request_pass] consult the time
    window is off (its default). *)
Definition window_not_enforced (db : DB) : Prop :=
  String.eqb (Passes.get_setting db "enforce_period_time_window" "false") "true"
  = false.

(** The assignment rows that join a pass to a teacher. *)
Definition rows_for (pass_id teacher_id : Z) (rows : list PassAssignment.t)
  : list PassAssignment.t :=
  filter (fun a => (PassAssignment.pass_id a =? pass_id)
                   && (PassAssignment.teacher_id a =? teacher_id))
         rows.

Definition assignments_of (db : DB) (pass_id teacher_id : Z)
  : list PassAssignment.t :=
  rows_for pass_id teacher_id (pass_assignments db).

(** ** Extension *)

(** The [Override] row of an extension of pass [p] by [minutes]. *)
Definition override_row (cu : CurrentUser.t) (p : Pass.t) (prev : Py.datetime)
    (minutes : Z) (reason : option string) : Override.t :=
  {| Override.pass_id := Pass.id p;
     Override.performed_by_id := CurrentUser.id cu;
     Override.previous_expires_at := prev;
     Override.new_expires_at := prev + minutes * Py.US_PER_MINUTE;
     Override.reason := reason |}.

(** The rows of the ledger that belong to a pass. *)
Definition overrides_of (pass_id : Z) (rows : list Override.t) : list Override.t :=
  filter (fun o => Override.pass_id o =? pass_id) rows.

(** The message of a committed [override] by a teacher. *)
Definition OVERRIDDEN_WARNING : flash :=
  ("Timer overridden. Warning logged.", "warning").

(** *** The batch extension as a loop of row updates *)

Definition has_deadline (p : Pass.t) : bool := negb (Pass.unset (Pass.expires_at p)).

(** The pass after its extension. *)
Definition extended (minutes : Z) (p : Pass.t) : Pass.t :=
  Pass.set_expires_at p
    (option_map (fun prev => prev + minutes * Py.US_PER_MINUTE) (Pass.expires_at p)).

(** The body of the loop of [my_period_override_selected] for a pass with a
    deadline, once the two sums have been computed. *)
Definition extend_row (cu : CurrentUser.t) (minutes : Z) (reason : option string)
    (db : DB) (p : Pass.t) : DB :=
  match Pass.expires_at p with
  | Some prev =>
      Passes.extend db cu p prev (prev + minutes * Py.US_PER_MINUTE) reason
  | None => update_pass db (extended minutes p)
  end.

(** The rows the loop adds to the ledger when it visits [p]. *)
Definition ledger_rows (cu : CurrentUser.t) (minutes : Z) (reason : option string)
    (p : Pass.t) : list Override.t :=
  match Pass.expires_at p with
  | Some prev => [override_row cu p prev minutes reason]
  | None => []
  end.

(** ** Routing *)

(** The kiosk row an active binding for the token resolves to. *)
Definition active_kiosk (db : DB) (tok : string) : option Kiosk.t :=
  find (fun k => String.eqb (Kiosk.token k) tok && (Kiosk.is_active k =? 1))
       (kiosks db).

(** The strict kiosk binding is in force (its default). *)
Definition kiosk_strict (db : DB) : Prop :=
  String.eqb (Passes.get_setting db "kiosk_strict_binding" "true") "true" = true.



(** * A sample school

    Modelled on the seed data: three roles; an admin, two teachers and a
    student; the three seeded destinations; period P (Algebra, owned by Tom)
    and period Q (Biology, owned by Tina), the student enrolled in both; a
    kiosk bound to P.  No setting overrides a default. *)

Definition tom_row : User.t :=
  {| User.id := 2; User.full_name := "Tom Teacher";
     User.is_active_flag := 1; User.role_id := 2 |}.

Definition restroom : Destination.t :=
  {| Destination.id := 1; Destination.name := "Restroom";
     Destination.default_minutes := 5; Destination.max_concurrent := 2 |}.

Definition period_P : ClassPeriod.t :=
  {| ClassPeriod.id := 1; ClassPeriod.name := "Algebra 1 - P1";
     ClassPeriod.teacher_id := 2; ClassPeriod.start_time := None;
     ClassPeriod.end_time := None; ClassPeriod.days_mask := None;
     ClassPeriod.room := Some "101"; ClassPeriod.is_active := 1 |}.

Definition period_Q : ClassPeriod.t :=
  {| ClassPeriod.id := 2; ClassPeriod.name := "Biology - P2";
     ClassPeriod.teacher_id := 4; ClassPeriod.start_time := Some "08:30";
     ClassPeriod.end_time := Some "09:20";
     ClassPeriod.days_mask := Some "1111100";
     ClassPeriod.room := Some "102"; ClassPeriod.is_active := 1 |}.

Definition demo_kiosk : Kiosk.t :=
  {| Kiosk.id := 1; Kiosk.token := "demo-kiosk-token-room-101";
     Kiosk.name := "Room 101 Kiosk"; Kiosk.room := Some "101";
     Kiosk.class_period_id := Some 1; Kiosk.teacher_id := Some 2;
     Kiosk.is_active := 1 |}.

Definition demo_db : DB :=
  {| roles := [ {| Role.id := 1; Role.name := "Admin" |};
                {| Role.id := 2; Role.name := "Teacher" |};
                {| Role.id := 3; Role.name := "Student" |} ];
     users := [ {| User.id := 1; User.full_name := "Alice Admin";
                   User.is_active_flag := 1; User.role_id := 1 |};
                tom_row;
                {| User.id := 3; User.full_name := "Sam Student";
                   User.is_active_flag := 1; User.role_id := 3 |};
                {| User.id := 4; User.full_name := "Tina Teacher";
                   User.is_active_flag := 1; User.role_id := 2 |} ];
     destinations :=
       [ restroom;
         {| Destination.id := 2; Destination.name := "Nurse";
            Destination.default_minutes := 10; Destination.max_concurrent := 1 |};
         {| Destination.id := 3; Destination.name := "Counselor";
            Destination.default_minutes := 15;
            Destination.max_concurrent := -1 |} ];
     class_periods := [ period_P; period_Q ];
     student_enrollments :=
       [ {| StudentEnrollment.id := 1; StudentEnrollment.student_id := 3;
            StudentEnrollment.class_period_id := 1;
            StudentEnrollment.is_active := 1 |};
         {| StudentEnrollment.id := 2; StudentEnrollment.student_id := 3;
            StudentEnrollment.class_period_id := 2;
            StudentEnrollment.is_active := 1 |} ];
     passes := [];
     pass_assignments := [];
     overrides := [];
     logs := [];
     settings :=
       [ {| Setting.key := "kiosk_auto_refresh_seconds";
            Setting.scope := "global"; Setting.value := "10" |};
         {| Setting.key := "near_expiry_seconds";
            Setting.scope := "global"; Setting.value := "120" |} ];
     kiosks := [ demo_kiosk ] |}.

(** The three people, logged in. *)
Definition alice : CurrentUser.t :=
  {| CurrentUser.id := 1; CurrentUser.role_name := "Admin" |}.
Definition tom : CurrentUser.t :=
  {| CurrentUser.id := 2; CurrentUser.role_name := "Teacher" |}.
Definition sam : CurrentUser.t :=
  {| CurrentUser.id := 3; CurrentUser.role_name := "Student" |}.

(** Monday 2024-01-01 (ordinal 738886) at the given time of day. *)
Definition monday (h m s : Z) : Py.datetime := Py.at_time 738886 h m s.

(** Sam asks for the restroom at the kiosk of room 101. *)
Definition kiosk_request : Passes.PassRequest :=
  {| Passes.method := Passes.POST;
     Passes.args_token := Some "demo-kiosk-token-room-101";
     Passes.cookie_token := None;
     Passes.form_destination_id := Some "1";
     Passes.form_class_period_id := None |}.

(** The same, with period Q (Biology, Tina's) picked on the form. *)
Definition kiosk_request_choosing_Q : Passes.PassRequest :=
  {| Passes.method := Passes.POST;
     Passes.args_token := Some "demo-kiosk-token-room-101";
     Passes.cookie_token := None;
     Passes.form_destination_id := Some "1";
     Passes.form_class_period_id := Some "2" |}.

(** Sam's pass while pending, and once approved at 10:00:00: due at
    10:05:00. *)
Definition sam_pass : Pass.t :=
  {| Pass.id := 1; Pass.student_id := 3; Pass.destination_id := 1;
     Pass.issued_at := None; Pass.expires_at := None; Pass.state := PENDING |}.

Definition sam_active : Pass.t := activated 5 sam_pass (monday 10 0 0).

(** The store once Sam's request is pending; once Tom has approved it at
    10:00:00; once Tom has extended it by 10 minutes; and, without the
    extension, once the sweep of 10:20:00 has expired it. *)
Definition pending_db : DB := run demo_db (Request sam kiosk_request (monday 9 59 0)).
Definition active_db : DB := run pending_db (Approve tom 1 (monday 10 0 0)).
Definition extended_db : DB :=
  run active_db (Extend tom 1 (Some "10") (Some "medical")).
Definition expired_db : DB := run active_db (Sweep tom (monday 10 20 0)).

(** A period from 08:30 to 09:20 whose day mask has five characters. *)
Definition short_mask_period : ClassPeriod.t :=
  {| ClassPeriod.id := 3; ClassPeriod.name := "Chemistry - P3";
     ClassPeriod.teacher_id := 2;
     ClassPeriod.start_time := Some "08:30";
     ClassPeriod.end_time := Some "09:20";
     ClassPeriod.days_mask := Some "11111";
     ClassPeriod.room := Some "103"; ClassPeriod.is_active := 1 |}.


(** * Further vocabulary *)

(** ** Time windows with a full day mask *)

(** A period from 22:00 to 06:00: its end is before its start. *)
Definition overnight_period : ClassPeriod.t :=
  {| ClassPeriod.id := 4; ClassPeriod.name := "Night study";
     ClassPeriod.teacher_id := 2;
     ClassPeriod.start_time := Some "22:00";
     ClassPeriod.end_time := Some "06:00";
     ClassPeriod.days_mask := None;
     ClassPeriod.room := None; ClassPeriod.is_active := 1 |}.

(** ** How the handlers change the rows of [passes] *)

(** The writes the handlers make to a stored pass: the activation of a
    Pending pass; the denial of a Pending pass; the cancellation of a
    Pending or Active pass; the expiry of an Active pass with a deadline;
    a new deadline on a pass that has one. *)
Inductive row_change : Pass.t -> Pass.t -> Prop :=
| change_activated (p : Pass.t) (minutes : Z) (now : Py.datetime) :
    Pass.state p = PENDING -> row_change p (activated minutes p now)
| change_denied (p : Pass.t) :
    Pass.state p = PENDING -> row_change p (Pass.set_state p DENIED)
| change_cancelled (p : Pass.t) :
    Pass.state p = PENDING \/ Pass.state p = ACTIVE ->
    row_change p (Pass.set_state p CANCELLED)
| change_expired (p : Pass.t) (e : Py.datetime) :
    Pass.state p = ACTIVE -> Pass.expires_at p = Some e ->
    row_change p (Pass.set_state p EXPIRED)
| change_extended (p : Pass.t) (prev new : Py.datetime) :
    Pass.expires_at p = Some prev ->
    row_change p (Pass.set_expires_at p (Some new)).

(** A pass as [request_pass] creates it. *)
Definition requested (db : DB) (p : Pass.t) : Prop :=
  Pass.id p = next_pass_id db /\ Pass.state p = PENDING
  /\ Pass.issued_at p = None /\ Pass.expires_at p = None.

(** The table after a request: every row kept or changed by one of the
    writes above, in place, and at most one requested pass added at the
    end. *)
Definition rows_step (db db' : DB) : Prop :=
  exists (h : Pass.t -> Pass.t) (added : list Pass.t),
    passes db' = (map h (passes db) ++ added)%list
    /\ (forall p, In p (passes db) -> h p = p \/ row_change p (h p))
    /\ (added = [] \/ exists p, added = [p] /\ requested db p).

(** The states a pass can be found in at any time after state [a]. *)
Definition later_state (a b : PassState) : bool :=
  match a, b with
  | PENDING, (ACTIVE | EXPIRED | CANCELLED | DENIED) => true
  | ACTIVE, (EXPIRED | CANCELLED) => true
  | _, _ => false
  end.

(** No Pending pass carries a timestamp. *)
Definition unissued_while_pending (db : DB) : Prop :=
  forall p, In p (passes db) -> Pass.state p = PENDING ->
    Pass.issued_at p = None /\ Pass.expires_at p = None.

(** ** What the pass views leave alone *)

(** The tables of people, places, periods, settings and kiosks. *)
Definition same_configuration (db db' : DB) : Prop :=
  roles db' = roles db /\ users db' = users db
  /\ destinations db' = destinations db
  /\ class_periods db' = class_periods db
  /\ student_enrollments db' = student_enrollments db
  /\ settings db' = settings db /\ kiosks db' = kiosks db.

(** The assignment, override and log tables keep their rows, in order, and
    get new rows at the end. *)
Definition ledgers_grow (db db' : DB) : Prop :=
  (exists l, pass_assignments db' = (pass_assignments db ++ l)%list)
  /\ (exists l, overrides db' = (overrides db ++ l)%list)
  /\ (exists l, logs db' = (logs db ++ l)%list).

Definition frame (db db' : DB) : Prop :=
  same_configuration db db' /\ ledgers_grow db db'.

(** ** Who may do what *)

Definition staff (cu : CurrentUser.t) : bool :=
  Passes.is_teacher cu || Passes.is_admin cu.

(** The request is to a view its user has no access to: a view for
    teachers and admins asked by someone else, or [request_pass] asked by
    someone who is not a student. *)
Definition refused (op : Operation) : bool :=
  match op with
  | Request cu _ _ => negb (Passes.is_student cu)
  | Cancel _ _ => false
  | Approve cu _ _ | ApproveAll cu _ _ | Deny cu _ | DenySelected cu _
  | CancelSelected cu _ | Extend cu _ _ _ | ExtendSelected cu _ _ _
  | Sweep cu _ => negb (staff cu)
  end.

(** [cancel]: staff, or the student of the pass. *)
Definition may_cancel (cu : CurrentUser.t) (p : Pass.t) : bool :=
  Passes.is_admin cu || Passes.is_teacher cu
  || (Pass.student_id p =? CurrentUser.id cu).

(** A pass that is Pending or Active. *)
Definition open_state (s : PassState) : bool :=
  match s with PENDING | ACTIVE => true | _ => false end.

(** ** Who a request can be routed to *)

(** An active kiosk with this token is bound to a period of the teacher, or
    to the teacher. *)
Definition kiosk_teacher (db : DB) (tok : option string) (t : Z) : Prop :=
  exists s k,
    tok = Some s /\ active_kiosk db s = Some k
    /\ ((exists c cp, Kiosk.class_period_id k = Some c
                      /\ get_class_period db c = Some cp
                      /\ ClassPeriod.teacher_id cp = t)
        \/ Kiosk.teacher_id k = Some t).

(** The teacher owns a period in which the student has an active
    enrollment. *)
Definition enrolled_with (db : DB) (cu : CurrentUser.t) (t : Z) : Prop :=
  exists cp,
    In cp (class_periods db) /\ ClassPeriod.teacher_id cp = t
    /\ Passes.is_enrolled db cu cp = true.

(** The teacher stands behind the kiosk in use, or teaches the student. *)
Definition routing_authority (db : DB) (cu : CurrentUser.t) (tok : option string)
    (t : Z) : Prop :=
  kiosk_teacher db tok t \/ enrolled_with db cu t.

(** The token [request_pass] reads: the query parameter, else the cookie. *)
Definition request_token (req : Passes.PassRequest) : option string :=
  Passes.or_else (Passes.args_token req) (Passes.cookie_token req).

(** The pass [request_pass] stores for the student. *)
Definition new_pass (db : DB) (cu : CurrentUser.t) (dest : Destination.t) : Pass.t :=
  {| Pass.id := next_pass_id db; Pass.student_id := CurrentUser.id cu;
     Pass.destination_id := Destination.id dest;
     Pass.issued_at := None; Pass.expires_at := None; Pass.state := PENDING |}.

(** A request without kiosk token and without a chosen period. *)
Definition plain_request (destination_id : string) : Passes.PassRequest :=
  {| Passes.method := Passes.POST; Passes.args_token := None;
     Passes.cookie_token := None;
     Passes.form_destination_id := Some destination_id;
     Passes.form_class_period_id := None |}.

(** ** The sweep *)

(** A pass as the sweep of [now] leaves it. *)
Definition swept (now : Py.datetime) (p : Pass.t) : Pass.t :=
  if Passes.is_stale now p then Pass.set_state p EXPIRED else p.

(** The log entry of an expiry. *)
Definition expiry_entry (cu : CurrentUser.t) (p : Pass.t) : LogEntry.t :=
  Passes.log_entry cu "pass_auto_expired" p (Some "expired by system").

(** ** The batch views *)

(** The user of a request to one of the four batch views of [my_period]. *)
Definition batch_view (op : Operation) : option CurrentUser.t :=
  match op with
  | ApproveAll cu _ _ | DenySelected cu _ | CancelSelected cu _
  | ExtendSelected cu _ _ _ => Some cu
  | _ => None
  end.

(** Tina, the other teacher, logged in. *)
Definition tina : CurrentUser.t :=
  {| CurrentUser.id := 4; CurrentUser.role_name := "Teacher" |}.

(** The period has no student with an active enrollment. *)
Definition empty_period (db : DB) (c : ClassPeriod.t) : Prop :=
  forall e, In e (student_enrollments db) ->
    StudentEnrollment.class_period_id e = ClassPeriod.id c ->
    StudentEnrollment.is_active e <> 1.

(** ** [my_period_stats] *)

Module MyPeriod.

(** The [pending_count] of the answer: the rows of the query, which joins
    the Pending passes with the assignment rows of a teacher. *)
Definition my_period_stats (db : DB) (cu : CurrentUser.t) : Z :=
  if negb (Passes.is_teacher cu) && negb (Passes.is_admin cu) then 0
  else
    let pending :=
      filter (fun p => PassState_eqb (Pass.state p) PENDING) (passes db) in
    if Passes.is_teacher cu then
      Z.of_nat
        (List.length
           (flat_map
              (fun p =>
                 filter (fun a => (PassAssignment.pass_id a =? Pass.id p)
                                  && (PassAssignment.teacher_id a =? CurrentUser.id cu))
                        (pass_assignments db))
              pending))
    else Z.of_nat (List.length pending).

End MyPeriod.

(** The Pending passes the views of [my_period] show to the user. *)
Definition pending_for (db : DB) (cu : CurrentUser.t) : list Pass.t :=
  filter (fun p => PassState_eqb (Pass.state p) PENDING && Passes.visible db cu p)
         (passes db).

Definition with_class_periods (db : DB) (xs : list ClassPeriod.t) : DB :=
  {| roles := roles db; users := users db; destinations := destinations db;
     class_periods := xs;
     student_enrollments := student_enrollments db;
     passes := passes db; pass_assignments := pass_assignments db;
     overrides := overrides db; logs := logs db; settings := settings db;
     kiosks := kiosks db |}.

(** The school with a night study period that nobody is enrolled in, Sam's
    request pending. *)
Definition night_db : DB :=
  with_class_periods pending_db (class_periods pending_db ++ [overnight_period])%list.

(** ** The kiosk display ([app/routes/kiosk.py]) *)

Module KioskView.

Record ViewRequest : Type :=
  { args_token : option string;       (* request.args.get("token") *)
    cookie_token : option string }.   (* request.cookies.get("kiosk_token") *)

(** The kiosk row [view] finds for the token of the request. *)
Definition kiosk_of (db : DB) (req : ViewRequest) : option Kiosk.t :=
  match Passes.or_else (args_token req) (cookie_token req) with
  | Some token =>
      if Py.nonempty token then
        find (fun k => String.eqb (Kiosk.token k) token && (Kiosk.is_active k =? 1))
             (kiosks db)
      else None
  | None => None
  end.

(** [view]: the value of the [kiosk_token] cookie the response sets, if it
    sets one.  The page and its banner are rendering and are not
    modelled. *)
Definition view (db : DB) (req : ViewRequest) : option string :=
  match kiosk_of db req with
  | Some kiosk =>
      match cookie_token req with
      | Some c => if Py.nonempty c then None else Some (Kiosk.token kiosk)
      | None => Some (Kiosk.token kiosk)
      end
  | None => None
  end.

(** The [remaining_seconds] of a row of [data], computed by [to_row]. *)
Definition to_row_remaining (p : Pass.t) (now : Py.datetime) : Z :=
  match Pass.expires_at p with
  | Some e => Z.max 0 (Py.int_total_seconds (Py.datetime_sub e now))
  | None => 0
  end.

End KioskView.

(** The request of a browser that holds the cookie [view] has set. *)
Definition with_cookie (req : Passes.PassRequest) (c : string) : Passes.PassRequest :=
  {| Passes.method := Passes.method req;
     Passes.args_token := None;
     Passes.cookie_token := Some c;
     Passes.form_destination_id := Passes.form_destination_id req;
     Passes.form_class_period_id := Passes.form_class_period_id req |}.

(** ** The admin views ([app/routes/admin.py]) *)

Definition with_destinations (db : DB) (xs : list Destination.t) : DB :=
  {| roles := roles db; users := users db; destinations := xs;
     class_periods := class_periods db;
     student_enrollments := student_enrollments db;
     passes := passes db; pass_assignments := pass_assignments db;
     overrides := overrides db; logs := logs db; settings := settings db;
     kiosks := kiosks db |}.

Definition with_settings (db : DB) (xs : list Setting.t) : DB :=
  {| roles := roles db; users := users db; destinations := destinations db;
     class_periods := class_periods db;
     student_enrollments := student_enrollments db;
     passes := passes db; pass_assignments := pass_assignments db;
     overrides := overrides db; logs := logs db; settings := xs;
     kiosks := kiosks db |}.

Definition with_kiosks (db : DB) (xs : list Kiosk.t) : DB :=
  {| roles := roles db; users := users db; destinations := destinations db;
     class_periods := class_periods db;
     student_enrollments := student_enrollments db;
     passes := passes db; pass_assignments := pass_assignments db;
     overrides := overrides db; logs := logs db; settings := settings db;
     kiosks := xs |}.

(** [db.session.get(Kiosk, kiosk_id)] *)
Definition get_kiosk (db : DB) (kiosk_id : Z) : option Kiosk.t :=
  find (fun k => Kiosk.id k =? kiosk_id) (kiosks db).

(** Attribute writes on a loaded row: the row with its key is replaced. *)
Definition update_kiosk (db : DB) (k : Kiosk.t) : DB :=
  with_kiosks db
    (map (fun q => if Kiosk.id q =? Kiosk.id k then k else q) (kiosks db)).

Definition update_destination (db : DB) (d : Destination.t) : DB :=
  with_destinations db
    (map (fun q => if Destination.id q =? Destination.id d then d else q)
         (destinations db)).

Module Admin.

(** The views below write rows of kiosks, destinations and settings and add
    a log entry.  No constraint of the schema bears on the columns they
    write (SQLite does not enforce the foreign keys), so their commit stores
    what they wrote; the errors are those of the conversions of form fields
    and of an integer too large for the store. *)

(** An integer on its way into an INTEGER column: 64 bits, signed. *)
Definition sqlite_integer (n : Z) : pyresult Z :=
  if (- 2 ^ 63 <=? n) && (n <=? 2 ^ 63 - 1) then Ok n else Raise OverflowError.

Definition sqlite_integer_or_null (k : option Z) : pyresult (option Z) :=
  match k with
  | Some n => _ <- sqlite_integer n ;; Ok k
  | None => Ok None
  end.

Definition ADMIN_REQUIRED : flash := ("Admin access required.", "danger").

(** [require_admin]: whether it answers with a redirect. *)
Definition require_admin (cu : CurrentUser.t) : bool :=
  negb (String.eqb (CurrentUser.role_name cu) "Admin").

Definition log_entry (cu : CurrentUser.t) (action target_type : string)
    (target_id : option Z) (message : option string) : LogEntry.t :=
  {| LogEntry.actor_id := Some (CurrentUser.id cu);
     LogEntry.action := action;
     LogEntry.target_type := Some target_type;
     LogEntry.target_id := target_id;
     LogEntry.message := message |}.

(** *** Destinations *)

(** [int(request.form.get(key, default))], the default being an integer
    column. *)
Definition form_int (field : option string) (default : Z) : pyresult Z :=
  match field with
  | Some s => Py.int s
  | None => Ok default
  end.

Definition destinations_update (db : DB) (cu : CurrentUser.t) (dest_id : Z)
    (form_default_minutes form_max_concurrent : option string)
  : pyresult (DB * Response) :=
  if require_admin cu then Ok (db, [ADMIN_REQUIRED])
  else
    match get_destination db dest_id with
    | None => Ok (db, [("Destination not found.", "warning")])
    | Some d =>
        default_minutes <- form_int form_default_minutes
                                    (Destination.default_minutes d) ;;
        max_concurrent <- form_int form_max_concurrent
                                   (Destination.max_concurrent d) ;;
        let d' := {| Destination.id := Destination.id d;
                     Destination.name := Destination.name d;
                     Destination.default_minutes := default_minutes;
                     Destination.max_concurrent := max_concurrent |} in
        _ <- sqlite_integer default_minutes ;;
        _ <- sqlite_integer max_concurrent ;;
        Ok (add_log (update_destination db d')
                    (log_entry cu "dest_updated" "destination"
                               (Some (Destination.id d)) None),
            [("Destination updated.", "success")])
    end.

(** *** Kiosks *)

Definition set_is_active (k : Kiosk.t) (v : Z) : Kiosk.t :=
  {| Kiosk.id := Kiosk.id k; Kiosk.token := Kiosk.token k;
     Kiosk.name := Kiosk.name k; Kiosk.room := Kiosk.room k;
     Kiosk.class_period_id := Kiosk.class_period_id k;
     Kiosk.teacher_id := Kiosk.teacher_id k; Kiosk.is_active := v |}.

Definition kiosks_toggle (db : DB) (cu : CurrentUser.t) (kiosk_id : Z)
  : DB * Response :=
  if require_admin cu then (db, [ADMIN_REQUIRED])
  else
    match get_kiosk db kiosk_id with
    | None => (db, [("Kiosk not found.", "warning")])
    | Some k =>
        let k' := set_is_active k (if Py.truthy (Kiosk.is_active k) then 0 else 1) in
        (add_log (update_kiosk db k')
                 (log_entry cu "kiosk_toggle" "kiosk" (Some (Kiosk.id k)) None),
         [("Kiosk status updated.", "success")])
    end.

(** [request.form.get(key) or None] *)
Definition or_none (field : option string) : option string :=
  match field with
  | Some s => if Py.nonempty s then Some s else None
  | None => None
  end.

(** [int(x) if x else None] on a field already passed through [or None]. *)
Definition int_or_none (field : option string) : pyresult (option Z) :=
  match field with
  | Some s => n <- Py.int s ;; Ok (Some n)
  | None => Ok None
  end.

Definition set_binding (k : Kiosk.t) (cp teacher : option Z) : Kiosk.t :=
  {| Kiosk.id := Kiosk.id k; Kiosk.token := Kiosk.token k;
     Kiosk.name := Kiosk.name k; Kiosk.room := Kiosk.room k;
     Kiosk.class_period_id := cp; Kiosk.teacher_id := teacher;
     Kiosk.is_active := Kiosk.is_active k |}.

(** [str] of an optional key, as an f-string formats it. *)
Definition fmt (k : option Z) : string :=
  match k with Some n => Py.str n | None => "None" end.

Definition kiosks_bind (db : DB) (cu : CurrentUser.t) (kiosk_id : Z)
    (form_class_period_id form_teacher_id : option string)
  : pyresult (DB * Response) :=
  if require_admin cu then Ok (db, [ADMIN_REQUIRED])
  else
    match get_kiosk db kiosk_id with
    | None => Ok (db, [("Kiosk not found.", "warning")])
    | Some k =>
        let class_period_id := or_none form_class_period_id in
        let teacher_id := or_none form_teacher_id in
        cp <- int_or_none class_period_id ;;
        teacher <- match class_period_id with
                   | Some _ => Ok None
                   | None => int_or_none teacher_id
                   end ;;
        let k' := set_binding k cp teacher in
        _ <- sqlite_integer_or_null cp ;;
        _ <- sqlite_integer_or_null teacher ;;
        Ok (add_log (update_kiosk db k')
                    (log_entry cu "kiosk_bound" "kiosk" (Some (Kiosk.id k))
                       (Some ("cp=" ++ fmt cp ++ " teacher=" ++ fmt teacher)%string)),
            [("Kiosk binding updated.", "success")])
    end.

(** *** Settings *)

(** [s.value = value] on the first row of the key in the global scope, or a
    new row when there is none. *)
Fixpoint set_value (key value : string) (rows : list Setting.t) : list Setting.t :=
  match rows with
  | [] => [ {| Setting.key := key; Setting.scope := "global";
               Setting.value := value |} ]
  | s :: rest =>
      if String.eqb (Setting.key s) key && String.eqb (Setting.scope s) "global"
      then {| Setting.key := Setting.key s; Setting.scope := Setting.scope s;
              Setting.value := value |} :: rest
      else s :: set_value key value rest
  end.

(** One turn of the loop over the two keys: [field] is the form field of
    the key, absent when the key is not in the form. *)
Definition save_setting (key : string) (field : option string) (db : DB) : DB :=
  match field with
  | Some v => with_settings db (set_value key (Py.strip v) (settings db))
  | None => db
  end.

Definition settings (db : DB) (cu : CurrentUser.t) (method : Passes.Method)
    (form_kiosk_auto_refresh_seconds form_near_expiry_seconds : option string)
  : DB * Response :=
  if require_admin cu then (db, [ADMIN_REQUIRED])
  else
    match method with
    | Passes.POST =>
        let db1 := save_setting "kiosk_auto_refresh_seconds"
                                form_kiosk_auto_refresh_seconds db in
        let db2 := save_setting "near_expiry_seconds"
                                form_near_expiry_seconds db1 in
        (add_log db2 (log_entry cu "settings_updated" "setting" None None),
         [("Settings saved.", "success")])
    | Passes.GET => (db, [])
    end.

End Admin.

(** The store once Alice has set the default duration of the restroom to
    zero minutes, Sam's request pending. *)
Definition stalled_db : DB :=
  match Admin.destinations_update pending_db alice 1 (Some "0") None with
  | Ok (db, _) => db
  | Raise _ => pending_db
  end.

(** The [token] column of [kiosks] is unique. *)
Definition unique_tokens (db : DB) : Prop := NoDup (map Kiosk.token (kiosks db)).

(** The primary key of [kiosks]. *)
Definition unique_kiosk_ids (db : DB) : Prop := NoDup (map Kiosk.id (kiosks db)).

(** No kiosk stands behind the token. *)
Definition no_kiosk : Passes.KioskBinding :=
  {| Passes.is_kiosk := false; Passes.kiosk_cp_id := None;
     Passes.kiosk_teacher_id := None |}.

(** The store a view without errors leaves. *)
Definition store {A : Type} (answer : DB * A) : DB := fst answer.

(** * Properties *)

(** ** The built-ins agree with the interpreter on sample inputs *)

Example int_plain : Py.int "08" = Ok 8.
Proof. reflexivity. Qed.

Example int_spaces : Py.int " 8 " = Ok 8.
Proof. reflexivity. Qed.

Example int_negative : Py.int "-8" = Ok (-8).
Proof. reflexivity. Qed.

Example int_underscore : Py.int "1_0" = Ok 10 /\ Py.int "1__0" = Raise ValueError.
Proof. split; reflexivity. Qed.

Example int_rejects :
  map Py.int [EmptyString; "+"; "- 8"; "_1"; "1_"; "0x10"; "8.0"; "ab"]
  = repeat (Raise ValueError) 8.
Proof. reflexivity. Qed.

Example split_samples :
  Py.split ":" "08:30" = ["08"; "30"] /\ Py.split ":" EmptyString = [EmptyString]
  /\ Py.split ":" ":" = [EmptyString; EmptyString] /\ Py.split ":" "ab" = ["ab"].
Proof. repeat split. Qed.

Example timedelta_limits :
  Py.timedelta_minutes (999999999 * 1440 + 1440) = Raise OverflowError
  /\ Py.timedelta_minutes (-999999999 * 1440 - 1) = Raise OverflowError
  /\ Py.timedelta_minutes 5 = Ok 300000000.
Proof. repeat split. Qed.

Example total_seconds_truncates :
  Py.int_total_seconds (-500000) = 0 /\ Py.int_total_seconds (-1500000) = -1
  /\ Py.int_total_seconds 1999999 = 1.
Proof. repeat split. Qed.

(** Beyond 2^34 seconds the float can round up to the next second. *)
Example total_seconds_rounds :
  Py.int_total_seconds (2 ^ 34 * 1000000 - 1) = 2 ^ 34 - 1
  /\ Py.int_total_seconds ((2 ^ 34 + 1) * 1000000 - 1) = 2 ^ 34 + 1
  /\ Py.int_total_seconds (- (2 ^ 35 * 1000000 - 1)) = - 2 ^ 35
  /\ Py.int_total_seconds ((2 ^ 38 + 123) * 1000000 - 30) = 2 ^ 38 + 123
  /\ Py.int_total_seconds ((2 ^ 38 + 123) * 1000000 - 31) = 2 ^ 38 + 122.
Proof. repeat split. Qed.

Example str_samples :
  Py.str 0 = "0" /\ Py.str 12 = "12" /\ Py.str (-3) = "-3".
Proof. repeat split. Qed.

(** 2024-01-01, ordinal 738886, was a Monday. *)
Example weekday_sample :
  Py.weekday (Py.at_time 738886 10 0 0) = 0
  /\ Py.hour (Py.at_time 738886 10 5 0) = 10
  /\ Py.minute (Py.at_time 738886 10 5 0) = 5.
Proof. repeat split. Qed.

(** ** The sample stores are what the definitions say *)

Example sample_stores :
  passes pending_db = [sam_pass]
  /\ passes active_db = [sam_active]
  /\ pass_assignments active_db
     = [ {| PassAssignment.pass_id := 1; PassAssignment.teacher_id := 2 |} ]
  /\ passes expired_db = [Pass.set_state sam_active EXPIRED].
Proof. repeat split; vm_compute; reflexivity. Qed.

Example demo_well_formed : well_formed demo_db.
Proof.
  split; [constructor | split; [reflexivity | constructor]].
Qed.

(** ** Time windows *)

Section TimeWindow.

Import ClassPeriod.

Variable now : Py.datetime.


Lemma absent_start_in_window (p : t) :
  absent (start_time p) -> is_now_in_window p now = Ok true.
Proof.
  unfold is_now_in_window.
  intros [H | H]; rewrite H; [reflexivity |].
  destruct (end_time p); reflexivity.
Qed.

Lemma absent_end_in_window (p : t) :
  absent (end_time p) -> is_now_in_window p now = Ok true.
Proof.
  unfold is_now_in_window.
  intros [H | H]; rewrite H; destruct (start_time p) as [st |]; try reflexivity.
  destruct (negb (Py.nonempty st)); reflexivity.
Qed.

Lemma window_body_raises_start st en mask e :
  parse_hhmm st = Raise e -> window_body st en mask now = Raise e.
Proof. unfold window_body. intros ->. reflexivity. Qed.

Lemma window_body_raises_end st en mask e :
  parse_hhmm en = Raise e -> exists e', window_body st en mask now = Raise e'.
Proof.
  unfold window_body. intros H.
  destruct (parse_hhmm st) as [[sh sm] | e0]; simpl.
  - rewrite H. simpl. eauto.
  - eauto.
Qed.

Lemma is_now_in_window_total (p : t) :
  exists b, is_now_in_window p now = Ok b.
Proof.
  unfold is_now_in_window.
  destruct (start_time p) as [st |]; [| eauto].
  destruct (end_time p) as [en |]; [| eauto].
  destruct (negb (Py.nonempty st) || negb (Py.nonempty en)); [eauto |].
  destruct (window_body st en (days_mask p) now); simpl; eauto.
Qed.


Lemma window_body_short_mask st en mask :
  String.length mask <> 7%nat ->
  window_body st en (Some mask) now = window_body st en None now.
Proof.
  intros Hlen. unfold window_body.
  destruct (parse_hhmm st) as [[sh sm] | ]; simpl; [| reflexivity].
  destruct (parse_hhmm en) as [[eh em] | ]; simpl; [| reflexivity].
  replace (Z.of_nat (String.length mask) =? 7) with false.
  - rewrite andb_false_r. reflexivity.
  - symmetry. apply Z.eqb_neq. lia.
Qed.

End TimeWindow.

(** C8. [is_now_in_window] never raises, for any stored strings and any
    instant: it always returns a verdict; when either time is absent the
    verdict is "in window"; and when either stored string fails to parse the
    verdict is "in window" too. *)
Theorem is_now_in_window_fails_open (p : ClassPeriod.t) (now : Py.datetime) :
  (exists b, ClassPeriod.is_now_in_window p now = Ok b)
  /\ (absent (ClassPeriod.start_time p) \/ absent (ClassPeriod.end_time p) ->
      ClassPeriod.is_now_in_window p now = Ok true)
  /\ (forall st en,
        ClassPeriod.start_time p = Some st ->
        ClassPeriod.end_time p = Some en ->
        (exists e, ClassPeriod.parse_hhmm st = Raise e)
        \/ (exists e, ClassPeriod.parse_hhmm en = Raise e) ->
        ClassPeriod.is_now_in_window p now = Ok true).
Proof.
  split; [apply is_now_in_window_total |].
  split.
  - intros [H | H]; [apply absent_start_in_window | apply absent_end_in_window];
      exact H.
  - intros st en Hst Hen Hfail.
    unfold ClassPeriod.is_now_in_window. rewrite Hst, Hen.
    destruct (negb (Py.nonempty st) || negb (Py.nonempty en)); [reflexivity |].
    destruct Hfail as [[e He] | [e He]].
    + rewrite (window_body_raises_start now st en _ e He). reflexivity.
    + destruct (window_body_raises_end now st en (ClassPeriod.days_mask p) e He)
        as [e' ->].
      reflexivity.
Qed.

(** C10. A day mask whose length is not 7 is ignored: the verdict is the one
    the period would get without a mask, at every instant; with both times
    present and parsed it is the test of the clock time against the range. *)
Theorem short_mask_ignored (p : ClassPeriod.t) (mask : string)
    (now : Py.datetime) :
  ClassPeriod.days_mask p = Some mask ->
  String.length mask <> 7%nat ->
  ClassPeriod.is_now_in_window p now
  = ClassPeriod.is_now_in_window (without_mask p) now
  /\ (forall st en sh sm eh em,
        ClassPeriod.start_time p = Some st ->
        ClassPeriod.end_time p = Some en ->
        st <> EmptyString -> en <> EmptyString ->
        ClassPeriod.parse_hhmm st = Ok (sh, sm) ->
        ClassPeriod.parse_hhmm en = Ok (eh, em) ->
        ClassPeriod.is_now_in_window p now = Ok (in_time now sh sm eh em)).
Proof.
  intros Hmask Hlen.
  assert (Hbody : forall st en,
             ClassPeriod.window_body st en (ClassPeriod.days_mask p) now
             = ClassPeriod.window_body st en None now).
  { intros. rewrite Hmask. apply window_body_short_mask. exact Hlen. }
  split.
  - unfold ClassPeriod.is_now_in_window. simpl.
    destruct (ClassPeriod.start_time p) as [st |]; [| reflexivity].
    destruct (ClassPeriod.end_time p) as [en |]; [| reflexivity].
    rewrite Hbody. reflexivity.
  - intros st en sh sm eh em Hst Hen Hs He Hps Hpe.
    unfold ClassPeriod.is_now_in_window. rewrite Hst, Hen, Hbody.
    destruct st; [congruence |]. destruct en; [congruence |].
    simpl. unfold ClassPeriod.window_body. rewrite Hps. simpl. rewrite Hpe.
    reflexivity.
Qed.


Lemma short_mask_ignored_witness :
  ClassPeriod.is_now_in_window short_mask_period (Py.at_time 738892 9 0 0)
  = ClassPeriod.is_now_in_window (without_mask short_mask_period)
      (Py.at_time 738892 9 0 0)
  /\ ClassPeriod.is_now_in_window short_mask_period (Py.at_time 738892 9 0 0)
     = Ok true.
Proof.
  destruct (short_mask_ignored short_mask_period "11111"
              (Py.at_time 738892 9 0 0)) as [H1 H2].
  - reflexivity.
  - simpl. lia.
  - split; [exact H1 |].
    apply (H2 "08:30" "09:20" 8 30 9 20); try reflexivity; discriminate.
Defined.

(** ** The timer of a pass *)





(** ** The store *)

Lemma commit_ok db db' : commit db = Ok db' -> db' = db /\ constraints db = true.
Proof.
  unfold commit. destruct (constraints db); [| discriminate].
  intros H. inversion H. auto.
Qed.

Lemma time_ordered_iff p :
  time_ordered p <-> paired p /\ Pass.ck_pass_time_order p = true.
Proof.
  unfold time_ordered, paired, Pass.ck_pass_time_order.
  destruct (Pass.issued_at p) as [i |], (Pass.expires_at p) as [e |]; simpl.
  - split.
    + intros [_ H]. split; [exact I |]. specialize (H i e eq_refl eq_refl).
      apply Z.ltb_lt in H. rewrite H. reflexivity.
    + intros [_ H]. split; [split; congruence |].
      intros i' e' Hi He. inversion Hi. inversion He. subst.
      destruct (i' <? e') eqn:E; [apply Z.ltb_lt; exact E | discriminate].
  - split; [intros [[_ H] _]; exfalso; apply H; congruence | tauto].
  - split; [intros [[H _] _]; exfalso; apply H; congruence | tauto].
  - split; [auto |]. intros _. split; [tauto | discriminate].
Qed.

Lemma constraints_time_ordered db :
  constraints db = true -> Forall paired (passes db) ->
  Forall time_ordered (passes db).
Proof.
  unfold constraints. intros H Hp.
  apply andb_prop in H. destruct H as [H _].
  rewrite forallb_forall in H. rewrite Forall_forall in *.
  intros p Hin. apply time_ordered_iff. auto.
Qed.

Lemma time_ordered_paired ps :
  Forall time_ordered ps -> Forall paired ps.
Proof.
  apply Forall_impl. intros p H. apply time_ordered_iff in H. tauto.
Qed.

Lemma get_pass_in db i p : get_pass db i = Some p -> In p (passes db) /\ Pass.id p = i.
Proof.
  unfold get_pass. intros H. apply find_some in H.
  destruct H as [H1 H2]. apply Z.eqb_eq in H2. auto.
Qed.

Lemma paired_update db p :
  Forall paired (passes db) -> paired p -> Forall paired (passes (update_pass db p)).
Proof.
  intros H Hp. simpl. rewrite Forall_map. eapply Forall_impl; [| exact H].
  intros q Hq. simpl. destruct (Pass.id q =? Pass.id p); assumption.
Qed.

(** Looking a pass up after a write to the row with key [Pass.id p]. *)
Lemma get_pass_update db p i :
  get_pass (update_pass db p) i
  = if i =? Pass.id p
    then match get_pass db i with Some _ => Some p | None => None end
    else get_pass db i.
Proof.
  unfold get_pass. simpl.
  induction (passes db) as [| q qs IH]; simpl.
  - destruct (i =? Pass.id p); reflexivity.
  - destruct (Z.eqb_spec (Pass.id q) (Pass.id p)) as [Eqp | Eqp].
    + destruct (Z.eqb_spec i (Pass.id p)) as [Ei | Ei].
      * subst i. rewrite Z.eqb_refl, Eqp, Z.eqb_refl. reflexivity.
      * destruct (Z.eqb_spec (Pass.id p) i) as [E | _]; [congruence |].
        destruct (Z.eqb_spec (Pass.id q) i) as [E | _]; [congruence |].
        exact IH.
    + destruct (Z.eqb_spec (Pass.id q) i) as [Eqi | Eqi].
      * destruct (Z.eqb_spec i (Pass.id p)) as [E | _]; [congruence |].
        reflexivity.
      * exact IH.
Qed.


Lemma unique_ids_get db p : unique_ids db -> In p (passes db) -> get_pass db (Pass.id p) = Some p.
Proof.
  unfold unique_ids, get_pass.
  induction (passes db) as [| q qs IH]; simpl; [tauto |].
  intros Hnd [Hq | Hin].
  - subst q. rewrite Z.eqb_refl. reflexivity.
  - inversion Hnd as [| ? ? Hnot Hnd']. subst.
    destruct (Pass.id q =? Pass.id p) eqn:E.
    + apply Z.eqb_eq in E. exfalso. apply Hnot. rewrite E. apply in_map. exact Hin.
    + auto.
Qed.

(** ** The timestamps stay paired *)

Lemma activate_paired db p now p1 : Passes.activate db p now = Ok p1 -> paired p1.
Proof.
  unfold Passes.activate.
  destruct (Py.timedelta_minutes _); simpl; [| discriminate].
  destruct (Py.datetime_add _ _); simpl; [| discriminate].
  intros H. inversion H. exact I.
Qed.

Lemma paired_set_expires p e : paired p -> Pass.expires_at p <> None ->
  paired (Pass.set_expires_at p (Some e)).
Proof.
  unfold paired. simpl.
  destruct (Pass.issued_at p), (Pass.expires_at p); tauto.
Qed.

Lemma fold_expire_paired cu l :
  Forall paired l -> forall db,
  Forall paired (passes db) ->
  Forall paired (passes (fold_left (Passes.expire cu) l db)).
Proof.
  induction 1 as [| p l Hp _ IH]; intros db Hdb; simpl; [exact Hdb |].
  apply IH. apply (paired_update db (Pass.set_state p EXPIRED)); assumption.
Qed.

Lemma fold_set_state_one cu st action l :
  Forall paired l -> forall db n,
  Forall paired (passes db) ->
  let r := fold_left (Passes.set_state_one cu st action) l (db, n) in
  Forall paired (passes (fst r))
  /\ snd r = n + Z.of_nat (List.length l).
Proof.
  induction 1 as [| p l Hp _ IH]; intros db n Hdb; simpl.
  - split; [exact Hdb | lia].
  - destruct (IH (add_log (update_pass db (Pass.set_state p st))
                          (Passes.log_entry cu action p (Some "batch")))
                 (n + 1)) as [H1 H2].
    + apply (paired_update db (Pass.set_state p st)); assumption.
    + split; [exact H1 |]. rewrite H2. lia.
Qed.

Lemma foldM_approve_one cu now l :
  forall db n db' n',
  Forall paired (passes db) ->
  foldM (Passes.approve_one cu now) l (db, n) = Ok (db', n') ->
  Forall paired (passes db') /\ n' = n + Z.of_nat (List.length l)
  /\ (l = [] -> db' = db).
Proof.
  induction l as [| p l IH]; intros db n db' n' Hdb; simpl.
  - intros H. inversion H. subst. repeat split; [exact Hdb | lia].
  - destruct (Passes.activate db p now) as [p1 |] eqn:Ea; simpl; [| discriminate].
    intros H. apply IH in H.
    + destruct H as (H1 & H2 & _). repeat split; [exact H1 | lia | discriminate].
    + apply (paired_update db p1); [exact Hdb |].
      eapply activate_paired. exact Ea.
Qed.

(** The selected rows that have a deadline: the ones a batch extends. *)
Lemma foldM_override_one cu m reason l :
  Forall paired l ->
  forall db n db' n',
  Forall paired (passes db) ->
  foldM (Passes.override_one cu m reason) l (db, n) = Ok (db', n') ->
  Forall paired (passes db') /\ n <= n' /\ (n' = n -> db' = db).
Proof.
  induction 1 as [| p l Hp _ IH]; intros db n db' n' Hdb; simpl.
  - intros H. inversion H. subst. repeat split; [exact Hdb | lia].
  - destruct (Pass.expires_at p) as [prev |] eqn:Ee; simpl.
    + destruct (Py.timedelta_minutes m) as [td |]; simpl; [| discriminate].
      destruct (Py.datetime_add prev td) as [new |]; simpl; [| discriminate].
      intros H. apply IH in H.
      * destruct H as (H1 & H2 & _). repeat split; [exact H1 | lia | lia].
      * apply (paired_update db (Pass.set_expires_at p (Some new))); [exact Hdb |].
        apply paired_set_expires; [exact Hp | congruence].
    + intros H. apply IH in H; [| exact Hdb].
      exact H.
Qed.

Lemma truthy_false n : Py.truthy n = false -> n = 0.
Proof. unfold Py.truthy. destruct (Z.eqb_spec n 0); [auto | discriminate]. Qed.

Lemma filter_forall {A} (P : A -> Prop) f (l : list A) :
  Forall P l -> Forall P (filter f l).
Proof.
  intros H. rewrite Forall_forall in *. intros x Hx.
  apply filter_In in Hx. apply H. tauto.
Qed.

Ltac kept := left; reflexivity.
Ltac committed H :=
  let E := fresh in
  apply commit_ok in H; destruct H as [-> E]; right; split; [exact E |].

Lemma index_effect db cu now db' r :
  Forall paired (passes db) ->
  Passes.index db cu now = Ok (db', r) -> kept_or_committed db db'.
Proof.
  intros Hp. unfold Passes.index.
  destruct (Passes.is_teacher cu || Passes.is_admin cu).
  - pose proof (fold_expire_paired cu (filter (Passes.is_stale now) (passes db))
                  (filter_forall _ _ _ Hp) db Hp) as Hf.
    destruct (filter (Passes.is_stale now) (passes db)) as [| s stale].
    + simpl. intros H. inversion H. kept.
    + destruct (commit _) as [db2 |] eqn:Ec; simpl; [| discriminate].
      intros H. inversion H. subst. committed Ec. exact Hf.
  - intros H. inversion H. kept.
Qed.

Lemma approve_effect db cu pass_id now db' r :
  Forall paired (passes db) ->
  Passes.approve db cu pass_id now = Ok (db', r) -> kept_or_committed db db'.
Proof.
  intros Hp. unfold Passes.approve.
  destruct (negb _); [intros H; inversion H; kept |].
  destruct (get_pass db pass_id) as [p |] eqn:Eg; [| intros H; inversion H; kept].
  destruct (negb _); [intros H; inversion H; kept |].
  match goal with |- context [bind ?m _] => destruct m as [outside |] end;
    simpl; [| discriminate].
  destruct (outside && negb _); [intros H; inversion H; kept |].
  assert (Hpp : paired p).
  { apply get_pass_in in Eg. rewrite Forall_forall in Hp. apply Hp. tauto. }
  match goal with |- context [bind ?m _] => destruct m as [p1 |] eqn:Ep1 end;
    simpl; [| discriminate].
  assert (Hp1 : paired p1).
  { destruct (PassState_eqb (Pass.state p) PENDING).
    - eapply activate_paired. exact Ep1.
    - inversion Ep1. subst. exact Hpp. }
  destruct (commit _) as [db4 |] eqn:Ec; simpl; [| discriminate].
  intros H. inversion H. subst. committed Ec.
  destruct (Passes.assigned_to _ _ _); apply (paired_update db p1); assumption.
Qed.

Lemma approve_all_effect db cu period_id now db' r :
  Forall paired (passes db) ->
  Passes.my_period_approve_all db cu period_id now = Ok (db', r) ->
  kept_or_committed db db'.
Proof.
  intros Hp. unfold Passes.my_period_approve_all.
  destruct (negb _ && negb _); [intros H; inversion H; kept |].
  destruct (Passes.form_period db period_id) as [period |]; simpl; [| discriminate].
  match goal with |- context [foldM ?f ?l ?a] =>
    destruct (foldM f l a) as [[db1 updated] |] eqn:Ef end; simpl; [| discriminate].
  apply foldM_approve_one in Ef; [| exact Hp].
  destruct Ef as (H1 & H2 & H3).
  destruct (Py.truthy updated) eqn:Et.
  - destruct (commit db1) as [db2 |] eqn:Ec; simpl; [| discriminate].
    intros H. inversion H. subst. committed Ec. exact H1.
  - intros H. inversion H. subst. left. apply H3.
    apply truthy_false in Et.
    match goal with |- ?l = [] => destruct l; [reflexivity | simpl in Et; lia] end.
Qed.

Lemma set_state_selected_effect db cu ids st action db1 count :
  Forall paired (passes db) ->
  fold_left (Passes.set_state_one cu st action)
            (Passes.selection db cu ids (match st with DENIED => PENDING | _ => ACTIVE end))
            (db, 0) = (db1, count) ->
  Forall paired (passes db1) /\ (Py.truthy count = false -> db1 = db).
Proof.
  intros Hp Hf.
  set (q := Passes.selection db cu ids _) in *.
  assert (Hq : Forall paired q) by (apply filter_forall; exact Hp).
  destruct (fold_set_state_one cu st action q Hq db 0 Hp) as [H1 H2].
  rewrite Hf in H1, H2. simpl in H1, H2. split; [exact H1 |].
  intros Et. apply truthy_false in Et.
  destruct q; [simpl in Hf; inversion Hf; reflexivity | simpl in H2; lia].
Qed.

Lemma deny_selected_effect db cu ids db' r :
  Forall paired (passes db) ->
  Passes.my_period_deny_selected db cu ids = Ok (db', r) ->
  kept_or_committed db db'.
Proof.
  intros Hp. unfold Passes.my_period_deny_selected.
  destruct (negb _ && negb _); [intros H; inversion H; kept |].
  destruct ids as [| i ids]; [intros H; inversion H; kept |].
  destruct (fold_left _ _ _) as [db1 count] eqn:Ef.
  apply (set_state_selected_effect db cu (i :: ids) DENIED) in Ef; [| exact Hp].
  destruct Ef as [H1 H2].
  destruct (Py.truthy count).
  - destruct (commit db1) as [db2 |] eqn:Ec; simpl; [| discriminate].
    intros H. inversion H. subst. committed Ec. exact H1.
  - intros H. inversion H. subst. left. auto.
Qed.

Lemma cancel_selected_effect db cu ids db' r :
  Forall paired (passes db) ->
  Passes.my_period_cancel_selected db cu ids = Ok (db', r) ->
  kept_or_committed db db'.
Proof.
  intros Hp. unfold Passes.my_period_cancel_selected.
  destruct (negb _ && negb _); [intros H; inversion H; kept |].
  destruct ids as [| i ids]; [intros H; inversion H; kept |].
  destruct (fold_left _ _ _) as [db1 count] eqn:Ef.
  apply (set_state_selected_effect db cu (i :: ids) CANCELLED) in Ef; [| exact Hp].
  destruct Ef as [H1 H2].
  destruct (Py.truthy count).
  - destruct (commit db1) as [db2 |] eqn:Ec; simpl; [| discriminate].
    intros H. inversion H. subst. committed Ec. exact H1.
  - intros H. inversion H. subst. left. auto.
Qed.

Lemma override_selected_effect db cu ids m reason db' r :
  Forall paired (passes db) ->
  Passes.my_period_override_selected db cu ids m reason = Ok (db', r) ->
  kept_or_committed db db'.
Proof.
  intros Hp. unfold Passes.my_period_override_selected.
  destruct (negb _ && negb _); [intros H; inversion H; kept |].
  destruct (Py.int _) as [add_minutes |]; simpl; [| discriminate].
  destruct (_ || _); [intros H; inversion H; kept |].
  match goal with |- context [foldM ?f ?l ?a] =>
    destruct (foldM f l a) as [[db1 count] |] eqn:Ef end; simpl; [| discriminate].
  apply foldM_override_one in Ef; [| apply filter_forall; exact Hp | exact Hp].
  destruct Ef as (H1 & H2 & H3).
  destruct (Py.truthy count) eqn:Et.
  - destruct (commit db1) as [db2 |] eqn:Ec; simpl; [| discriminate].
    intros H. inversion H. subst. committed Ec. exact H1.
  - intros H. inversion H. subst. left. apply H3. apply truthy_false. exact Et.
Qed.

Lemma deny_effect db cu pass_id db' r :
  Forall paired (passes db) ->
  Passes.deny db cu pass_id = Ok (db', r) -> kept_or_committed db db'.
Proof.
  intros Hp. unfold Passes.deny.
  destruct (negb _); [intros H; inversion H; kept |].
  destruct (get_pass db pass_id) as [p |] eqn:Eg; [| intros H; inversion H; kept].
  destruct (negb _); [intros H; inversion H; kept |].
  destruct (commit _) as [db3 |] eqn:Ec; simpl; [| discriminate].
  intros H. inversion H. subst. committed Ec.
  apply (paired_update db (Pass.set_state p DENIED)); [exact Hp |].
  change (paired p). apply get_pass_in in Eg. rewrite Forall_forall in Hp. apply Hp. tauto.
Qed.

Lemma cancel_effect db cu pass_id db' r :
  Forall paired (passes db) ->
  Passes.cancel db cu pass_id = Ok (db', r) -> kept_or_committed db db'.
Proof.
  intros Hp. unfold Passes.cancel.
  destruct (get_pass db pass_id) as [p |] eqn:Eg; [| intros H; inversion H; kept].
  destruct (negb _); [intros H; inversion H; kept |].
  destruct (_ || _); [intros H; inversion H; kept |].
  destruct (commit _) as [db3 |] eqn:Ec; simpl; [| discriminate].
  intros H. inversion H. subst. committed Ec.
  apply (paired_update db (Pass.set_state p CANCELLED)); [exact Hp |].
  change (paired p). apply get_pass_in in Eg. rewrite Forall_forall in Hp. apply Hp. tauto.
Qed.

Lemma override_effect db cu pass_id m reason db' r :
  Forall paired (passes db) ->
  Passes.override db cu pass_id m reason = Ok (db', r) ->
  kept_or_committed db db'.
Proof.
  intros Hp. unfold Passes.override.
  destruct (negb _); [intros H; inversion H; kept |].
  destruct (get_pass db pass_id) as [p |] eqn:Eg; [| intros H; inversion H; kept].
  destruct (Py.int _) as [minutes |]; simpl; [| discriminate].
  destruct (Py.timedelta_minutes minutes) as [td |]; simpl; [| discriminate].
  destruct (Pass.expires_at p) as [prev |] eqn:Ee; [| discriminate].
  destruct (Py.datetime_add prev td) as [new |]; simpl; [| discriminate].
  destruct (commit _) as [db2 |] eqn:Ec; simpl; [| discriminate].
  intros H.
  assert (db' = db2) by (destruct (negb _); inversion H; reflexivity).
  subst. committed Ec.
  apply (paired_update db (Pass.set_expires_at p (Some new))); [exact Hp |].
  apply paired_set_expires; [| congruence].
  apply get_pass_in in Eg. rewrite Forall_forall in Hp. apply Hp. tauto.
Qed.

Lemma request_pass_effect db cu req now db' r :
  Forall paired (passes db) ->
  Passes.request_pass db cu req now = Ok (db', r) -> kept_or_committed db db'.
Proof.
  intros Hp. unfold Passes.request_pass.
  destruct (negb _); [intros H; inversion H; kept |].
  destruct (Passes.route_on_load _ _ _) as [r0 |]; simpl; [| discriminate].
  destruct (Passes.method req); [intros H; inversion H; kept |].
  destruct (Py.int _) as [dest_id |]; simpl; [| discriminate].
  destruct (get_destination db dest_id) as [dest |]; [| intros H; inversion H; kept].
  destruct (Passes.target_teacher_id _) as [target |]; [| intros H; inversion H; kept].
  destruct (Py.truthy target); [| intros H; inversion H; kept].
  match goal with |- context [bind ?m _] => destruct m as [outside |] end;
    simpl; [| discriminate].
  destruct outside; [intros H; inversion H; kept |].
  destruct (commit _) as [db4 |] eqn:Ec; simpl; [| discriminate].
  intros H. inversion H. subst. committed Ec.
  simpl. apply Forall_app. split; [exact Hp |].
  constructor; [exact I | constructor].
Qed.

Lemma handle_effect op db db' r :
  Forall paired (passes db) -> handle op db = Ok (db', r) ->
  kept_or_committed db db'.
Proof.
  destruct op; simpl; intros Hp H.
  - eapply request_pass_effect; eauto.
  - eapply approve_effect; eauto.
  - eapply approve_all_effect; eauto.
  - eapply deny_effect; eauto.
  - eapply deny_selected_effect; eauto.
  - eapply cancel_effect; eauto.
  - eapply cancel_selected_effect; eauto.
  - eapply override_effect; eauto.
  - eapply override_selected_effect; eauto.
  - eapply index_effect; eauto.
Qed.

Lemma run_time_ordered db op :
  Forall time_ordered (passes db) -> Forall time_ordered (passes (run db op)).
Proof.
  intros H. unfold run.
  destruct (handle op db) as [[db' r] |] eqn:E; [| exact H].
  apply handle_effect in E; [| apply time_ordered_paired; exact H].
  destruct E as [-> | [Hc Hp]]; [exact H |].
  apply constraints_time_ordered; assumption.
Qed.

(** C1. At every store reachable, through lifecycle requests (create,
    approve, deny, cancel, extend, sweep, single or batch), from a store in
    which every pass has its two timestamps ordered, every pass has
    [expires_at] set exactly when [issued_at] is set, and later than it. *)
Theorem time_order_invariant (db0 db : DB) :
  Forall time_ordered (passes db0) ->
  reachable db0 db ->
  Forall time_ordered (passes db).
Proof.
  intros H0 Hreach. induction Hreach as [| db op _ IH].
  - exact H0.
  - apply run_time_ordered. exact IH.
Qed.

Lemma time_order_invariant_witness :
  Forall time_ordered
    (passes (fold_left run
               [ Request sam kiosk_request (monday 9 59 0);
                 Approve tom 1 (monday 10 0 0);
                 Extend tom 1 (Some "10") (Some "medical");
                 Extend tom 1 (Some "-20") None;
                 Sweep tom (monday 10 20 0) ]
               demo_db)).
Proof.
  apply (time_order_invariant demo_db).
  - simpl. constructor.
  - unfold fold_left. repeat apply reach_step. apply reach_start.
Defined.

(** That run, evaluated: the pass ends Expired with its extended
    deadline; the extension by -20 minutes, which would put the deadline
    before the issue time, is refused by the store. *)
Example lifecycle_run :
  passes (fold_left run
            [ Request sam kiosk_request (monday 9 59 0);
              Approve tom 1 (monday 10 0 0);
              Extend tom 1 (Some "10") (Some "medical");
              Extend tom 1 (Some "-20") None;
              Sweep tom (monday 10 20 0) ]
            demo_db)
  = [ {| Pass.id := 1; Pass.student_id := 3; Pass.destination_id := 1;
         Pass.issued_at := Some (monday 10 0 0);
         Pass.expires_at := Some (monday 10 15 0);
         Pass.state := EXPIRED |} ]
  /\ handle (Extend tom 1 (Some "-20") None)
            (run active_db (Extend tom 1 (Some "10") (Some "medical")))
     = Raise IntegrityError.
Proof. split; vm_compute; reflexivity. Qed.

(** ** Looking a pass up after a loop of row updates *)

Lemma find_after {A} (f : A -> bool) (l1 l2 : list A) :
  find f (l1 ++ l2)
  = match find f l1 with Some x => Some x | None => find f l2 end.
Proof.
  induction l1 as [| a l1 IH]; simpl; [reflexivity |].
  destruct (f a); [reflexivity | exact IH].
Qed.

Lemma same_key_same_row (ps : list Pass.t) a b :
  NoDup (map Pass.id ps) -> In a ps -> In b ps -> Pass.id a = Pass.id b -> a = b.
Proof.
  induction ps as [| q qs IH]; simpl; [tauto |].
  intros Hnd Ha Hb Hid. inversion Hnd as [| ? ? Hnot Hnd']. subst.
  destruct Ha as [Ha | Ha], Hb as [Hb | Hb]; subst.
  - reflexivity.
  - exfalso. apply Hnot. rewrite Hid. apply in_map. exact Hb.
  - exfalso. apply Hnot. rewrite <- Hid. apply in_map. exact Ha.
  - auto.
Qed.

Section LoopOfUpdates.

(** A loop body [F] that writes the row of the pass it visits: the visited
    pass [a] becomes [g a], whatever else the body adds to other tables. *)
Variable F : DB -> Pass.t -> DB.
Variable g : Pass.t -> Pass.t.
Hypothesis F_passes : forall db a, passes (F db a) = passes (update_pass db (g a)).
Hypothesis g_id : forall a, Pass.id (g a) = Pass.id a.

Lemma loop_lookup l : forall db i,
  get_pass (fold_left F l db) i
  = match find (fun a => Pass.id a =? i) (rev l) with
    | Some a => match get_pass db i with Some _ => Some (g a) | None => None end
    | None => get_pass db i
    end.
Proof.
  induction l as [| a l IH]; intros db i; simpl; [reflexivity |].
  rewrite IH, find_after. simpl.
  assert (Hg : get_pass (F db a) i = get_pass (update_pass db (g a)) i).
  { unfold get_pass. rewrite F_passes. reflexivity. }
  rewrite Hg, get_pass_update, g_id.
  destruct (find _ (rev l)) as [x |].
  - destruct (i =? Pass.id a); [destruct (get_pass db i) |]; reflexivity.
  - rewrite (Z.eqb_sym (Pass.id a) i).
    destruct (i =? Pass.id a); reflexivity.
Qed.

(** After the loop over the rows a filter selects, a row of the table is
    [g] of itself when selected and itself otherwise. *)
Lemma loop_over_filter f db p :
  unique_ids db -> In p (passes db) ->
  get_pass (fold_left F (filter f (passes db)) db) (Pass.id p)
  = Some (if f p then g p else p).
Proof.
  intros Hu Hin. rewrite loop_lookup, (unique_ids_get db p Hu Hin).
  destruct (find _ _) as [a |] eqn:Ef.
  - apply find_some in Ef. destruct Ef as [Ha Hid].
    apply in_rev, filter_In in Ha. destruct Ha as [Ha Hfa].
    apply Z.eqb_eq in Hid.
    assert (a = p) by (eapply same_key_same_row; eauto).
    subst. rewrite Hfa. reflexivity.
  - destruct (f p) eqn:Hf; [| reflexivity].
    exfalso.
    assert (Hp : In p (rev (filter f (passes db)))).
    { apply in_rev. rewrite rev_involutive. apply filter_In. auto. }
    apply (find_none _ _ Ef) in Hp. simpl in Hp. rewrite Z.eqb_refl in Hp.
    discriminate.
Qed.

End LoopOfUpdates.

(** ** The sweep *)


Lemma fold_expire_constraints cu l :
  forall db, constraints db = true ->
  (forall p, In p l -> Pass.ck_pass_time_order p = true) ->
  constraints (fold_left (Passes.expire cu) l db) = true.
Proof.
  induction l as [| a l IH]; intros db Hc Hl; simpl; [exact Hc |].
  apply IH; [| intros p Hp; apply Hl; right; exact Hp].
  unfold Passes.expire, constraints in *. simpl.
  apply andb_prop in Hc. destruct Hc as [H1 H2].
  rewrite H2, andb_true_r.
  rewrite forallb_forall in *. intros q Hq.
  apply in_map_iff in Hq. destruct Hq as (q0 & <- & Hq0).
  destruct (Pass.id q0 =? Pass.id _); [| auto].
  change (Pass.ck_pass_time_order a = true). apply Hl. left. reflexivity.
Qed.

(** The sweep commits on every store that satisfies its constraints, and
    rewrites exactly the stale rows. *)
Lemma index_sweeps db cu now :
  Passes.is_teacher cu || Passes.is_admin cu = true ->
  unique_ids db -> constraints db = true ->
  exists db',
    Passes.index db cu now = Ok (db', [])
    /\ forall p, In p (passes db) ->
         get_pass db' (Pass.id p)
         = Some (if Passes.is_stale now p then Pass.set_state p EXPIRED else p).
Proof.
  intros Hrole Hu Hc. unfold Passes.index. rewrite Hrole.
  pose proof (loop_over_filter (Passes.expire cu)
                (fun p => Pass.set_state p EXPIRED)
                (fun _ _ => eq_refl) (fun _ => eq_refl)
                (Passes.is_stale now) db) as Hloop.
  assert (Hk : constraints (fold_left (Passes.expire cu)
                              (filter (Passes.is_stale now) (passes db)) db) = true).
  { apply fold_expire_constraints; [exact Hc |].
    intros p Hp. apply filter_In in Hp. destruct Hp as [Hp _].
    unfold constraints in Hc. apply andb_prop in Hc. destruct Hc as [Hc _].
    rewrite forallb_forall in Hc. auto. }
  destruct (filter (Passes.is_stale now) (passes db)) as [| s stale] eqn:Ef.
  - eexists. split; [reflexivity |]. intros p Hp. apply Hloop; assumption.
  - unfold commit. rewrite Hk. simpl. eexists. split; [reflexivity |].
    intros p Hp. apply Hloop; assumption.
Qed.

Lemma is_stale_iff now p :
  Passes.is_stale now p = true
  <-> Pass.state p = ACTIVE /\ exists e, Pass.expires_at p = Some e /\ e <= now.
Proof.
  unfold Passes.is_stale.
  destruct (Pass.expires_at p) as [e |]; simpl.
  - rewrite andb_true_r. rewrite andb_true_iff, Z.leb_le. split.
    + intros [Hs He]. split; [destruct (Pass.state p); try discriminate; reflexivity |].
      exists e. auto.
    + intros [Hs (e' & He' & Hle)]. inversion He'. subst. rewrite Hs. auto.
  - rewrite andb_false_r. split; [discriminate |].
    intros [_ (e & He & _)]. discriminate.
Qed.

(** C5. The sweep run by [index] for a teacher or an admin, on a store
    that satisfies its key and constraints, commits, and for every pass of
    the store: the pass goes to Expired from another state exactly when it
    was Active with a deadline at or before [now]; an Active pass whose
    deadline is after [now] is unchanged; a Pending pass is unchanged. *)
Theorem sweep_expires_exactly_the_elapsed (db : DB) (cu : CurrentUser.t)
    (now : Py.datetime) :
  Passes.is_teacher cu || Passes.is_admin cu = true ->
  unique_ids db ->
  constraints db = true ->
  exists db',
    Passes.index db cu now = Ok (db', [])
    /\ forall p, In p (passes db) ->
       exists p',
         get_pass db' (Pass.id p) = Some p'
         /\ (Pass.state p <> EXPIRED /\ Pass.state p' = EXPIRED
             <-> Pass.state p = ACTIVE
                 /\ exists e, Pass.expires_at p = Some e /\ e <= now)
         /\ (Pass.state p = ACTIVE ->
             (forall e, Pass.expires_at p = Some e -> now < e) -> p' = p)
         /\ (Pass.state p = PENDING -> p' = p).
Proof.
  intros Hrole Hu Hc.
  destruct (index_sweeps db cu now Hrole Hu Hc) as (db' & Hrun & Hrows).
  exists db'. split; [exact Hrun |].
  intros p Hp. eexists. split; [apply Hrows; exact Hp |].
  pose proof (is_stale_iff now p) as Hs.
  destruct (Passes.is_stale now p).
  - assert (Ha : Pass.state p = ACTIVE
                 /\ exists e, Pass.expires_at p = Some e /\ e <= now)
      by (apply Hs; reflexivity).
    destruct Ha as [Ha (e & He & Hle)].
    split; [| split].
    + split; [intros _; eauto |]. intros _. simpl. split; [congruence | reflexivity].
    + intros _ Hlater. specialize (Hlater e He). lia.
    + congruence.
  - split; [| split]; [| reflexivity | reflexivity].
    split.
    + intros [Hne He]. congruence.
    + intros H. apply Hs in H. discriminate.
Qed.

(** The method of [Pass] expires a pass on the same condition. *)
Lemma mark_expired_if_needed_spec p now :
  Pass.mark_expired_if_needed p now
  = if Passes.is_stale now p then Pass.set_state p EXPIRED else p.
Proof.
  unfold Pass.mark_expired_if_needed, Passes.is_stale.
  destruct (Pass.expires_at p) as [e |]; simpl; [| reflexivity].
  replace (now >=? e) with (e <=? now); [reflexivity |].
  rewrite Z.geb_leb. reflexivity.
Qed.

Lemma sweep_expires_exactly_the_elapsed_witness :
  exists db',
    Passes.index active_db tom (monday 10 20 0) = Ok (db', [])
    /\ forall p, In p (passes active_db) ->
       exists p',
         get_pass db' (Pass.id p) = Some p'
         /\ (Pass.state p <> EXPIRED /\ Pass.state p' = EXPIRED
             <-> Pass.state p = ACTIVE
                 /\ exists e, Pass.expires_at p = Some e /\ e <= monday 10 20 0)
         /\ (Pass.state p = ACTIVE ->
             (forall e, Pass.expires_at p = Some e -> monday 10 20 0 < e) ->
             p' = p)
         /\ (Pass.state p = PENDING -> p' = p).
Proof.
  apply (sweep_expires_exactly_the_elapsed active_db tom (monday 10 20 0)).
  - reflexivity.
  - unfold unique_ids. vm_compute. constructor; [simpl; tauto | constructor].
  - vm_compute. reflexivity.
Defined.

(** At 10:20 the pass due at 10:05 expires; at 10:03 it is left alone. *)
Example sweep_run :
  option_map Pass.state
    (get_pass (run active_db (Sweep tom (monday 10 20 0))) 1) = Some EXPIRED
  /\ run active_db (Sweep tom (monday 10 3 0)) = active_db
  /\ run pending_db (Sweep tom (monday 10 20 0)) = pending_db.
Proof. repeat split; vm_compute; reflexivity. Qed.

(** ** Approval *)

Ltac units :=
  unfold Py.MAX_DELTA_DAYS, Py.MAX_DAYS, Py.US_PER_DAY, Py.US_PER_HOUR,
    Py.US_PER_MINUTE, Py.US_PER_SECOND in *.

Lemma timedelta_minutes_ok m td :
  Py.timedelta_minutes m = Ok td -> td = m * Py.US_PER_MINUTE.
Proof.
  unfold Py.timedelta_minutes.
  destruct (_ && _); [| discriminate]. intros H. inversion H. reflexivity.
Qed.

Lemma datetime_add_ok d td e : Py.datetime_add d td = Ok e -> e = d + td.
Proof.
  unfold Py.datetime_add.
  destruct (Py.datetime_valid _); [| discriminate]. intros H. inversion H. reflexivity.
Qed.

Lemma activate_ok db p now p1 :
  Passes.activate db p now = Ok p1 ->
  p1 = activated (Passes.pass_minutes db p) p now.
Proof.
  unfold Passes.activate.
  destruct (Py.timedelta_minutes _) as [td |] eqn:Et; simpl; [| discriminate].
  destruct (Py.datetime_add _ _) as [e |] eqn:Ee; simpl; [| discriminate].
  intros H. inversion H. unfold activated.
  apply timedelta_minutes_ok in Et. apply datetime_add_ok in Ee. subst.
  reflexivity.
Qed.

Lemma pass_minutes_dest db p dest :
  get_destination db (Pass.destination_id p) = Some dest ->
  Passes.pass_minutes db p = Destination.default_minutes dest.
Proof. unfold Passes.pass_minutes. intros ->. reflexivity. Qed.

(** A successful [approve] of a pending pass leaves it activated. *)
Lemma approve_pending db cu p now db' r :
  Passes.is_teacher cu || Passes.is_admin cu = true ->
  get_pass db (Pass.id p) = Some p ->
  Pass.state p = PENDING ->
  Passes.approve db cu (Pass.id p) now = Ok (db', r) ->
  In APPROVED r ->
  get_pass db' (Pass.id p) = Some (activated (Passes.pass_minutes db p) p now).
Proof.
  intros Hrole Hg Hs. unfold Passes.approve.
  rewrite Hrole, Hg, Hs. simpl.
  match goal with |- context [bind ?m _] => destruct m as [outside |] end;
    simpl; [| discriminate].
  destruct (outside && negb _).
  { intros H Hin. inversion H. subst. simpl in Hin.
    destruct Hin as [Hin | []]. discriminate. }
  destruct (Passes.activate db p now) as [p1 |] eqn:Ea; simpl; [| discriminate].
  destruct (commit _) as [db4 |] eqn:Ec; simpl; [| discriminate].
  intros H _. inversion H. subst. apply commit_ok in Ec. destruct Ec as [-> _].
  apply activate_ok in Ea. subst p1.
  set (p1 := activated _ p now).
  assert (Hl : forall d, passes d = passes (update_pass db p1) ->
                         get_pass d (Pass.id p) = Some p1).
  { intros d Hd. unfold get_pass. rewrite Hd.
    change (get_pass (update_pass db p1) (Pass.id p) = Some p1).
    rewrite get_pass_update. simpl. rewrite Z.eqb_refl, Hg. reflexivity. }
  apply Hl. destruct (Passes.assigned_to _ _ _); reflexivity.
Qed.

Lemma uq_pass_teacher_append l a :
  uq_pass_teacher l = true ->
  existsb (fun b => (PassAssignment.pass_id b =? PassAssignment.pass_id a)
                    && (PassAssignment.teacher_id b =? PassAssignment.teacher_id a))
          l = false ->
  uq_pass_teacher (l ++ [a]) = true.
Proof.
  induction l as [| x l IH]; simpl; [reflexivity |].
  intros Hu He.
  apply andb_prop in Hu. destruct Hu as [Hx Hl].
  apply orb_false_elim in He. destruct He as [Hxa Hla].
  rewrite (IH Hl Hla), andb_true_r.
  rewrite existsb_app. simpl. rewrite Hxa. simpl. rewrite orb_false_r.
  exact Hx.
Qed.

Lemma activate_succeeds db p now dest :
  get_destination db (Pass.destination_id p) = Some dest ->
  0 < Destination.default_minutes dest ->
  Py.datetime_valid now = true ->
  Py.datetime_valid (now + Destination.default_minutes dest * Py.US_PER_MINUTE)
  = true ->
  Passes.activate db p now
  = Ok (activated (Destination.default_minutes dest) p now).
Proof.
  intros Hd Hm Hnow Hsum. unfold Passes.activate.
  rewrite (pass_minutes_dest db p dest Hd).
  set (m := Destination.default_minutes dest) in *.
  assert (Htd : Py.timedelta_minutes m = Ok (m * Py.US_PER_MINUTE)).
  { unfold Py.timedelta_minutes, Py.datetime_valid in *.
    apply andb_prop in Hnow, Hsum. destruct Hnow as [Hn0 _], Hsum as [_ Hs1].
    apply Z.leb_le in Hn0. apply Z.ltb_lt in Hs1.
    assert (H0 : 0 <= m * Py.US_PER_MINUTE / Py.US_PER_DAY).
    { apply Z.div_pos; units; lia. }
    assert (H1 : m * Py.US_PER_MINUTE / Py.US_PER_DAY < Py.MAX_DAYS).
    { apply Z.div_lt_upper_bound; units; lia. }
    replace (_ && _) with true; [reflexivity |].
    symmetry. apply andb_true_intro. split; apply Z.leb_le; units; lia. }
  rewrite Htd. simpl. unfold Py.datetime_add. rewrite Hsum. reflexivity.
Qed.

Lemma ck_activated m p now :
  0 < m -> Pass.ck_pass_time_order (activated m p now) = true.
Proof.
  intros Hm. unfold Pass.ck_pass_time_order, activated. simpl.
  replace (now <? now + m * Py.US_PER_MINUTE) with true; [reflexivity |].
  symmetry. apply Z.ltb_lt. units. lia.
Qed.

Lemma ck_update db p1 :
  forallb Pass.ck_pass_time_order (passes db) = true ->
  Pass.ck_pass_time_order p1 = true ->
  forallb Pass.ck_pass_time_order (passes (update_pass db p1)) = true.
Proof.
  intros H H1. simpl. rewrite forallb_forall in *. intros q Hq.
  apply in_map_iff in Hq. destruct Hq as (q0 & <- & Hq0).
  destruct (Pass.id q0 =? Pass.id p1); auto.
Qed.

(** With the window not enforced, a positive default duration and a
    deadline the calendar can hold, [approve] of a pending pass commits. *)
Lemma approve_succeeds db cu p now dest :
  Passes.is_teacher cu || Passes.is_admin cu = true ->
  get_pass db (Pass.id p) = Some p ->
  Pass.state p = PENDING ->
  get_destination db (Pass.destination_id p) = Some dest ->
  window_not_enforced db ->
  0 < Destination.default_minutes dest ->
  Py.datetime_valid now = true ->
  Py.datetime_valid (now + Destination.default_minutes dest * Py.US_PER_MINUTE)
  = true ->
  constraints db = true ->
  exists db', Passes.approve db cu (Pass.id p) now = Ok (db', [APPROVED]).
Proof.
  intros Hrole Hg Hs Hd Hw Hm Hnow Hsum Hc. unfold Passes.approve.
  rewrite Hrole, Hg, Hs. simpl. unfold window_not_enforced in Hw. rewrite Hw.
  simpl. rewrite (activate_succeeds db p now dest Hd Hm Hnow Hsum). simpl.
  set (p1 := activated _ p now).
  unfold constraints in Hc. apply andb_prop in Hc. destruct Hc as [Hck Huq].
  unfold commit.
  match goal with |- context [constraints ?d] =>
    assert (Hk : constraints d = true) end.
  { unfold constraints. apply andb_true_intro. split.
    - assert (H1 : forallb Pass.ck_pass_time_order (passes (update_pass db p1)) = true)
        by (apply ck_update; [exact Hck | apply ck_activated; exact Hm]).
      destruct (Passes.assigned_to _ _ _); exact H1.
    - destruct (Passes.assigned_to (update_pass db p1) (CurrentUser.id cu) p1)
        eqn:Ea; simpl; [exact Huq |].
      apply uq_pass_teacher_append; [exact Huq |]. exact Ea. }
  rewrite Hk. simpl. eexists. reflexivity.
Qed.

(** The batch approval, once all its activations have succeeded, is a loop
    of row updates. *)
Lemma foldM_approve_is_loop db0 cu now l :
  forall db n db' n',
  destinations db = destinations db0 ->
  foldM (Passes.approve_one cu now) l (db, n) = Ok (db', n') ->
  db' = fold_left
          (fun d a =>
             add_log (update_pass d (activated (Passes.pass_minutes db0 a) a now))
                     (Passes.log_entry cu "pass_approved" a (Some "batch")))
          l db.
Proof.
  induction l as [| a l IH]; intros db n db' n' Hd; simpl.
  - intros H. inversion H. reflexivity.
  - destruct (Passes.activate db a now) as [p1 |] eqn:Ea; simpl; [| discriminate].
    apply activate_ok in Ea.
    assert (Hm : Passes.pass_minutes db a = Passes.pass_minutes db0 a).
    { unfold Passes.pass_minutes, get_destination. rewrite Hd. reflexivity. }
    rewrite Hm in Ea. subst p1.
    intros H. apply IH in H; [exact H |]. exact Hd.
Qed.

Lemma approve_all_pending db cu period_id period now p db' r :
  Passes.is_teacher cu || Passes.is_admin cu = true ->
  unique_ids db -> In p (passes db) ->
  Pass.state p = PENDING ->
  Passes.visible db cu p = true ->
  Passes.form_period db period_id = Ok period ->
  Passes.in_period db period p = true ->
  Passes.my_period_approve_all db cu period_id now = Ok (db', r) ->
  get_pass db' (Pass.id p) = Some (activated (Passes.pass_minutes db p) p now).
Proof.
  intros Hrole Hu Hin Hs Hv Hfp Hip. unfold Passes.my_period_approve_all.
  assert (Hr : negb (Passes.is_teacher cu) && negb (Passes.is_admin cu) = false).
  { destruct (Passes.is_teacher cu), (Passes.is_admin cu); simpl in *; congruence. }
  rewrite Hr, Hfp. simpl.
  match goal with |- context [foldM ?f (filter ?sel ?ps) ?a] =>
    set (sel' := sel);
    destruct (foldM f (filter sel' ps) a) as [[db1 updated] |] eqn:Ef end;
    simpl; [| discriminate].
  apply (foldM_approve_is_loop db) in Ef; [| reflexivity].
  assert (Hl : get_pass db1 (Pass.id p)
               = Some (if sel' p then activated (Passes.pass_minutes db p) p now
                       else p)).
  { rewrite Ef.
    apply (loop_over_filter _ (fun a => activated (Passes.pass_minutes db a) a now));
      auto. }
  assert (Hsel : sel' p = true).
  { unfold sel'. rewrite Hs, Hv, Hip. reflexivity. }
  rewrite Hsel in Hl.
  destruct (Py.truthy updated).
  - destruct (commit db1) as [db2 |] eqn:Ec; simpl; [| discriminate].
    apply commit_ok in Ec. destruct Ec as [-> _].
    intros H. inversion H. subst. exact Hl.
  - intros H. inversion H. subst. exact Hl.
Qed.

(** C6. Approving a pending pass, by the single view or by the batch view,
    sets [issued_at] to now, [expires_at] to now plus the default minutes
    of its destination, and the state to Active; and the single view does
    commit when the window is not enforced, the default is positive and
    the deadline is representable. *)
Theorem approval_starts_timer (db : DB) (cu : CurrentUser.t) (p : Pass.t)
    (dest : Destination.t) (now : Py.datetime) :
  Passes.is_teacher cu || Passes.is_admin cu = true ->
  unique_ids db ->
  In p (passes db) ->
  Pass.state p = PENDING ->
  get_destination db (Pass.destination_id p) = Some dest ->
  (forall db' r,
      Passes.approve db cu (Pass.id p) now = Ok (db', r) -> In APPROVED r ->
      get_pass db' (Pass.id p)
      = Some (activated (Destination.default_minutes dest) p now))
  /\ (forall period_id period db' r,
        Passes.visible db cu p = true ->
        Passes.form_period db period_id = Ok period ->
        Passes.in_period db period p = true ->
        Passes.my_period_approve_all db cu period_id now = Ok (db', r) ->
        get_pass db' (Pass.id p)
        = Some (activated (Destination.default_minutes dest) p now))
  /\ (window_not_enforced db ->
      0 < Destination.default_minutes dest ->
      Py.datetime_valid now = true ->
      Py.datetime_valid
        (now + Destination.default_minutes dest * Py.US_PER_MINUTE) = true ->
      constraints db = true ->
      exists db',
        Passes.approve db cu (Pass.id p) now = Ok (db', [APPROVED])
        /\ get_pass db' (Pass.id p)
           = Some (activated (Destination.default_minutes dest) p now)).
Proof.
  intros Hrole Hu Hin Hs Hd.
  pose proof (unique_ids_get db p Hu Hin) as Hg.
  pose proof (pass_minutes_dest db p dest Hd) as Hm.
  assert (H1 : forall db' r,
             Passes.approve db cu (Pass.id p) now = Ok (db', r) -> In APPROVED r ->
             get_pass db' (Pass.id p)
             = Some (activated (Destination.default_minutes dest) p now)).
  { intros db' r Hrun Hr. rewrite <- Hm. eapply approve_pending; eauto. }
  split; [exact H1 | split].
  - intros period_id period db' r Hv Hfp Hip Hrun. rewrite <- Hm.
    eapply approve_all_pending; eauto.
  - intros Hw Hpos Hnow Hsum Hc.
    destruct (approve_succeeds db cu p now dest Hrole Hg Hs Hd Hw Hpos Hnow Hsum Hc)
      as [db' Hrun].
    exists db'. split; [exact Hrun |].
    apply (H1 db' [APPROVED] Hrun). left. reflexivity.
Qed.

Lemma approval_starts_timer_witness :
  exists db',
    Passes.approve pending_db tom 1 (monday 10 0 0) = Ok (db', [APPROVED])
    /\ get_pass db' 1
       = Some {| Pass.id := 1; Pass.student_id := 3; Pass.destination_id := 1;
                 Pass.issued_at := Some (monday 10 0 0);
                 Pass.expires_at := Some (monday 10 5 0);
                 Pass.state := ACTIVE |}.
Proof.
  destruct (approval_starts_timer pending_db tom sam_pass restroom (monday 10 0 0))
    as (_ & _ & H).
  - reflexivity.
  - unfold unique_ids. vm_compute. constructor; [simpl; tauto | constructor].
  - vm_compute. left. reflexivity.
  - reflexivity.
  - reflexivity.
  - apply H; vm_compute; reflexivity.
Defined.

(** ** Extension *)

Lemma extend_lookup db cu p prev new reason i :
  get_pass (Passes.extend db cu p prev new reason) i
  = get_pass (update_pass db (Pass.set_expires_at p (Some new))) i.
Proof. reflexivity. Qed.

(** A successful [override] appends one row to the ledger and moves the
    deadline by the requested minutes. *)
Lemma override_extends db cu p m reason minutes db' r :
  Passes.is_teacher cu || Passes.is_admin cu = true ->
  get_pass db (Pass.id p) = Some p ->
  Py.int (Passes.form_get m "0") = Ok minutes ->
  Passes.override db cu (Pass.id p) m reason = Ok (db', r) ->
  exists prev,
    Pass.expires_at p = Some prev
    /\ overrides db'
       = (overrides db
          ++ [override_row cu p prev minutes (Passes.form_reason reason)])%list
    /\ get_pass db' (Pass.id p)
       = Some (Pass.set_expires_at p (Some (prev + minutes * Py.US_PER_MINUTE))).
Proof.
  intros Hrole Hg Hint. unfold Passes.override.
  rewrite Hrole, Hg, Hint. simpl.
  destruct (Py.timedelta_minutes minutes) as [td |] eqn:Et; simpl; [| discriminate].
  destruct (Pass.expires_at p) as [prev |] eqn:Ee; [| discriminate].
  destruct (Py.datetime_add prev td) as [new |] eqn:Ea; simpl; [| discriminate].
  destruct (commit _) as [db2 |] eqn:Ec; simpl; [| discriminate].
  apply commit_ok in Ec. destruct Ec as [-> _].
  apply timedelta_minutes_ok in Et. apply datetime_add_ok in Ea. subst td new.
  intros H.
  assert (Hdb : db' = Passes.extend db cu p prev (prev + minutes * Py.US_PER_MINUTE)
                        (Passes.form_reason reason))
    by (destruct (negb _); inversion H; reflexivity).
  subst db'. exists prev. split; [reflexivity | split; [reflexivity |]].
  rewrite extend_lookup, get_pass_update. simpl. rewrite Z.eqb_refl, Hg.
  reflexivity.
Qed.

(** *** The batch view *)

Lemma filter_filter {A} (f g : A -> bool) (l : list A) :
  filter f (filter g l) = filter (fun x => g x && f x) l.
Proof.
  induction l as [| a l IH]; simpl; [reflexivity |].
  destruct (g a); simpl; [destruct (f a) |]; rewrite IH; reflexivity.
Qed.

Section BatchExtension.

Variable cu : CurrentUser.t.
Variable minutes : Z.
Variable reason : option string.

Local Abbreviation loop_body := (extend_row cu minutes reason).
Local Abbreviation rows_of := (ledger_rows cu minutes reason).

Lemma foldM_override_is_loop l :
  forall db n db' n',
  foldM (Passes.override_one cu minutes reason) l (db, n) = Ok (db', n') ->
  db' = fold_left loop_body (filter has_deadline l) db.
Proof.
  induction l as [| a l IH]; intros db n db' n'; simpl.
  - intros H. inversion H. reflexivity.
  - unfold has_deadline.
    destruct (Pass.expires_at a) as [prev |] eqn:Ee; simpl.
    + destruct (Py.timedelta_minutes minutes) as [td |] eqn:Et; simpl;
        [| discriminate].
      destruct (Py.datetime_add prev td) as [new |] eqn:Ea; simpl; [| discriminate].
      apply timedelta_minutes_ok in Et. apply datetime_add_ok in Ea. subst td new.
      assert (Hrow : loop_body db a
                     = Passes.extend db cu a prev
                         (prev + minutes * Py.US_PER_MINUTE) reason).
      { unfold extend_row. rewrite Ee. reflexivity. }
      rewrite Hrow. apply IH.
    + apply IH.
Qed.

Lemma extend_row_passes db a :
  passes (loop_body db a) = passes (update_pass db (extended minutes a)).
Proof.
  unfold extend_row, extended.
  destruct (Pass.expires_at a); reflexivity.
Qed.

Lemma loop_ledger l : forall db,
  overrides (fold_left loop_body l db)
  = (overrides db ++ flat_map rows_of l)%list.
Proof.
  induction l as [| a l IH]; intros db; simpl.
  - rewrite app_nil_r. reflexivity.
  - rewrite IH. unfold extend_row, ledger_rows.
    destruct (Pass.expires_at a); simpl.
    + rewrite <- app_assoc. reflexivity.
    + reflexivity.
Qed.

Lemma overrides_of_app i l1 l2 :
  overrides_of i (l1 ++ l2) = (overrides_of i l1 ++ overrides_of i l2)%list.
Proof. apply filter_app. Qed.

Lemma ledger_rows_other p a :
  Pass.id a <> Pass.id p -> overrides_of (Pass.id p) (rows_of a) = [].
Proof.
  intros Hne. unfold ledger_rows, overrides_of.
  destruct (Pass.expires_at a); simpl; [| reflexivity].
  destruct (Z.eqb_spec (Pass.id a) (Pass.id p)); [contradiction | reflexivity].
Qed.

Lemma ledger_of_absent p l :
  ~ In (Pass.id p) (map Pass.id l) ->
  overrides_of (Pass.id p) (flat_map rows_of l) = [].
Proof.
  induction l as [| a l IH]; simpl; intros Hn; [reflexivity |].
  rewrite overrides_of_app.
  rewrite IH by tauto.
  rewrite (ledger_rows_other p a) by (intros E; apply Hn; left; exact E).
  reflexivity.
Qed.

(** One row of the ledger for a pass the loop visits. *)
Lemma ledger_of_visited p prev l :
  NoDup (map Pass.id l) -> In p l -> Pass.expires_at p = Some prev ->
  overrides_of (Pass.id p) (flat_map rows_of l)
  = [override_row cu p prev minutes reason].
Proof.
  induction l as [| a l IH]; simpl; intros Hnd Hin He; [contradiction |].
  inversion Hnd as [| ? ? Hnot Hnd']. subst.
  rewrite overrides_of_app.
  destruct Hin as [-> | Hin].
  - rewrite (ledger_of_absent p l Hnot), app_nil_r.
    unfold ledger_rows, overrides_of. rewrite He. simpl.
    rewrite Z.eqb_refl. reflexivity.
  - rewrite (IH Hnd' Hin He).
    rewrite (ledger_rows_other p a); [reflexivity |].
    intros E. apply Hnot. rewrite E. apply in_map. exact Hin.
Qed.

End BatchExtension.

Lemma NoDup_map_filter {A B} (h : A -> B) (f : A -> bool) (l : list A) :
  NoDup (map h l) -> NoDup (map h (filter f l)).
Proof.
  induction l as [| a l IH]; simpl; intros Hnd; [constructor |].
  inversion Hnd as [| ? ? Hnot Hnd']. subst.
  destruct (f a); simpl; [| auto].
  constructor; [| auto].
  intros Hin. apply Hnot. apply in_map_iff in Hin.
  destruct Hin as (x & Hx & Hin). apply filter_In in Hin.
  rewrite <- Hx. apply in_map. tauto.
Qed.

(** A successful batch extension adds, for each selected pass with a
    deadline, one row to the ledger and the minutes to the deadline. *)
Lemma override_selected_extends db cu ids m reason minutes p prev db' r :
  Passes.is_teacher cu || Passes.is_admin cu = true ->
  unique_ids db ->
  In p (Passes.selection db cu ids ACTIVE) ->
  Pass.expires_at p = Some prev ->
  Py.int (Passes.form_get m "0") = Ok minutes ->
  0 < minutes ->
  Passes.my_period_override_selected db cu ids m reason = Ok (db', r) ->
  exists added,
    overrides db' = (overrides db ++ added)%list
    /\ overrides_of (Pass.id p) added
       = [override_row cu p prev minutes (Passes.form_reason reason)]
    /\ get_pass db' (Pass.id p)
       = Some (Pass.set_expires_at p (Some (prev + minutes * Py.US_PER_MINUTE))).
Proof.
  intros Hrole Hu Hsel He Hint Hpos. unfold Passes.my_period_override_selected.
  assert (Hr : negb (Passes.is_teacher cu) && negb (Passes.is_admin cu) = false).
  { destruct (Passes.is_teacher cu), (Passes.is_admin cu); simpl in *; congruence. }
  rewrite Hr, Hint. simpl.
  assert (Hids : match ids with [] => true | _ => false end = false).
  { destruct ids; [| reflexivity]. unfold Passes.selection in Hsel.
    apply filter_In in Hsel. simpl in Hsel. destruct Hsel as [_ Hsel]. discriminate. }
  rewrite Hids. simpl.
  destruct (Z.leb_spec minutes 0) as [Hle | _]; [lia |].
  set (reason' := Passes.form_reason reason).
  destruct (foldM _ _ _) as [[db1 count] |] eqn:Ef; simpl; [| discriminate].
  apply foldM_override_is_loop in Ef.
  assert (Hres : forall d, d = db1 ->
             exists added,
               overrides d = (overrides db ++ added)%list
               /\ overrides_of (Pass.id p) added
                  = [override_row cu p prev minutes reason']
               /\ get_pass d (Pass.id p)
                  = Some (Pass.set_expires_at p
                            (Some (prev + minutes * Py.US_PER_MINUTE)))).
  { intros d ->. rewrite Ef.
    exists (flat_map (ledger_rows cu minutes reason')
                     (filter has_deadline (Passes.selection db cu ids ACTIVE))).
    split; [apply loop_ledger | split].
    - apply ledger_of_visited.
      + apply NoDup_map_filter. apply NoDup_map_filter. exact Hu.
      + apply filter_In. split; [exact Hsel |].
        unfold has_deadline. rewrite He. reflexivity.
      + exact He.
    - unfold Passes.selection in *. rewrite filter_filter.
      apply filter_In in Hsel. destruct Hsel as [Hin Hf].
      rewrite (loop_over_filter (extend_row cu minutes reason')
                 (extended minutes)
                 (extend_row_passes cu minutes reason')
                 (fun _ => eq_refl) _ db p Hu Hin).
      rewrite Hf. unfold has_deadline, extended. rewrite He. reflexivity. }
  destruct (Py.truthy count).
  - destruct (commit db1) as [db2 |] eqn:Ec; simpl; [| discriminate].
    apply commit_ok in Ec. destruct Ec as [-> _].
    intros H. inversion H. subst. apply Hres. reflexivity.
  - intros H. inversion H. subst. apply Hres. reflexivity.
Qed.

(** C3. Every successful extension, by the single view or for a pass of a
    batch, appends exactly one [Override] row for the pass, whose previous
    deadline is the pass's deadline and whose new deadline is later by the
    requested minutes times 60 seconds, and sets the pass's deadline to the
    new one. *)
Theorem extend_appends_one_override (db : DB) (cu : CurrentUser.t) (p : Pass.t)
    (m reason : option string) (minutes : Z) :
  Passes.is_teacher cu || Passes.is_admin cu = true ->
  unique_ids db ->
  In p (passes db) ->
  Py.int (Passes.form_get m "0") = Ok minutes ->
  (forall db' r,
      Passes.override db cu (Pass.id p) m reason = Ok (db', r) ->
      exists prev row,
        Pass.expires_at p = Some prev
        /\ overrides db' = (overrides db ++ [row])%list
        /\ Override.pass_id row = Pass.id p
        /\ Override.previous_expires_at row = prev
        /\ Override.new_expires_at row - Override.previous_expires_at row
           = minutes * 60 * Py.US_PER_SECOND
        /\ get_pass db' (Pass.id p)
           = Some (Pass.set_expires_at p (Some (Override.new_expires_at row))))
  /\ (forall ids prev db' r,
        In p (Passes.selection db cu ids ACTIVE) ->
        Pass.expires_at p = Some prev ->
        0 < minutes ->
        Passes.my_period_override_selected db cu ids m reason = Ok (db', r) ->
        exists added row,
          overrides db' = (overrides db ++ added)%list
          /\ overrides_of (Pass.id p) added = [row]
          /\ Override.previous_expires_at row = prev
          /\ Override.new_expires_at row - Override.previous_expires_at row
             = minutes * 60 * Py.US_PER_SECOND
          /\ get_pass db' (Pass.id p)
             = Some (Pass.set_expires_at p (Some (Override.new_expires_at row)))).
Proof.
  intros Hrole Hu Hin Hint.
  pose proof (unique_ids_get db p Hu Hin) as Hg.
  split.
  - intros db' r Hrun.
    destruct (override_extends db cu p m reason minutes db' r Hrole Hg Hint Hrun)
      as (prev & He & Hov & Hp).
    exists prev, (override_row cu p prev minutes (Passes.form_reason reason)).
    repeat split; try assumption; try reflexivity.
    simpl. units. lia.
  - intros ids prev db' r Hsel He Hpos Hrun.
    destruct (override_selected_extends db cu ids m reason minutes p prev db' r
                Hrole Hu Hsel He Hint Hpos Hrun) as (added & Hov & Hone & Hp).
    exists added, (override_row cu p prev minutes (Passes.form_reason reason)).
    repeat split; try assumption; try reflexivity.
    simpl. units. lia.
Qed.

Lemma extend_appends_one_override_witness :
  exists prev row,
    Pass.expires_at sam_active = Some prev
    /\ overrides extended_db = (overrides active_db ++ [row])%list
    /\ Override.pass_id row = Pass.id sam_active
    /\ Override.previous_expires_at row = prev
    /\ Override.new_expires_at row - Override.previous_expires_at row
       = 10 * 60 * Py.US_PER_SECOND
    /\ get_pass extended_db (Pass.id sam_active)
       = Some (Pass.set_expires_at sam_active (Some (Override.new_expires_at row))).
Proof.
  destruct (extend_appends_one_override active_db tom sam_active
              (Some "10") (Some "medical") 10) as [H _].
  - reflexivity.
  - unfold unique_ids. vm_compute. constructor; [simpl; tauto | constructor].
  - vm_compute. left. reflexivity.
  - reflexivity.
  - apply (H extended_db [OVERRIDDEN_WARNING]). vm_compute. reflexivity.
Defined.

(** The scenario of the specification: ten minutes for a medical reason on
    the pass due at 10:05:00. *)
Example extend_scenario :
  Passes.override active_db tom 1 (Some "10") (Some "medical")
  = Ok (extended_db, [OVERRIDDEN_WARNING])
  /\ overrides extended_db
     = [ {| Override.pass_id := 1; Override.performed_by_id := 2;
            Override.previous_expires_at := monday 10 5 0;
            Override.new_expires_at := monday 10 15 0;
            Override.reason := Some "medical" |} ]
  /\ option_map Pass.expires_at (get_pass extended_db 1)
     = Some (Some (monday 10 15 0)).
Proof. repeat split; vm_compute; reflexivity. Qed.

(** *** What the two views refuse *)

(** The batch view refuses a request for no minutes or fewer and leaves the
    store as it was. *)
Lemma override_selected_refuses_nonpositive db cu ids m reason minutes :
  Passes.is_teacher cu || Passes.is_admin cu = true ->
  Py.int (Passes.form_get m "0") = Ok minutes ->
  minutes <= 0 ->
  Passes.my_period_override_selected db cu ids m reason
  = Ok (db, [("Select passes and specify minutes > 0.", "warning")]).
Proof.
  intros Hrole Hint Hle. unfold Passes.my_period_override_selected.
  assert (Hr : negb (Passes.is_teacher cu) && negb (Passes.is_admin cu) = false).
  { destruct (Passes.is_teacher cu), (Passes.is_admin cu); simpl in *; congruence. }
  rewrite Hr, Hint. simpl.
  destruct (Z.leb_spec minutes 0) as [_ | Hgt]; [| lia].
  rewrite orb_true_r. reflexivity.
Qed.

(** The batch view extends Active passes only: a pass in another state is
    not in its selection. *)
Lemma override_selected_skips_inactive db cu ids p :
  In p (Passes.selection db cu ids ACTIVE) -> Pass.state p = ACTIVE.
Proof.
  unfold Passes.selection. intros H. apply filter_In in H.
  destruct H as [_ H]. apply andb_prop in H. destruct H as [H _].
  apply andb_prop in H. destruct H as [_ H].
  destruct (Pass.state p); try discriminate. reflexivity.
Qed.

(** The single view commits whatever the state of the pass and the sign of
    the minutes, as long as the new deadline is representable and stays
    after the issue time. *)
Lemma override_commits_in_any_state db cu p m reason minutes prev issued :
  Passes.is_teacher cu || Passes.is_admin cu = true ->
  get_pass db (Pass.id p) = Some p ->
  Pass.issued_at p = Some issued ->
  Pass.expires_at p = Some prev ->
  Py.int (Passes.form_get m "0") = Ok minutes ->
  Py.timedelta_minutes minutes = Ok (minutes * Py.US_PER_MINUTE) ->
  Py.datetime_valid (prev + minutes * Py.US_PER_MINUTE) = true ->
  issued < prev + minutes * Py.US_PER_MINUTE ->
  constraints db = true ->
  exists db' r, Passes.override db cu (Pass.id p) m reason = Ok (db', r).
Proof.
  intros Hrole Hg Hi He Hint Htd Hvalid Hlt Hc. unfold Passes.override.
  rewrite Hrole, Hg, Hint. simpl. rewrite Htd. simpl. rewrite He.
  unfold Py.datetime_add. rewrite Hvalid. simpl.
  unfold commit.
  match goal with |- context [constraints ?d] =>
    assert (Hk : constraints d = true) end.
  { unfold constraints in *. apply andb_prop in Hc. destruct Hc as [Hck Huq].
    apply andb_true_intro. split; [| exact Huq].
    apply (ck_update db); [exact Hck |].
    unfold Pass.ck_pass_time_order. simpl. rewrite Hi. simpl.
    apply Z.ltb_lt in Hlt. rewrite Hlt. reflexivity. }
  rewrite Hk. simpl. destruct (negb _); eauto.
Qed.

(** C2 (what the code does at the failing inputs).  The single view
    [override] checks neither the minutes nor the state: on the Active pass
    due at 10:05:00 it accepts 0 minutes and -2 minutes, and at 10:20, when
    the pass has Expired, it accepts 5 minutes; each time it appends a row
    to the ledger, and the pass keeps or changes its deadline while its
    state stays as it was.  The batch view refuses the same requests. *)
Theorem override_checks_neither_minutes_nor_state :
  (exists db',
      Passes.override active_db tom 1 (Some "0") None
      = Ok (db', [OVERRIDDEN_WARNING])
      /\ overrides db'
         = [ {| Override.pass_id := 1; Override.performed_by_id := 2;
                Override.previous_expires_at := monday 10 5 0;
                Override.new_expires_at := monday 10 5 0;
                Override.reason := None |} ])
  /\ (exists db',
        Passes.override active_db tom 1 (Some "-2") None
        = Ok (db', [OVERRIDDEN_WARNING])
        /\ overrides db'
           = [ {| Override.pass_id := 1; Override.performed_by_id := 2;
                  Override.previous_expires_at := monday 10 5 0;
                  Override.new_expires_at := monday 10 3 0;
                  Override.reason := None |} ]
        /\ get_pass db' 1
           = Some (Pass.set_expires_at sam_active (Some (monday 10 3 0))))
  /\ (get_pass expired_db 1 = Some (Pass.set_state sam_active EXPIRED)
      /\ exists db',
        Passes.override expired_db tom 1 (Some "5") None
        = Ok (db', [OVERRIDDEN_WARNING])
        /\ overrides db'
           = [ {| Override.pass_id := 1; Override.performed_by_id := 2;
                  Override.previous_expires_at := monday 10 5 0;
                  Override.new_expires_at := monday 10 10 0;
                  Override.reason := None |} ]
        /\ get_pass db' 1
           = Some {| Pass.id := 1; Pass.student_id := 3; Pass.destination_id := 1;
                     Pass.issued_at := Some (monday 10 0 0);
                     Pass.expires_at := Some (monday 10 10 0);
                     Pass.state := EXPIRED |})
  /\ Passes.my_period_override_selected active_db tom [1] (Some "0") None
     = Ok (active_db, [("Select passes and specify minutes > 0.", "warning")])
  /\ Passes.my_period_override_selected expired_db tom [1] (Some "5") None
     = Ok (expired_db, [("No active passes in selection.", "info")]).
Proof.
  split; [| split; [| split; [| split]]].
  - eexists. split; vm_compute; reflexivity.
  - eexists. split; [| split]; vm_compute; reflexivity.
  - split; [vm_compute; reflexivity |].
    eexists. split; [| split]; vm_compute; reflexivity.
  - vm_compute. reflexivity.
  - vm_compute. reflexivity.
Qed.

(** ** Who approved *)

Lemma uq_pass_teacher_count l pass_id teacher_id :
  uq_pass_teacher l = true ->
  (List.length (rows_for pass_id teacher_id l) <= 1)%nat.
Proof.
  unfold rows_for.
  induction l as [| x l IH]; simpl; [lia |].
  intros Hu. apply andb_prop in Hu. destruct Hu as [Hx Hl].
  specialize (IH Hl).
  destruct ((PassAssignment.pass_id x =? pass_id)
            && (PassAssignment.teacher_id x =? teacher_id)) eqn:Ex; [| exact IH].
  apply andb_prop in Ex. destruct Ex as [E1 E2].
  apply Z.eqb_eq in E1, E2. subst pass_id teacher_id.
  apply negb_true_iff in Hx.
  replace (filter _ l) with (@nil PassAssignment.t); [simpl; lia |].
  symmetry. clear IH Hl. induction l as [| y l IH]; simpl; [reflexivity |].
  simpl in Hx. apply orb_false_elim in Hx. destruct Hx as [Hy Hl].
  replace ((PassAssignment.pass_id y =? PassAssignment.pass_id x)
           && (PassAssignment.teacher_id y =? PassAssignment.teacher_id x))
    with false; [auto |].
  rewrite (Z.eqb_sym (PassAssignment.pass_id y)),
    (Z.eqb_sym (PassAssignment.teacher_id y)). auto.
Qed.

Lemma existsb_filter_nonempty {A} (f : A -> bool) l :
  existsb f l = true -> (1 <= List.length (filter f l))%nat.
Proof.
  induction l as [| a l IH]; simpl; [discriminate |].
  destruct (f a); simpl; [lia | exact IH].
Qed.

(** After a successful [approve], of a Pending pass or of an Active one,
    exactly one assignment row joins the pass to the approver. *)
Lemma approve_records_approver db cu p now db' r :
  Passes.is_teacher cu || Passes.is_admin cu = true ->
  get_pass db (Pass.id p) = Some p ->
  Passes.approve db cu (Pass.id p) now = Ok (db', r) ->
  In APPROVED r ->
  List.length (assignments_of db' (Pass.id p) (CurrentUser.id cu)) = 1%nat.
Proof.
  intros Hrole Hg. unfold Passes.approve. rewrite Hrole, Hg. simpl.
  destruct (negb _).
  { intros H Hin. inversion H. subst. destruct Hin as [Hin | []]. discriminate. }
  match goal with |- context [bind ?m _] => destruct m as [outside |] end;
    simpl; [| discriminate].
  destruct (outside && negb _).
  { intros H Hin. inversion H. subst. destruct Hin as [Hin | []]. discriminate. }
  match goal with |- context [bind ?m _] => destruct m as [p1 |] eqn:Ep1 end;
    simpl; [| discriminate].
  assert (Hid : Pass.id p1 = Pass.id p).
  { destruct (PassState_eqb (Pass.state p) PENDING).
    - apply activate_ok in Ep1. subst. reflexivity.
    - inversion Ep1. reflexivity. }
  destruct (commit _) as [db4 |] eqn:Ec; simpl; [| discriminate].
  apply commit_ok in Ec. destruct Ec as [-> Hc].
  intros H _. inversion H. subst db'. clear H.
  unfold constraints in Hc. apply andb_prop in Hc. destruct Hc as [_ Hu].
  unfold assignments_of. rewrite <- Hid.
  apply Nat.le_antisymm; [| unfold rows_for].
  - apply uq_pass_teacher_count. exact Hu.
  - apply existsb_filter_nonempty.
    destruct (Passes.assigned_to (update_pass db p1) (CurrentUser.id cu) p1) eqn:Ea.
    + exact Ea.
    + simpl. rewrite existsb_app. simpl. rewrite !Z.eqb_refl. simpl.
      apply orb_true_r.
Qed.

Lemma foldM_approve_assignments cu now l : forall db n db' n',
  foldM (Passes.approve_one cu now) l (db, n) = Ok (db', n') ->
  pass_assignments db' = pass_assignments db.
Proof.
  induction l as [| a l IH]; intros db n db' n'; simpl.
  - intros H. inversion H. reflexivity.
  - destruct (Passes.activate db a now) as [p1 |]; simpl; [| discriminate].
    intros H. apply IH in H. exact H.
Qed.

(** The batch approval never adds an assignment row, whoever approves. *)
Lemma approve_all_adds_no_assignment db cu period_id now db' r :
  Passes.my_period_approve_all db cu period_id now = Ok (db', r) ->
  pass_assignments db' = pass_assignments db.
Proof.
  unfold Passes.my_period_approve_all.
  destruct (negb _ && negb _); [intros H; inversion H; reflexivity |].
  destruct (Passes.form_period db period_id) as [period |]; simpl; [| discriminate].
  destruct (foldM _ _ _) as [[db1 updated] |] eqn:Ef; simpl; [| discriminate].
  apply foldM_approve_assignments in Ef.
  destruct (Py.truthy updated).
  - destruct (commit db1) as [db2 |] eqn:Ec; simpl; [| discriminate].
    apply commit_ok in Ec. destruct Ec as [-> _].
    intros H. inversion H. subst. exact Ef.
  - intros H. inversion H. subst. exact Ef.
Qed.

(** C4 (what the code does at the failing input).  The batch approval by
    an admin moves the pending pass to Active and records no assignment for
    the admin: the only row is still the one of the teacher the request was
    routed to.  The single view [approve], on the same store and by the same
    admin, does add the row. *)
Theorem approve_all_records_no_approver :
  (exists db',
      Passes.my_period_approve_all pending_db alice None (monday 10 0 0)
      = Ok (db', [("Approved 1 pending pass(es).", "success")])
      /\ get_pass pending_db 1 = Some sam_pass
      /\ get_pass db' 1 = Some sam_active
      /\ pass_assignments db'
         = [ {| PassAssignment.pass_id := 1; PassAssignment.teacher_id := 2 |} ]
      /\ assignments_of db' 1 (CurrentUser.id alice) = [])
  /\ (exists db',
        Passes.approve pending_db alice 1 (monday 10 0 0) = Ok (db', [APPROVED])
        /\ get_pass db' 1 = Some sam_active
        /\ pass_assignments db'
           = [ {| PassAssignment.pass_id := 1; PassAssignment.teacher_id := 2 |};
               {| PassAssignment.pass_id := 1; PassAssignment.teacher_id := 1 |} ]).
Proof.
  split.
  - eexists. split; [| split; [| split; [| split]]]; vm_compute; reflexivity.
  - eexists. split; [| split]; vm_compute; reflexivity.
Qed.

(** Approving twice leaves one row for the approver. *)
Example approve_twice :
  option_map (fun d => pass_assignments (fst d))
    (match Passes.approve active_db tom 1 (monday 10 1 0) with
     | Ok d => Some d
     | Raise _ => None
     end)
  = Some [ {| PassAssignment.pass_id := 1; PassAssignment.teacher_id := 2 |} ].
Proof. vm_compute. reflexivity. Qed.

(** ** The stores the application builds are well formed *)

Lemma ids_replace p i ps :
  Pass.id p = i ->
  map Pass.id (map (fun q => if Pass.id q =? i then p else q) ps)
  = map Pass.id ps.
Proof.
  intros Hi. rewrite map_map. apply map_ext.
  intros q. simpl. destruct (Z.eqb_spec (Pass.id q) i); congruence.
Qed.

Lemma ids_update db p :
  map Pass.id (passes (update_pass db p)) = map Pass.id (passes db).
Proof. apply ids_replace. reflexivity. Qed.

Lemma fold_expire_ids cu l : forall db,
  map Pass.id (passes (fold_left (Passes.expire cu) l db)) = map Pass.id (passes db).
Proof.
  induction l as [| a l IH]; intros db; simpl; [reflexivity |].
  rewrite IH. apply (ids_update db).
Qed.

Lemma fold_set_state_ids cu st action l : forall db n,
  map Pass.id (passes (fst (fold_left (Passes.set_state_one cu st action) l (db, n))))
  = map Pass.id (passes db).
Proof.
  induction l as [| a l IH]; intros db n; simpl; [reflexivity |].
  rewrite IH. apply (ids_update db).
Qed.

Lemma foldM_approve_ids cu now l : forall db n db' n',
  foldM (Passes.approve_one cu now) l (db, n) = Ok (db', n') ->
  map Pass.id (passes db') = map Pass.id (passes db).
Proof.
  induction l as [| a l IH]; intros db n db' n'; simpl.
  - intros H. inversion H. reflexivity.
  - destruct (Passes.activate db a now) as [p1 |]; simpl; [| discriminate].
    intros H. apply IH in H. rewrite H. apply (ids_update db).
Qed.

Lemma foldM_override_ids cu m reason l : forall db n db' n',
  foldM (Passes.override_one cu m reason) l (db, n) = Ok (db', n') ->
  map Pass.id (passes db') = map Pass.id (passes db).
Proof.
  induction l as [| a l IH]; intros db n db' n'; simpl.
  - intros H. inversion H. reflexivity.
  - destruct (Pass.expires_at a) as [prev |]; simpl; [| apply IH].
    destruct (Py.timedelta_minutes m) as [td |]; simpl; [| discriminate].
    destruct (Py.datetime_add prev td) as [new |]; simpl; [| discriminate].
    intros H. apply IH in H. rewrite H. apply (ids_update db).
Qed.

Lemma next_pass_id_fresh db : ~ In (next_pass_id db) (map Pass.id (passes db)).
Proof.
  unfold next_pass_id.
  assert (H : forall l x, In x l -> x <= fold_right Z.max 0 l).
  { induction l as [| y l IH]; simpl; [tauto |].
    intros x [-> | Hx]; [lia |]. specialize (IH x Hx). lia. }
  intros Hin. apply H in Hin. lia.
Qed.

Lemma unique_ids_new_pass db p :
  unique_ids db -> Pass.id p = next_pass_id db ->
  NoDup (map Pass.id (passes db ++ [p])).
Proof.
  unfold unique_ids. intros Hu Hid. rewrite map_app. simpl.
  apply NoDup_app; [exact Hu | repeat constructor; simpl; tauto |].
  intros x Hx [<- | []]. rewrite Hid in Hx.
  exact (next_pass_id_fresh db Hx).
Qed.

(** Follow a handler down to the answers it can give. *)
Ltac walk :=
  repeat match goal with
         | |- Ok _ = Ok _ -> _ =>
             let H := fresh in intros H; inversion H; subst; clear H
         | |- Raise _ = Ok _ -> _ => discriminate
         | |- context [bind ?m _] => destruct m eqn:?; simpl
         | |- context [match ?x with _ => _ end] => destruct x eqn:?; simpl
         end.

Ltac same_ids Hu :=
  unfold unique_ids in *; simpl passes;
  repeat match goal with
         | H : commit _ = Ok _ |- _ => apply commit_ok in H; destruct H as [-> _]
         end;
  repeat match goal with
         | |- context [if ?b then _ else _] => destruct b
         end;
  simpl passes;
  first [ exact Hu
        | rewrite ids_replace by reflexivity; exact Hu
        | idtac ].

Lemma handle_ids op db db' r :
  unique_ids db -> handle op db = Ok (db', r) -> unique_ids db'.
Proof.
  intros Hu. destruct op; simpl.
  - unfold Passes.request_pass. walk; same_ids Hu.
    apply unique_ids_new_pass; [exact Hu | reflexivity].
  - unfold Passes.approve. walk; same_ids Hu.
  - unfold Passes.my_period_approve_all. walk; same_ids Hu;
      match goal with
      | H : foldM _ _ _ = Ok _ |- _ => apply foldM_approve_ids in H; rewrite H
      end; exact Hu.
  - unfold Passes.deny. walk; same_ids Hu.
  - unfold Passes.my_period_deny_selected. walk; same_ids Hu;
      match goal with
      | H : fold_left ?f ?l ?a = (?d, _) |- _ =>
          replace d with (fst (fold_left f l a)) by (rewrite H; reflexivity);
          rewrite fold_set_state_ids
      end; exact Hu.
  - unfold Passes.cancel. walk; same_ids Hu.
  - unfold Passes.my_period_cancel_selected. walk; same_ids Hu;
      match goal with
      | H : fold_left ?f ?l ?a = (?d, _) |- _ =>
          replace d with (fst (fold_left f l a)) by (rewrite H; reflexivity);
          rewrite fold_set_state_ids
      end; exact Hu.
  - unfold Passes.override. walk; same_ids Hu.
  - unfold Passes.my_period_override_selected. walk; same_ids Hu;
      match goal with
      | H : foldM _ _ _ = Ok _ |- _ => apply foldM_override_ids in H; rewrite H
      end; exact Hu.
  - unfold Passes.index. walk; same_ids Hu.
    match goal with
    | |- NoDup (map Pass.id (passes (fold_left ?f ?l ?d))) =>
        rewrite (fold_expire_ids _ l d)
    end.
    unfold Passes.expire. simpl passes. rewrite ids_replace by reflexivity.
    exact Hu.
Qed.

Lemma run_well_formed db op : well_formed db -> well_formed (run db op).
Proof.
  intros (Hu & Hc & Ht). unfold run.
  destruct (handle op db) as [[db' r] |] eqn:E; [| repeat split; assumption].
  split; [eapply handle_ids; eauto |].
  apply (handle_effect op db db' r (time_ordered_paired _ Ht)) in E.
  destruct E as [-> | [E Hp]]; split; try assumption.
  apply constraints_time_ordered; assumption.
Qed.

(** Every store reachable from a well-formed one is well formed: the
    hypotheses on keys and constraints in the statements above hold
    wherever the application gets. *)
Lemma reachable_well_formed db0 db :
  well_formed db0 -> reachable db0 db -> well_formed db.
Proof.
  intros H0 Hreach. induction Hreach as [| db op _ IH].
  - exact H0.
  - apply run_well_formed. exact IH.
Qed.

(** ** Routing at a kiosk *)

Lemma truthy_nonzero n : n <> 0 -> Py.truthy n = true.
Proof.
  unfold Py.truthy. intros H. destruct (Z.eqb_spec n 0); [contradiction | reflexivity].
Qed.

Section KioskRouting.

Variable db : DB.
Variable cu : CurrentUser.t.
Variable tok : string.
Variable kiosk : Kiosk.t.
Variable cp_id : Z.
Variable P : ClassPeriod.t.
Variable owner : User.t.

Hypothesis token_given : tok <> EmptyString.
Hypothesis binding_active : active_kiosk db tok = Some kiosk.
Hypothesis bound_to_period : Kiosk.class_period_id kiosk = Some cp_id.
Hypothesis key_nonzero : cp_id <> 0.
Hypothesis period_P_exists : get_class_period db cp_id = Some P.
Hypothesis owner_nonzero : ClassPeriod.teacher_id P <> 0.
Hypothesis owner_exists : get_user db (ClassPeriod.teacher_id P) = Some owner.





End KioskRouting.



(** That request is accepted and assigned to Tom (user 2);
    without a kiosk the same choice goes to Tina (user 4). *)
Example kiosk_request_run :
  option_map (fun d => pass_assignments (fst d))
    (match Passes.request_pass demo_db sam kiosk_request_choosing_Q
             (monday 9 59 0) with
     | Ok d => Some d
     | Raise _ => None
     end)
  = Some [ {| PassAssignment.pass_id := 1; PassAssignment.teacher_id := 2 |} ]
  /\ option_map (fun d => pass_assignments (fst d))
       (match Passes.request_pass demo_db sam
                {| Passes.method := Passes.POST; Passes.args_token := None;
                   Passes.cookie_token := None;
                   Passes.form_destination_id := Some "1";
                   Passes.form_class_period_id := Some "2" |}
                (monday 9 59 0) with
        | Ok d => Some d
        | Raise _ => None
        end)
     = Some [ {| PassAssignment.pass_id := 1; PassAssignment.teacher_id := 4 |} ].
Proof. split; vm_compute; reflexivity. Qed.

(** * Further properties of the code *)

(** ** Time windows with a full day mask *)

Lemma string_get_some (s : string) (n : nat) :
  (n < String.length s)%nat -> exists c, String.get n s = Some c.
Proof.
  revert n. induction s as [| a s IH]; simpl; intros n Hn; [lia |].
  destruct n as [| n]; [eauto |]. apply IH. lia.
Qed.

Lemma weekday_range now : 0 <= Py.weekday now < 7.
Proof. unfold Py.weekday. apply Z.mod_pos_bound. lia. Qed.

(** With both times parsed and a mask of seven characters, the period is in
    window exactly when the clock time is in the range and the character of
    the mask for the weekday (Monday first) is '1'. *)
Theorem window_with_full_mask (p : ClassPeriod.t) (now : Py.datetime)
    (st en mask : string) (sh sm eh em : Z) :
  ClassPeriod.start_time p = Some st ->
  ClassPeriod.end_time p = Some en ->
  st <> EmptyString -> en <> EmptyString ->
  ClassPeriod.parse_hhmm st = Ok (sh, sm) ->
  ClassPeriod.parse_hhmm en = Ok (eh, em) ->
  ClassPeriod.days_mask p = Some mask ->
  String.length mask = 7%nat ->
  exists c,
    String.get (Z.to_nat (Py.weekday now)) mask = Some c
    /\ ClassPeriod.is_now_in_window p now
       = Ok (in_time now sh sm eh em && Ascii.eqb c "1"%char).
Proof.
  intros Hst Hen Hs He Hps Hpe Hmask Hlen.
  destruct (string_get_some mask (Z.to_nat (Py.weekday now))) as [c Hc].
  { pose proof (weekday_range now). lia. }
  exists c. split; [exact Hc |].
  unfold ClassPeriod.is_now_in_window. rewrite Hst, Hen, Hmask.
  destruct st; [congruence |]. destruct en; [congruence |]. simpl.
  unfold ClassPeriod.window_body. rewrite Hps. simpl. rewrite Hpe. simpl.
  rewrite Hlen. simpl.
  assert (Hne : Py.nonempty mask = true) by (destruct mask; [discriminate | reflexivity]).
  rewrite Hne. simpl. rewrite Hc. unfold in_time.
  destruct (_ && _); reflexivity.
Qed.

Lemma window_with_full_mask_witness :
  exists c,
    String.get (Z.to_nat (Py.weekday (Py.at_time 738891 9 0 0))) "1111100" = Some c
    /\ ClassPeriod.is_now_in_window period_Q (Py.at_time 738891 9 0 0)
       = Ok (in_time (Py.at_time 738891 9 0 0) 8 30 9 20 && Ascii.eqb c "1"%char).
Proof.
  apply (window_with_full_mask period_Q (Py.at_time 738891 9 0 0)
           "08:30" "09:20" "1111100" 8 30 9 20);
    try reflexivity; discriminate.
Defined.

(** Period Q (08:30-09:20, Monday to Friday) on Friday 2024-01-05 and on
    Saturday 2024-01-06 at 09:00, and on the Friday at 09:21. *)
Example window_week :
  ClassPeriod.is_now_in_window period_Q (Py.at_time 738890 9 0 0) = Ok true
  /\ ClassPeriod.is_now_in_window period_Q (Py.at_time 738891 9 0 0) = Ok false
  /\ ClassPeriod.is_now_in_window period_Q (Py.at_time 738890 9 21 0) = Ok false.
Proof. repeat split. Qed.

(** A period whose end is before its start is never in window: the range
    test has no wrap-around over midnight. *)
Theorem window_never_wraps (p : ClassPeriod.t) (now : Py.datetime)
    (st en : string) (sh sm eh em : Z) :
  ClassPeriod.start_time p = Some st ->
  ClassPeriod.end_time p = Some en ->
  st <> EmptyString -> en <> EmptyString ->
  ClassPeriod.parse_hhmm st = Ok (sh, sm) ->
  ClassPeriod.parse_hhmm en = Ok (eh, em) ->
  eh * 60 + em < sh * 60 + sm ->
  ClassPeriod.is_now_in_window p now = Ok false.
Proof.
  intros Hst Hen Hs He Hps Hpe Hinv.
  unfold ClassPeriod.is_now_in_window. rewrite Hst, Hen.
  destruct st; [congruence |]. destruct en; [congruence |]. simpl.
  unfold ClassPeriod.window_body. rewrite Hps. simpl. rewrite Hpe. simpl.
  assert (Hout : (sh * 60 + sm <=? Py.hour now * 60 + Py.minute now)
                 && (Py.hour now * 60 + Py.minute now <=? eh * 60 + em) = false).
  { destruct (Z.leb_spec (sh * 60 + sm) (Py.hour now * 60 + Py.minute now));
      [| reflexivity].
    simpl. apply Z.leb_gt. lia. }
  rewrite Hout. clear Hout.
  destruct (ClassPeriod.days_mask p) as [mask |]; [| reflexivity].
  destruct (Py.nonempty mask && _); reflexivity.
Qed.

Lemma window_never_wraps_witness :
  ClassPeriod.is_now_in_window overnight_period (monday 23 0 0) = Ok false.
Proof.
  apply (window_never_wraps overnight_period (monday 23 0 0)
           "22:00" "06:00" 22 0 6 0); try reflexivity; try discriminate.
Defined.

(** ** How the handlers change the rows of [passes] *)

Lemma PassState_eqb_eq a b : PassState_eqb a b = true <-> a = b.
Proof. destruct a, b; simpl; split; intros H; try reflexivity; discriminate. Qed.

Lemma row_change_id p q : row_change p q -> Pass.id q = Pass.id p.
Proof. destruct 1; reflexivity. Qed.

(** Two tables with the same keys in the same order, the second looked up
    by key: it is the first, row by row. *)
Lemma rows_by_lookup (h : Pass.t -> Pass.t) (l : list Pass.t) : forall l',
  NoDup (map Pass.id l) -> map Pass.id l' = map Pass.id l ->
  (forall p, In p l -> find (fun q => Pass.id q =? Pass.id p) l' = Some (h p)) ->
  l' = map h l.
Proof.
  induction l as [| p l IH]; intros l' Hnd Hids Hf.
  - destruct l'; [reflexivity | discriminate].
  - destruct l' as [| q l']; [discriminate |].
    simpl in Hids. inversion Hids as [[Hq Hrest]].
    inversion Hnd as [| ? ? Hnot Hnd']. subst.
    pose proof (Hf p (or_introl eq_refl)) as Hp. simpl in Hp.
    rewrite Hq, Z.eqb_refl in Hp. inversion Hp as [Hqp].
    simpl. f_equal; try exact Hqp.
    apply IH; auto. intros p2 Hp2.
    specialize (Hf p2 (or_intror Hp2)). simpl in Hf.
    destruct (Z.eqb_spec (Pass.id q) (Pass.id p2)) as [E | E]; [| exact Hf].
    exfalso. apply Hnot. rewrite <- Hq, E. apply in_map. exact Hp2.
Qed.

Section LoopAsMap.

Variable F : DB -> Pass.t -> DB.
Variable g : Pass.t -> Pass.t.
Hypothesis F_passes : forall db a, passes (F db a) = passes (update_pass db (g a)).
Hypothesis g_id : forall a, Pass.id (g a) = Pass.id a.

Lemma loop_ids l : forall db,
  map Pass.id (passes (fold_left F l db)) = map Pass.id (passes db).
Proof.
  induction l as [| a l IH]; intros db; simpl; [reflexivity |].
  rewrite IH, F_passes. apply ids_update.
Qed.

(** The loop over the rows a filter selects maps the table in place. *)
Lemma loop_is_map f db :
  unique_ids db ->
  passes (fold_left F (filter f (passes db)) db)
  = map (fun p => if f p then g p else p) (passes db).
Proof.
  intros Hu. apply rows_by_lookup; [exact Hu | apply loop_ids |].
  intros p Hp. apply (loop_over_filter F g F_passes g_id f db p Hu Hp).
Qed.

End LoopAsMap.

Lemma rows_step_same db db' : passes db' = passes db -> rows_step db db'.
Proof.
  intros H. exists (fun p => p), []. rewrite H, map_id, app_nil_r.
  repeat split; auto.
Qed.

Lemma rows_step_map db db' (h : Pass.t -> Pass.t) :
  passes db' = map h (passes db) ->
  (forall p, In p (passes db) -> h p = p \/ row_change p (h p)) ->
  rows_step db db'.
Proof. intros H Hh. exists h, []. rewrite H, app_nil_r. auto. Qed.

Lemma rows_step_update db db' i p0 p1 :
  unique_ids db -> get_pass db i = Some p0 -> Pass.id p1 = Pass.id p0 ->
  p1 = p0 \/ row_change p0 p1 ->
  passes db' = passes (update_pass db p1) -> rows_step db db'.
Proof.
  intros Hu Hg Hid Hc H.
  apply (rows_step_map db db'
           (fun q => if Pass.id q =? Pass.id p1 then p1 else q)); [exact H |].
  intros q Hq.
  destruct (Z.eqb_spec (Pass.id q) (Pass.id p1)) as [E | E]; [| left; reflexivity].
  apply get_pass_in in Hg. destruct Hg as [Hin _].
  assert (q = p0) by (apply (same_key_same_row (passes db)); auto; congruence).
  subst q. destruct Hc as [-> | Hc]; auto.
Qed.

Lemma rows_step_loop (F : DB -> Pass.t -> DB) (g : Pass.t -> Pass.t) f db db' :
  (forall d a, passes (F d a) = passes (update_pass d (g a))) ->
  (forall a, Pass.id (g a) = Pass.id a) ->
  (forall p, f p = true -> row_change p (g p)) ->
  unique_ids db ->
  passes db' = passes (fold_left F (filter f (passes db)) db) ->
  rows_step db db'.
Proof.
  intros HF Hg Hc Hu H.
  apply (rows_step_map db db' (fun p => if f p then g p else p)).
  - rewrite H. apply loop_is_map; assumption.
  - intros p _. destruct (f p) eqn:E; auto.
Qed.

Ltac unchanged := intros H; inversion H; subst; apply rows_step_same; reflexivity.

Lemma index_rows db cu now db' r :
  unique_ids db -> Passes.index db cu now = Ok (db', r) -> rows_step db db'.
Proof.
  intros Hu. unfold Passes.index.
  destruct (_ || _); [| unchanged].
  assert (Hloop : rows_step db (fold_left (Passes.expire cu)
                                  (filter (Passes.is_stale now) (passes db)) db)).
  { apply (rows_step_loop (Passes.expire cu) (fun p => Pass.set_state p EXPIRED)
             (Passes.is_stale now)); auto.
    intros p Hp. apply is_stale_iff in Hp. destruct Hp as [Hs (e & He & _)].
    eapply change_expired; eauto. }
  revert Hloop.
  destruct (filter (Passes.is_stale now) (passes db)) as [| s stale]; intros Hloop.
  - intros H. inversion H. subst. exact Hloop.
  - destruct (commit _) as [db2 |] eqn:Ec; simpl; [| discriminate].
    apply commit_ok in Ec. destruct Ec as [-> _].
    intros H. inversion H. subst. exact Hloop.
Qed.

Lemma approve_rows db cu i now db' r :
  unique_ids db -> Passes.approve db cu i now = Ok (db', r) -> rows_step db db'.
Proof.
  intros Hu. unfold Passes.approve.
  destruct (negb _); [unchanged |].
  destruct (get_pass db i) as [p |] eqn:Hg; [| unchanged].
  destruct (negb _); [unchanged |].
  match goal with |- context [bind ?m _] => destruct m as [outside |] end;
    simpl; [| discriminate].
  destruct (outside && negb _); [unchanged |].
  match goal with |- context [bind ?m _] => destruct m as [p1 |] eqn:Ep end;
    simpl; [| discriminate].
  destruct (commit _) as [db4 |] eqn:Ec; simpl; [| discriminate].
  apply commit_ok in Ec. destruct Ec as [-> _].
  intros H. inversion H. subst.
  apply (rows_step_update db _ i p p1 Hu Hg).
  - destruct (PassState_eqb (Pass.state p) PENDING);
      [apply activate_ok in Ep; subst p1; reflexivity | inversion Ep; reflexivity].
  - destruct (PassState_eqb (Pass.state p) PENDING) eqn:Es.
    + apply activate_ok in Ep. subst p1. right. constructor.
      apply PassState_eqb_eq. exact Es.
    + inversion Ep. left. reflexivity.
  - destruct (Passes.assigned_to _ _ _); reflexivity.
Qed.

Lemma approve_all_rows db cu period_id now db' r :
  unique_ids db ->
  Passes.my_period_approve_all db cu period_id now = Ok (db', r) ->
  rows_step db db'.
Proof.
  intros Hu. unfold Passes.my_period_approve_all.
  destruct (negb _ && negb _); [unchanged |].
  destruct (Passes.form_period db period_id) as [period |]; simpl; [| discriminate].
  match goal with |- context [foldM ?f (filter ?sel ?ps) ?a] =>
    set (sel' := sel);
    destruct (foldM f (filter sel' ps) a) as [[db1 updated] |] eqn:Ef end;
    simpl; [| discriminate].
  apply (foldM_approve_is_loop db) in Ef; [| reflexivity].
  assert (Hloop : rows_step db db1).
  { refine (rows_step_loop _ (fun a => activated (Passes.pass_minutes db a) a now)
              sel' db db1 _ _ _ Hu _); [| | | rewrite Ef; reflexivity]; auto.
    intros p Hp. constructor. apply PassState_eqb_eq.
    unfold sel' in Hp. apply andb_prop in Hp. destruct Hp as [Hp _].
    apply andb_prop in Hp. tauto. }
  destruct (Py.truthy updated).
  - destruct (commit db1) as [db2 |] eqn:Ec; simpl; [| discriminate].
    apply commit_ok in Ec. destruct Ec as [-> _].
    intros H. inversion H. subst. exact Hloop.
  - intros H. inversion H. subst. exact Hloop.
Qed.

Lemma fold_set_state_is_loop cu st action l : forall db n,
  fst (fold_left (Passes.set_state_one cu st action) l (db, n))
  = fold_left (fun d p => add_log (update_pass d (Pass.set_state p st))
                                  (Passes.log_entry cu action p (Some "batch")))
              l db.
Proof.
  induction l as [| a l IH]; intros db n; simpl; [reflexivity |]. apply IH.
Qed.

Lemma set_state_selected_rows db cu ids from st action db1 count :
  unique_ids db ->
  (forall p, Pass.state p = from -> row_change p (Pass.set_state p st)) ->
  fold_left (Passes.set_state_one cu st action)
            (Passes.selection db cu ids from) (db, 0) = (db1, count) ->
  rows_step db db1.
Proof.
  intros Hu Hc Hf.
  assert (E : db1 = fst (fold_left (Passes.set_state_one cu st action)
                           (Passes.selection db cu ids from) (db, 0)))
    by (rewrite Hf; reflexivity).
  rewrite fold_set_state_is_loop in E. unfold Passes.selection in E.
  match type of E with _ = fold_left ?F (filter ?sel _) _ =>
    refine (rows_step_loop F (fun p => Pass.set_state p st) sel db db1 _ _ _ Hu _) end;
    [| | | rewrite E; reflexivity]; auto.
  intros p Hp. apply Hc. apply PassState_eqb_eq.
  apply andb_prop in Hp. destruct Hp as [Hp _].
  apply andb_prop in Hp. tauto.
Qed.

Lemma deny_selected_rows db cu ids db' r :
  unique_ids db ->
  Passes.my_period_deny_selected db cu ids = Ok (db', r) -> rows_step db db'.
Proof.
  intros Hu. unfold Passes.my_period_deny_selected.
  destruct (negb _ && negb _); [unchanged |].
  destruct ids as [| i ids]; [unchanged |].
  destruct (fold_left _ _ _) as [db1 count] eqn:Ef.
  apply set_state_selected_rows in Ef; [| exact Hu | apply change_denied].
  destruct (Py.truthy count).
  - destruct (commit db1) as [db2 |] eqn:Ec; simpl; [| discriminate].
    apply commit_ok in Ec. destruct Ec as [-> _].
    intros H. inversion H. subst. exact Ef.
  - intros H. inversion H. subst. exact Ef.
Qed.

Lemma cancel_selected_rows db cu ids db' r :
  unique_ids db ->
  Passes.my_period_cancel_selected db cu ids = Ok (db', r) -> rows_step db db'.
Proof.
  intros Hu. unfold Passes.my_period_cancel_selected.
  destruct (negb _ && negb _); [unchanged |].
  destruct ids as [| i ids]; [unchanged |].
  destruct (fold_left _ _ _) as [db1 count] eqn:Ef.
  apply set_state_selected_rows in Ef;
    [| exact Hu | intros p Hp; apply change_cancelled; auto].
  destruct (Py.truthy count).
  - destruct (commit db1) as [db2 |] eqn:Ec; simpl; [| discriminate].
    apply commit_ok in Ec. destruct Ec as [-> _].
    intros H. inversion H. subst. exact Ef.
  - intros H. inversion H. subst. exact Ef.
Qed.

Lemma override_selected_rows db cu ids m reason db' r :
  unique_ids db ->
  Passes.my_period_override_selected db cu ids m reason = Ok (db', r) ->
  rows_step db db'.
Proof.
  intros Hu. unfold Passes.my_period_override_selected.
  destruct (negb _ && negb _); [unchanged |].
  destruct (Py.int _) as [minutes |]; simpl; [| discriminate].
  destruct (_ || _); [unchanged |].
  match goal with |- context [foldM ?f ?l ?a] =>
    destruct (foldM f l a) as [[db1 count] |] eqn:Ef end; simpl; [| discriminate].
  apply foldM_override_is_loop in Ef.
  unfold Passes.selection in Ef. rewrite filter_filter in Ef.
  assert (Hloop : rows_step db db1).
  { match type of Ef with _ = fold_left ?F (filter ?sel _) _ =>
      refine (rows_step_loop F (extended minutes) sel db db1 _ _ _ Hu _) end;
      [| | | rewrite Ef; reflexivity]; auto.
    - intros d a. apply extend_row_passes.
    - intros p Hp. apply andb_prop in Hp. destruct Hp as [_ Hp].
      unfold has_deadline, extended in *.
      destruct (Pass.expires_at p) as [prev |] eqn:Ee; [| discriminate].
      simpl. eapply change_extended. exact Ee. }
  destruct (Py.truthy count).
  - destruct (commit db1) as [db2 |] eqn:Ec; simpl; [| discriminate].
    apply commit_ok in Ec. destruct Ec as [-> _].
    intros H. inversion H. subst. exact Hloop.
  - intros H. inversion H. subst. exact Hloop.
Qed.

Lemma deny_rows db cu i db' r :
  unique_ids db -> Passes.deny db cu i = Ok (db', r) -> rows_step db db'.
Proof.
  intros Hu. unfold Passes.deny.
  destruct (negb _); [unchanged |].
  destruct (get_pass db i) as [p |] eqn:Hg; [| unchanged].
  destruct (PassState_eqb (Pass.state p) PENDING) eqn:Es; simpl; [| unchanged].
  destruct (commit _) as [db3 |] eqn:Ec; simpl; [| discriminate].
  apply commit_ok in Ec. destruct Ec as [-> _].
  intros H. inversion H. subst.
  apply (rows_step_update db _ i p (Pass.set_state p DENIED) Hu Hg);
    [reflexivity | | reflexivity].
  right. constructor. apply PassState_eqb_eq. exact Es.
Qed.

Lemma cancel_rows db cu i db' r :
  unique_ids db -> Passes.cancel db cu i = Ok (db', r) -> rows_step db db'.
Proof.
  intros Hu. unfold Passes.cancel.
  destruct (get_pass db i) as [p |] eqn:Hg; [| unchanged].
  destruct (negb _); [unchanged |].
  destruct (_ || _) eqn:Es; [unchanged |].
  destruct (commit _) as [db3 |] eqn:Ec; simpl; [| discriminate].
  apply commit_ok in Ec. destruct Ec as [-> _].
  intros H. inversion H. subst.
  apply (rows_step_update db _ i p (Pass.set_state p CANCELLED) Hu Hg);
    [reflexivity | | reflexivity].
  right. constructor. destruct (Pass.state p); simpl in Es; auto; discriminate.
Qed.

Lemma override_rows db cu i m reason db' r :
  unique_ids db -> Passes.override db cu i m reason = Ok (db', r) ->
  rows_step db db'.
Proof.
  intros Hu. unfold Passes.override.
  destruct (negb _); [unchanged |].
  destruct (get_pass db i) as [p |] eqn:Hg; [| unchanged].
  destruct (Py.int _) as [minutes |]; simpl; [| discriminate].
  destruct (Py.timedelta_minutes minutes) as [td |]; simpl; [| discriminate].
  destruct (Pass.expires_at p) as [prev |] eqn:Ee; [| discriminate].
  destruct (Py.datetime_add prev td) as [new |]; simpl; [| discriminate].
  destruct (commit _) as [db2 |] eqn:Ec; simpl; [| discriminate].
  apply commit_ok in Ec. destruct Ec as [-> _].
  intros H.
  match type of H with context [Ok (?d, _)] =>
    assert (E : db' = d) by (destruct (negb _); inversion H; reflexivity) end.
  subst db'.
  apply (rows_step_update db _ i p (Pass.set_expires_at p (Some new)) Hu Hg);
    [reflexivity | | reflexivity].
  right. eapply change_extended. exact Ee.
Qed.

Lemma request_pass_rows db cu req now db' r :
  Passes.request_pass db cu req now = Ok (db', r) -> rows_step db db'.
Proof.
  unfold Passes.request_pass.
  destruct (negb _); [unchanged |].
  destruct (Passes.route_on_load _ _ _) as [r0 |]; simpl; [| discriminate].
  destruct (Passes.method req); [unchanged |].
  destruct (Py.int _) as [dest_id |]; simpl; [| discriminate].
  destruct (get_destination db dest_id) as [dest |]; [| unchanged].
  destruct (Passes.target_teacher_id _) as [target |]; [| unchanged].
  destruct (Py.truthy target); [| unchanged].
  match goal with |- context [bind ?m _] => destruct m as [outside |] end;
    simpl; [| discriminate].
  destruct outside; [unchanged |].
  destruct (commit _) as [db4 |] eqn:Ec; simpl; [| discriminate].
  apply commit_ok in Ec. destruct Ec as [-> _].
  intros H. inversion H. subst.
  eexists (fun p => p), _. simpl. rewrite map_id.
  split; [reflexivity |]. split; [auto |].
  right. eexists. split; [reflexivity |]. repeat split.
Qed.

Lemma handle_rows op db db' r :
  unique_ids db -> handle op db = Ok (db', r) -> rows_step db db'.
Proof.
  destruct op; simpl; intros Hu H.
  - eapply request_pass_rows; eauto.
  - eapply approve_rows; eauto.
  - eapply approve_all_rows; eauto.
  - eapply deny_rows; eauto.
  - eapply deny_selected_rows; eauto.
  - eapply cancel_rows; eauto.
  - eapply cancel_selected_rows; eauto.
  - eapply override_rows; eauto.
  - eapply override_selected_rows; eauto.
  - eapply index_rows; eauto.
Qed.

Lemma run_rows db op : unique_ids db -> rows_step db (run db op).
Proof.
  intros Hu. unfold run.
  destruct (handle op db) as [[db' r] |] eqn:E;
    [eapply handle_rows; eauto | apply rows_step_same; reflexivity].
Qed.

Lemma run_unique_ids db op : unique_ids db -> unique_ids (run db op).
Proof.
  intros Hu. unfold run.
  destruct (handle op db) as [[db' r] |] eqn:E; [| exact Hu].
  eapply handle_ids; eauto.
Qed.

Lemma reachable_unique_ids db0 db :
  unique_ids db0 -> reachable db0 db -> unique_ids db.
Proof.
  intros H0 Hr. induction Hr as [| db op _ IH]; [exact H0 |].
  apply run_unique_ids. exact IH.
Qed.

Lemma find_map_same_id (h : Pass.t -> Pass.t) i (l : list Pass.t) :
  (forall p, In p l -> Pass.id (h p) = Pass.id p) ->
  find (fun q => Pass.id q =? i) (map h l)
  = option_map h (find (fun q => Pass.id q =? i) l).
Proof.
  induction l as [| a l IH]; simpl; intros Hh; [reflexivity |].
  rewrite (Hh a (or_introl eq_refl)).
  destruct (Pass.id a =? i); [reflexivity |]. apply IH. auto.
Qed.

(** After a request a stored pass is still stored under its key, as it
    was or changed by one of the writes. *)
Lemma rows_step_lookup db db' q :
  unique_ids db -> rows_step db db' -> In q (passes db) ->
  exists q', get_pass db' (Pass.id q) = Some q' /\ (q' = q \/ row_change q q').
Proof.
  intros Hu (h & added & Hp & Hh & _) Hq.
  exists (h q). split; [| apply Hh; exact Hq].
  unfold get_pass. rewrite Hp, find_after, find_map_same_id.
  - change (find (fun q0 => Pass.id q0 =? Pass.id q) (passes db))
      with (get_pass db (Pass.id q)).
    rewrite (unique_ids_get db q Hu Hq). reflexivity.
  - intros p Hin. destruct (Hh p Hin) as [-> | Hc];
      [reflexivity | apply row_change_id; exact Hc].
Qed.

Lemma rows_step_in db db' q' :
  rows_step db db' -> In q' (passes db') ->
  (exists q, In q (passes db) /\ (q' = q \/ row_change q q'))
  \/ requested db q'.
Proof.
  intros (h & added & Hp & Hh & Ha) Hq. rewrite Hp in Hq.
  apply in_app_or in Hq. destruct Hq as [Hq | Hq].
  - left. apply in_map_iff in Hq. destruct Hq as (q & <- & Hin).
    exists q. split; [exact Hin | apply Hh; exact Hin].
  - right. destruct Ha as [-> | (p & -> & Hreq)]; [contradiction |].
    destruct Hq as [<- | []]. exact Hreq.
Qed.

Lemma run_unissued db op :
  unique_ids db -> unissued_while_pending db ->
  unissued_while_pending (run db op).
Proof.
  intros Hu Hinv q' Hq' Hs.
  destruct (rows_step_in db (run db op) q' (run_rows db op Hu) Hq')
    as [(q & Hin & [-> | Hc]) | (_ & _ & Hi & He)]; [auto | | auto].
  destruct Hc as [p m now Hp | p Hp | p Hp | p e Hp He | p prev new He];
    simpl in Hs; try discriminate.
  destruct (Hinv p Hin Hs) as [_ Hnone]. congruence.
Qed.

Lemma reachable_unissued db0 db :
  unique_ids db0 -> unissued_while_pending db0 -> reachable db0 db ->
  unissued_while_pending db.
Proof.
  intros Hu H0 Hr. induction Hr as [| db op Hr IH]; [exact H0 |].
  apply run_unissued; [| exact IH]. eapply reachable_unique_ids; eauto.
Qed.

(** Whatever the request and whether it commits or raises, every stored
    pass stays in its place in the table, as it was or changed by one of
    five writes (activation of a Pending pass, denial of a Pending pass,
    cancellation of a Pending or Active pass, expiry of an Active pass with
    a deadline, a new deadline on a pass that has one), and at most one
    pass is added: Pending, without timestamps, under a fresh key. *)
Theorem requests_change_rows_in_place (db : DB) (op : Operation) :
  unique_ids db -> rows_step db (run db op).
Proof.
  intros Hu. unfold run.
  destruct (handle op db) as [[db' r] |] eqn:E.
  - apply (handle_rows op db db' r Hu E).
  - apply rows_step_same. reflexivity.
Qed.

Lemma requests_change_rows_in_place_witness :
  rows_step pending_db (run pending_db (Approve tom 1 (monday 10 0 0))).
Proof.
  apply (requests_change_rows_in_place pending_db (Approve tom 1 (monday 10 0 0))).
  unfold unique_ids. vm_compute. constructor; [simpl; tauto | constructor].
Defined.

(** At every store reachable from one with unique keys, a pass of the
    first store is still stored under its key, for the same student and
    destination, and its state is the one it had or one that comes later in
    the lifecycle: Pending may have become Active, Expired, Cancelled or
    Denied; Active may have become Expired or Cancelled; Expired, Cancelled,
    Denied and Archived are final. *)
Theorem pass_lifecycle (db0 db : DB) (p : Pass.t) :
  unique_ids db0 -> reachable db0 db -> In p (passes db0) ->
  exists q,
    get_pass db (Pass.id p) = Some q
    /\ Pass.student_id q = Pass.student_id p
    /\ Pass.destination_id q = Pass.destination_id p
    /\ (Pass.state q = Pass.state p
        \/ later_state (Pass.state p) (Pass.state q) = true).
Proof.
  intros Hu Hr Hin. induction Hr as [| db op Hr IH].
  - exists p. rewrite (unique_ids_get db0 p Hu Hin). auto.
  - destruct IH as (q & Hg & Hst & Hd & Hs).
    pose proof (reachable_unique_ids db0 db Hu Hr) as Hu'.
    destruct (get_pass_in db _ q Hg) as [Hq Hid].
    destruct (rows_step_lookup db (run db op) q Hu' (run_rows db op Hu') Hq)
      as (q' & Hg' & Hc).
    exists q'. rewrite <- Hid. split; [exact Hg' |].
    destruct Hc as [-> | Hc]; [auto |].
    destruct Hc as [a m now Ha | a Ha | a Ha | a e Ha He | a prev new He];
      simpl; repeat split; try assumption;
      try (rewrite Ha in Hs);
      try (destruct Ha as [Ha | Ha]; rewrite Ha in Hs);
      destruct (Pass.state p); simpl in *;
      destruct Hs as [Hs | Hs]; try discriminate; auto.
Qed.

Lemma pass_lifecycle_witness :
  exists q,
    get_pass expired_db (Pass.id sam_pass) = Some q
    /\ Pass.student_id q = Pass.student_id sam_pass
    /\ Pass.destination_id q = Pass.destination_id sam_pass
    /\ (Pass.state q = Pass.state sam_pass
        \/ later_state (Pass.state sam_pass) (Pass.state q) = true).
Proof.
  apply (pass_lifecycle pending_db expired_db sam_pass).
  - unfold unique_ids. vm_compute. constructor; [simpl; tauto | constructor].
  - unfold expired_db, active_db. do 2 apply reach_step. apply reach_start.
  - vm_compute. left. reflexivity.
Defined.

(** At every store reachable from one in which no Pending pass carries a
    timestamp, no Pending pass carries a timestamp: a pass gets its
    timestamps only by being activated. *)
Theorem pending_passes_carry_no_timestamps (db0 db : DB) :
  unique_ids db0 -> unissued_while_pending db0 -> reachable db0 db ->
  unissued_while_pending db.
Proof.
  intros Hu H0 Hr. induction Hr as [| db op Hr IH]; [exact H0 |].
  apply run_unissued; [| exact IH].
  apply (reachable_unique_ids db0 db Hu Hr).
Qed.

Lemma pending_passes_carry_no_timestamps_witness :
  unissued_while_pending extended_db.
Proof.
  apply (pending_passes_carry_no_timestamps demo_db extended_db).
  - constructor.
  - intros p [].
  - unfold extended_db, active_db, pending_db. repeat apply reach_step.
    apply reach_start.
Defined.

(** Once a pass has been issued its issue time never changes: at every
    store reachable from one with unique keys and no timestamp on a Pending
    pass, a pass issued at [i] in the first store is still issued at [i]. *)
Theorem issue_time_is_final (db0 db : DB) (p : Pass.t) (i : Py.datetime) :
  unique_ids db0 -> unissued_while_pending db0 -> reachable db0 db ->
  In p (passes db0) -> Pass.issued_at p = Some i ->
  exists q, get_pass db (Pass.id p) = Some q /\ Pass.issued_at q = Some i.
Proof.
  intros Hu H0 Hr Hin Hi. induction Hr as [| db op Hr IH].
  - exists p. rewrite (unique_ids_get db0 p Hu Hin). auto.
  - destruct IH as (q & Hg & Hqi).
    pose proof (reachable_unique_ids db0 db Hu Hr) as Hu'.
    pose proof (reachable_unissued db0 db Hu H0 Hr) as Hinv.
    destruct (get_pass_in db _ q Hg) as [Hq Hid].
    destruct (rows_step_lookup db (run db op) q Hu' (run_rows db op Hu') Hq)
      as (q' & Hg' & Hc).
    exists q'. rewrite <- Hid. split; [exact Hg' |].
    destruct Hc as [-> | Hc]; [exact Hqi |].
    destruct Hc as [a m now Ha | a Ha | a Ha | a e Ha He | a prev new He];
      simpl; try exact Hqi.
    destruct (Hinv a Hq Ha) as [Hnone _]. congruence.
Qed.

Lemma issue_time_is_final_witness :
  exists q, get_pass expired_db (Pass.id sam_active) = Some q
            /\ Pass.issued_at q = Some (monday 10 0 0).
Proof.
  apply (issue_time_is_final active_db expired_db sam_active (monday 10 0 0)).
  - unfold unique_ids. vm_compute. constructor; [simpl; tauto | constructor].
  - intros p [<- | []]. vm_compute. discriminate.
  - unfold expired_db. apply reach_step. apply reach_start.
  - vm_compute. left. reflexivity.
  - reflexivity.
Defined.

(** ** What the pass views leave alone *)

Lemma frame_refl db : frame db db.
Proof.
  split; [repeat split |].
  repeat split; exists []; rewrite app_nil_r; reflexivity.
Qed.

Lemma frame_update_pass db d p : frame db d -> frame db (update_pass d p).
Proof. intros H. exact H. Qed.

Lemma frame_with_passes db d ps : frame db d -> frame db (with_passes d ps).
Proof. intros H. exact H. Qed.

Lemma frame_add_log db d e : frame db d -> frame db (add_log d e).
Proof.
  intros (Hc & Ha & Ho & (l & Hl)). split; [exact Hc |].
  split; [exact Ha |]. split; [exact Ho |].
  exists (l ++ [e])%list. simpl. rewrite Hl, app_assoc. reflexivity.
Qed.

Lemma frame_add_override db d o : frame db d -> frame db (add_override d o).
Proof.
  intros (Hc & Ha & (l & Hl) & Hlog). split; [exact Hc |].
  split; [exact Ha |]. split; [| exact Hlog].
  exists (l ++ [o])%list. simpl. rewrite Hl, app_assoc. reflexivity.
Qed.

Lemma frame_add_assignment db d a : frame db d -> frame db (add_assignment d a).
Proof.
  intros (Hc & (l & Hl) & Ho & Hlog). split; [exact Hc |].
  split; [| split; [exact Ho | exact Hlog]].
  exists (l ++ [a])%list. simpl. rewrite Hl, app_assoc. reflexivity.
Qed.

Lemma frame_fold_expire db cu l : forall d,
  frame db d -> frame db (fold_left (Passes.expire cu) l d).
Proof.
  induction l as [| a l IH]; intros d Hd; simpl; [exact Hd |].
  apply IH. unfold Passes.expire. apply frame_add_log, frame_update_pass, Hd.
Qed.

Lemma frame_fold_set_state db cu st action l : forall d n d' n',
  fold_left (Passes.set_state_one cu st action) l (d, n) = (d', n') ->
  frame db d -> frame db d'.
Proof.
  induction l as [| a l IH]; intros d n d' n'; simpl.
  - intros H. inversion H. auto.
  - intros H Hd. eapply IH; [exact H |].
    apply frame_add_log, frame_update_pass, Hd.
Qed.

Lemma frame_foldM_approve db cu now l : forall d n d' n',
  foldM (Passes.approve_one cu now) l (d, n) = Ok (d', n') ->
  frame db d -> frame db d'.
Proof.
  induction l as [| a l IH]; intros d n d' n'; simpl.
  - intros H. inversion H. auto.
  - destruct (Passes.activate d a now) as [p1 |]; simpl; [| discriminate].
    intros H Hd. eapply IH; [exact H |].
    apply frame_add_log, frame_update_pass, Hd.
Qed.

Lemma frame_foldM_override db cu m reason l : forall d n d' n',
  foldM (Passes.override_one cu m reason) l (d, n) = Ok (d', n') ->
  frame db d -> frame db d'.
Proof.
  induction l as [| a l IH]; intros d n d' n'; simpl.
  - intros H. inversion H. auto.
  - destruct (Pass.expires_at a) as [prev |]; simpl; [| apply IH].
    destruct (Py.timedelta_minutes m) as [td |]; simpl; [| discriminate].
    destruct (Py.datetime_add prev td) as [new |]; simpl; [| discriminate].
    intros H Hd. eapply IH; [exact H |]. unfold Passes.extend.
    apply frame_add_log, frame_add_override, frame_update_pass, Hd.
Qed.

Ltac framed :=
  repeat match goal with
         | H : commit _ = Ok _ |- _ => apply commit_ok in H; destruct H as [-> _]
         end;
  unfold Passes.extend;
  repeat match goal with
         | |- context [if ?b then _ else _] => destruct b
         end;
  repeat first
    [ apply frame_refl
    | apply frame_add_log
    | apply frame_add_override
    | apply frame_add_assignment
    | apply frame_update_pass
    | apply frame_with_passes
    | apply frame_fold_expire
    | match goal with
      | H : foldM (Passes.approve_one _ _) _ _ = Ok (?d, _) |- frame _ ?d =>
          eapply frame_foldM_approve; [exact H |]
      | H : foldM (Passes.override_one _ _ _) _ _ = Ok (?d, _) |- frame _ ?d =>
          eapply frame_foldM_override; [exact H |]
      | H : fold_left (Passes.set_state_one _ _ _) _ _ = (?d, _) |- frame _ ?d =>
          eapply frame_fold_set_state; [exact H |]
      end ].

Lemma handle_frame op db db' r : handle op db = Ok (db', r) -> frame db db'.
Proof.
  destruct op; simpl.
  - unfold Passes.request_pass. walk; framed.
  - unfold Passes.approve. walk; framed.
  - unfold Passes.my_period_approve_all. walk; framed.
  - unfold Passes.deny. walk; framed.
  - unfold Passes.my_period_deny_selected. walk; framed.
  - unfold Passes.cancel. walk; framed.
  - unfold Passes.my_period_cancel_selected. walk; framed.
  - unfold Passes.override. walk; framed.
  - unfold Passes.my_period_override_selected. walk; framed.
  - unfold Passes.index. walk; framed.
Qed.

(** No pass view writes the tables of roles, users, destinations, class
    periods, enrollments, settings or kiosks, and none removes or rewrites a
    row of the assignment, override or log tables: after any request these
    three hold the rows they held, in order, with new rows at the end. *)
Theorem pass_views_only_append (db : DB) (op : Operation) :
  frame db (run db op).
Proof.
  unfold run. destruct (handle op db) as [[db' r] |] eqn:E;
    [eapply handle_frame; eauto | apply frame_refl].
Qed.

(** ** Who may do what *)

(** A request to a view for teachers and admins by a user who is neither,
    and a pass request by a user who is not a student, is answered without
    an error and leaves the store as it was. *)
Theorem refused_requests_change_nothing (db : DB) (op : Operation) :
  refused op = true -> exists r, handle op db = Ok (db, r).
Proof.
  destruct op; simpl; unfold staff; intros H;
    try discriminate;
    [ unfold Passes.request_pass
    | unfold Passes.approve
    | unfold Passes.my_period_approve_all
    | unfold Passes.deny
    | unfold Passes.my_period_deny_selected
    | unfold Passes.my_period_cancel_selected
    | unfold Passes.override
    | unfold Passes.my_period_override_selected
    | unfold Passes.index ];
    try (rewrite H; eauto);
    destruct (Passes.is_teacher cu), (Passes.is_admin cu);
    try discriminate; simpl; eauto.
Qed.

Lemma refused_requests_change_nothing_witness :
  exists r, handle (Approve sam 1 (monday 10 0 0)) pending_db = Ok (pending_db, r).
Proof.
  apply (refused_requests_change_nothing pending_db (Approve sam 1 (monday 10 0 0))).
  reflexivity.
Defined.

Lemma constraints_state_change db p s e :
  constraints db = true -> In p (passes db) ->
  constraints (add_log (update_pass db (Pass.set_state p s)) e) = true.
Proof.
  unfold constraints. intros Hc Hin.
  apply andb_prop in Hc. destruct Hc as [Hck Huq].
  apply andb_true_intro. split; [| exact Huq].
  apply (ck_update db (Pass.set_state p s) Hck).
  rewrite forallb_forall in Hck. apply (Hck p Hin).
Qed.

(** [cancel] of a stored pass, on a store that satisfies its constraints:
    when the user is an admin, a teacher or the student of the pass, and the
    pass is Pending or Active, the pass becomes Cancelled, with everything
    else on it and every other pass as it was, and one log entry is added;
    otherwise the store is left as it was, with one message. *)
Theorem cancel_spec (db : DB) (cu : CurrentUser.t) (i : Z) (p : Pass.t) :
  constraints db = true -> get_pass db i = Some p ->
  if may_cancel cu p && open_state (Pass.state p)
  then exists db',
         Passes.cancel db cu i = Ok (db', [("Pass cancelled.", "success")])
         /\ get_pass db' i = Some (Pass.set_state p CANCELLED)
         /\ (forall j, j <> i -> get_pass db' j = get_pass db j)
         /\ logs db' = (logs db ++ [Passes.log_entry cu "pass_cancelled" p None])%list
  else exists msg, Passes.cancel db cu i = Ok (db, [msg]).
Proof.
  intros Hc Hg. unfold Passes.cancel, may_cancel. rewrite Hg.
  destruct (get_pass_in db i p Hg) as [Hin Hid].
  destruct (_ || _); simpl; [| eauto].
  destruct (Pass.state p) eqn:Es; simpl; eauto;
    unfold commit; rewrite (constraints_state_change db p CANCELLED _ Hc Hin);
    simpl; eexists; (split; [reflexivity |]);
    (split; [| split; [| reflexivity]]).
  - change (get_pass (update_pass db (Pass.set_state p CANCELLED)) i
            = Some (Pass.set_state p CANCELLED)).
    rewrite get_pass_update. simpl. rewrite Hid, Z.eqb_refl, Hg. reflexivity.
  - intros j Hj.
    change (get_pass (update_pass db (Pass.set_state p CANCELLED)) j = get_pass db j).
    rewrite get_pass_update. simpl. rewrite Hid.
    destruct (Z.eqb_spec j i); [contradiction | reflexivity].
  - change (get_pass (update_pass db (Pass.set_state p CANCELLED)) i
            = Some (Pass.set_state p CANCELLED)).
    rewrite get_pass_update. simpl. rewrite Hid, Z.eqb_refl, Hg. reflexivity.
  - intros j Hj.
    change (get_pass (update_pass db (Pass.set_state p CANCELLED)) j = get_pass db j).
    rewrite get_pass_update. simpl. rewrite Hid.
    destruct (Z.eqb_spec j i); [contradiction | reflexivity].
Qed.

(** Sam cancels his own pending pass. *)
Lemma cancel_spec_witness :
  exists db',
    Passes.cancel pending_db sam 1 = Ok (db', [("Pass cancelled.", "success")])
    /\ get_pass db' 1 = Some (Pass.set_state sam_pass CANCELLED)
    /\ (forall j, j <> 1 -> get_pass db' j = get_pass pending_db j)
    /\ logs db' = (logs pending_db
                   ++ [Passes.log_entry sam "pass_cancelled" sam_pass None])%list.
Proof.
  apply (cancel_spec pending_db sam 1 sam_pass); vm_compute; reflexivity.
Defined.

(** [deny] by a teacher or an admin of a stored pass, on a store that
    satisfies its constraints: a Pending pass becomes Denied, whoever it is
    assigned to, with every other pass as it was and one log entry added; a
    pass in any other state is left alone. *)
Theorem deny_spec (db : DB) (cu : CurrentUser.t) (i : Z) (p : Pass.t) :
  constraints db = true -> get_pass db i = Some p -> staff cu = true ->
  if PassState_eqb (Pass.state p) PENDING
  then exists db',
         Passes.deny db cu i = Ok (db', [("Denied", "danger")])
         /\ get_pass db' i = Some (Pass.set_state p DENIED)
         /\ (forall j, j <> i -> get_pass db' j = get_pass db j)
         /\ logs db' = (logs db ++ [Passes.log_entry cu "pass_denied" p None])%list
  else Passes.deny db cu i
       = Ok (db, [("Only pending passes can be denied.", "warning")]).
Proof.
  intros Hc Hg Hs. unfold Passes.deny. unfold staff in Hs. rewrite Hs, Hg. simpl.
  destruct (get_pass_in db i p Hg) as [Hin Hid].
  destruct (PassState_eqb (Pass.state p) PENDING); simpl; [| reflexivity].
  unfold commit. rewrite (constraints_state_change db p DENIED _ Hc Hin). simpl.
  eexists. split; [reflexivity |]. split; [| split; [| reflexivity]].
  - change (get_pass (update_pass db (Pass.set_state p DENIED)) i
            = Some (Pass.set_state p DENIED)).
    rewrite get_pass_update. simpl. rewrite Hid, Z.eqb_refl, Hg. reflexivity.
  - intros j Hj.
    change (get_pass (update_pass db (Pass.set_state p DENIED)) j = get_pass db j).
    rewrite get_pass_update. simpl. rewrite Hid.
    destruct (Z.eqb_spec j i); [contradiction | reflexivity].
Qed.

(** Alice, who is not assigned to it, denies Sam's pending pass. *)
Lemma deny_spec_witness :
  exists db',
    Passes.deny pending_db alice 1 = Ok (db', [("Denied", "danger")])
    /\ get_pass db' 1 = Some (Pass.set_state sam_pass DENIED)
    /\ (forall j, j <> 1 -> get_pass db' j = get_pass pending_db j)
    /\ logs db' = (logs pending_db
                   ++ [Passes.log_entry alice "pass_denied" sam_pass None])%list.
Proof.
  apply (deny_spec pending_db alice 1 sam_pass); vm_compute; reflexivity.
Defined.

(** ** Approval and extension at the edges *)

Lemma update_same db p :
  unique_ids db -> In p (passes db) -> passes (update_pass db p) = passes db.
Proof.
  intros Hu Hin. simpl. rewrite <- (map_id (passes db)) at 2.
  apply map_ext_in. intros q Hq.
  destruct (Z.eqb_spec (Pass.id q) (Pass.id p)) as [E | E]; [| reflexivity].
  symmetry. apply (same_key_same_row (passes db)); auto.
Qed.

Lemma window_verdict db cu p now (enforce : bool) :
  exists outside,
    (if enforce then
       match (if enforce then Passes.approval_period db cu p else None) with
       | Some cp => inside <- ClassPeriod.is_now_in_window cp now ;; Ok (negb inside)
       | None => Ok false
       end
     else Ok false) = Ok outside.
Proof.
  destruct enforce; [| eauto].
  destruct (Passes.approval_period db cu p) as [cp |]; [| eauto].
  destruct (is_now_in_window_total now cp) as [b ->]. simpl. eauto.
Qed.

(** Approving a pass that is already Active never fails and never restarts
    its timer: on a store with unique keys that satisfies its constraints,
    [approve] by a teacher or an admin answers, and the table of passes is
    as it was. *)
Theorem reapproval_keeps_timer (db : DB) (cu : CurrentUser.t) (i : Z)
    (p : Pass.t) (now : Py.datetime) :
  unique_ids db -> constraints db = true ->
  get_pass db i = Some p -> Pass.state p = ACTIVE -> staff cu = true ->
  exists db' r,
    Passes.approve db cu i now = Ok (db', r) /\ passes db' = passes db.
Proof.
  intros Hu Hc Hg Hs Hrole. unfold Passes.approve. unfold staff in Hrole.
  rewrite Hrole, Hg, Hs. simpl.
  destruct (window_verdict db cu p now
              (String.eqb (Passes.get_setting db "enforce_period_time_window" "false")
                          "true")) as [outside ->].
  simpl. destruct (outside && negb _); [eauto |].
  destruct (get_pass_in db i p Hg) as [Hin _].
  pose proof (update_same db p Hu Hin) as Hsame.
  unfold constraints in Hc. apply andb_prop in Hc. destruct Hc as [Hck Huq].
  unfold commit.
  match goal with |- context [constraints ?d] =>
    assert (Hk : constraints d = true /\ passes d = passes db) end.
  { unfold constraints.
    destruct (Passes.assigned_to (update_pass db p) (CurrentUser.id cu) p) eqn:Ea;
      (split; [| exact Hsame]); apply andb_true_intro;
      (split; [rewrite <- Hsame in Hck; exact Hck |]); [exact Huq |].
    apply uq_pass_teacher_append; [exact Huq | exact Ea]. }
  destruct Hk as [Hk Hp]. rewrite Hk. simpl. eauto.
Qed.

Lemma reapproval_keeps_timer_witness :
  exists db' r,
    Passes.approve active_db tom 1 (monday 10 3 0) = Ok (db', r)
    /\ passes db' = passes active_db.
Proof.
  apply (reapproval_keeps_timer active_db tom 1 sam_active (monday 10 3 0));
    try (vm_compute; reflexivity).
  unfold unique_ids. vm_compute. constructor; [simpl; tauto | constructor].
Defined.

Lemma in_update db p i p1 :
  get_pass db i = Some p -> Pass.id p1 = i -> In p1 (passes (update_pass db p1)).
Proof.
  intros Hg Hid. apply get_pass_in in Hg. destruct Hg as [Hin Hp].
  simpl. apply in_map_iff. exists p. split; [| exact Hin].
  rewrite Hp, Hid, Z.eqb_refl. reflexivity.
Qed.

Lemma ck_activated_nonpositive m p now :
  m <= 0 -> Pass.ck_pass_time_order (activated m p now) = false.
Proof.
  intros Hm. unfold Pass.ck_pass_time_order, activated. simpl.
  replace (now <? now + m * Py.US_PER_MINUTE) with false; [reflexivity |].
  symmetry. apply Z.ltb_ge. units. lia.
Qed.

Lemma approve_nonpositive db cu i p dest now :
  get_pass db i = Some p -> Pass.state p = PENDING ->
  get_destination db (Pass.destination_id p) = Some dest ->
  Destination.default_minutes dest <= 0 ->
  run db (Approve cu i now) = db.
Proof.
  intros Hg Hs Hd Hm. unfold run. simpl.
  destruct (Passes.approve db cu i now) as [[db' r] |] eqn:E; [| reflexivity].
  revert E. unfold Passes.approve.
  destruct (negb _); [intros H; inversion H; reflexivity |].
  rewrite Hg, Hs. simpl.
  match goal with |- context [bind ?m _] => destruct m as [outside |] end;
    simpl; [| discriminate].
  destruct (outside && negb _); [intros H; inversion H; reflexivity |].
  destruct (Passes.activate db p now) as [p1 |] eqn:Ea; simpl; [| discriminate].
  apply activate_ok in Ea. rewrite (pass_minutes_dest db p dest Hd) in Ea.
  destruct (commit _) as [db4 |] eqn:Ec; simpl; [| discriminate].
  exfalso. apply commit_ok in Ec. destruct Ec as [_ Hk].
  unfold constraints in Hk. apply andb_prop in Hk. destruct Hk as [Hck _].
  assert (Hin : In p1 (passes (update_pass db p1))).
  { apply (in_update db p i p1 Hg). subst p1. simpl.
    apply get_pass_in in Hg. tauto. }
  assert (Hp1 : Pass.ck_pass_time_order p1 = true).
  { rewrite forallb_forall in Hck. apply Hck.
    destruct (Passes.assigned_to _ _ _); exact Hin. }
  subst p1. rewrite (ck_activated_nonpositive _ p now Hm) in Hp1. discriminate.
Qed.

(** A Pending pass for a destination whose default duration is zero or
    negative cannot be approved: whoever asks and whenever, [approve]
    leaves the store as it was (the deadline would not be after the issue
    time, and the store refuses the row). *)
Theorem approval_needs_positive_minutes (db : DB) (cu : CurrentUser.t) (i : Z)
    (p : Pass.t) (dest : Destination.t) (now : Py.datetime) :
  get_pass db i = Some p -> Pass.state p = PENDING ->
  get_destination db (Pass.destination_id p) = Some dest ->
  Destination.default_minutes dest <= 0 ->
  run db (Approve cu i now) = db.
Proof.
  intros Hg Hs Hd Hm.
  apply (approve_nonpositive db cu i p dest now Hg Hs Hd Hm).
Qed.

Lemma approval_needs_positive_minutes_witness :
  run stalled_db (Approve tom 1 (monday 10 0 0)) = stalled_db.
Proof.
  apply (approval_needs_positive_minutes stalled_db tom 1 sam_pass
           {| Destination.id := 1; Destination.name := "Restroom";
              Destination.default_minutes := 0;
              Destination.max_concurrent := 2 |} (monday 10 0 0));
    try reflexivity.
Defined.



(** The single extension of a Pending pass is an error: in a store where
    no Pending pass carries a timestamp, [override] on a Pending pass by a
    teacher or an admin raises, whatever the minutes. *)
Theorem override_of_pending_pass_raises (db : DB) (cu : CurrentUser.t) (i : Z)
    (p : Pass.t) (m reason : option string) :
  unissued_while_pending db -> get_pass db i = Some p ->
  Pass.state p = PENDING -> staff cu = true ->
  exists e, Passes.override db cu i m reason = Raise e.
Proof.
  intros Hinv Hg Hs Hrole. unfold Passes.override. unfold staff in Hrole.
  rewrite Hrole, Hg. simpl.
  destruct (get_pass_in db i p Hg) as [Hin _].
  destruct (Hinv p Hin Hs) as [_ He]. rewrite He.
  destruct (Py.int _) as [minutes | e]; simpl; [| eauto].
  destruct (Py.timedelta_minutes minutes) as [td | e]; simpl; eauto.
Qed.

Lemma override_of_pending_pass_raises_witness :
  exists e, Passes.override pending_db tom 1 (Some "5") None = Raise e.
Proof.
  apply (override_of_pending_pass_raises pending_db tom 1 sam_pass);
    try reflexivity.
  intros p [<- | []] _. split; reflexivity.
Defined.

(** ** Who a request can be routed to *)

Lemma kiosk_binding_cp db tok c :
  Passes.kiosk_cp_id (Passes.kiosk_binding db tok) = Some c ->
  exists s k, tok = Some s /\ active_kiosk db s = Some k
              /\ Kiosk.class_period_id k = Some c.
Proof.
  unfold Passes.kiosk_binding, active_kiosk.
  destruct tok as [s |]; [| discriminate].
  destruct (Py.nonempty s); [| discriminate].
  destruct (find _ (kiosks db)) as [k |] eqn:Ef; [| discriminate].
  destruct (Passes.some_truthy (Kiosk.class_period_id k)); simpl.
  - intros H. exists s, k. auto.
  - destruct (Passes.some_truthy (Kiosk.teacher_id k)); discriminate.
Qed.

Lemma kiosk_binding_teacher db tok t :
  Passes.kiosk_teacher_id (Passes.kiosk_binding db tok) = Some t ->
  exists s k, tok = Some s /\ active_kiosk db s = Some k
              /\ Kiosk.teacher_id k = Some t.
Proof.
  unfold Passes.kiosk_binding, active_kiosk.
  destruct tok as [s |]; [| discriminate].
  destruct (Py.nonempty s); [| discriminate].
  destruct (find _ (kiosks db)) as [k |] eqn:Ef; [| discriminate].
  destruct (Passes.some_truthy (Kiosk.class_period_id k)); simpl; [discriminate |].
  destruct (Passes.some_truthy (Kiosk.teacher_id k)); simpl; [| discriminate].
  intros H. exists s, k. auto.
Qed.

Lemma unique_teacher_enrolled db cu t l :
  Passes.unique_teachers (Passes.enrolled_periods db cu) = t :: l ->
  enrolled_with db cu t.
Proof.
  intros H.
  assert (Hin : In t (Passes.unique_teachers (Passes.enrolled_periods db cu)))
    by (rewrite H; left; reflexivity).
  unfold Passes.unique_teachers in Hin. apply nodup_In in Hin.
  apply in_map_iff in Hin. destruct Hin as (cp & Ht & Hcp).
  unfold Passes.enrolled_periods in Hcp. apply filter_In in Hcp.
  destruct Hcp as [Hcp Hcond]. exists cp. split; [exact Hcp |].
  split; [exact Ht |].
  apply andb_prop in Hcond. destruct Hcond as [Hcond _].
  apply andb_prop in Hcond. destruct Hcond as [Hen _].
  apply existsb_exists in Hen. destruct Hen as (e & He & Hc).
  unfold Passes.is_enrolled. apply existsb_exists. exists e. split; [exact He |].
  apply andb_prop in Hc. destruct Hc as [Hc H3].
  apply andb_prop in Hc. destruct Hc as [H1 H2].
  rewrite H1, H2, H3. reflexivity.
Qed.

Section Authority.

Variable db : DB.
Variable cu : CurrentUser.t.
Variable tok : option string.

Local Abbreviation authority := (routing_authority db cu tok).

Lemma route_on_load_authority r :
  Passes.route_on_load db cu (Passes.kiosk_binding db tok) = Ok r ->
  forall t, Passes.target_teacher_id r = Some t -> authority t.
Proof.
  unfold Passes.route_on_load.
  set (kb := Passes.kiosk_binding db tok).
  match goal with |- context [bind ?m _] =>
    assert (H1 : forall r1, m = Ok r1 ->
                 forall t, Passes.target_teacher_id r1 = Some t -> authority t) end.
  { intros r1.
    destruct (Passes.some_truthy (Passes.kiosk_cp_id kb)).
    - destruct (Passes.kiosk_cp_id kb) as [c |] eqn:Ec;
        [| intros H; inversion H; discriminate].
      destruct (get_class_period db c) as [cp |] eqn:Ecp;
        [| intros H; inversion H; discriminate].
      destruct (Passes.teacher_full_name db cp); simpl; [| discriminate].
      intros H t Ht. inversion H. subst r1. simpl in Ht. inversion Ht. subst t.
      left. destruct (kiosk_binding_cp db tok c Ec) as (s0 & k & Hs & Hk & Hc).
      exists s0, k. split; [exact Hs |]. split; [exact Hk |].
      left. exists c, cp. auto.
    - destruct (Passes.some_truthy (Passes.kiosk_teacher_id kb));
        [| intros H; inversion H; discriminate].
      destruct (Passes.kiosk_teacher_id kb) as [t_id |] eqn:Et;
        [| intros H; inversion H; discriminate].
      destruct (get_user db t_id) as [u |] eqn:Eu;
        [| intros H; inversion H; discriminate].
      intros H t Ht. inversion H. subst r1. simpl in Ht. inversion Ht. subst t.
      unfold get_user in Eu. apply find_some in Eu. destruct Eu as [_ Eu].
      apply Z.eqb_eq in Eu. rewrite Eu.
      left. destruct (kiosk_binding_teacher db tok t_id Et) as (s0 & k & Hs & Hk & Hc).
      exists s0, k. auto. }
  match goal with |- context [bind ?m _] => destruct m as [r1 |] end;
    simpl; [| discriminate].
  specialize (H1 r1 eq_refl).
  destruct (Passes.not_resolved r1); [| intros H; inversion H; subst; exact H1].
  destruct (Passes.unique_teachers (Passes.enrolled_periods db cu))
    as [| t_id [| t2 l]] eqn:Eu;
    try (intros H; inversion H; subst; exact H1).
  pose proof (unique_teacher_enrolled db cu t_id [] Eu) as Hen.
  destruct (Passes.enrolled_periods db cu) as [| cp periods].
  - intros H t Ht. inversion H. subst r. simpl in Ht. inversion Ht. subst.
    right. exact Hen.
  - destruct (Passes.teacher_full_name db cp); simpl; [| discriminate].
    intros H t Ht. inversion H. subst r. simpl in Ht. inversion Ht. subst.
    right. exact Hen.
Qed.

Lemma route_on_post_authority kb strict sel r :
  (forall t, Passes.target_teacher_id r = Some t -> authority t) ->
  forall t,
    Passes.target_teacher_id (Passes.route_on_post db cu kb strict sel r) = Some t ->
    authority t.
Proof.
  intros Hr. unfold Passes.route_on_post.
  destruct (_ && _); [exact Hr |].
  match goal with |- context [Passes.not_resolved ?x] =>
    assert (H1 : forall t, Passes.target_teacher_id x = Some t -> authority t);
    [| destruct (Passes.not_resolved x); [| exact H1] ] end.
  { destruct sel as [s |]; [| exact Hr].
    destruct (Py.nonempty s); [| exact Hr].
    destruct (Py.truthy _); [| exact Hr].
    destruct (get_class_period db _) as [cp |] eqn:Ecp; [| exact Hr].
    destruct (Passes.is_enrolled db cu cp) eqn:Een; [| exact Hr].
    intros t Ht. simpl in Ht. inversion Ht. subst.
    right. exists cp. unfold get_class_period in Ecp. apply find_some in Ecp.
    tauto. }
  destruct (Passes.unique_teachers (Passes.enrolled_periods db cu))
    as [| t_id [| t2 l]] eqn:Eu; try exact H1.
  intros t Ht. simpl in Ht. inversion Ht. subst.
  right. exact (unique_teacher_enrolled db cu t [] Eu).
Qed.

End Authority.

(** A pass request either leaves the store as it was, or adds one Pending
    pass of the student, without timestamps and under a fresh key, and one
    assignment of that pass to a teacher who either stands behind an active
    kiosk with the token of the request (the owner of the period it is bound
    to, or the teacher it is bound to) or owns a period in which the student
    has an active enrollment.  A request is never routed to anyone else. *)
Theorem requests_are_routed_with_authority (db : DB) (cu : CurrentUser.t)
    (req : Passes.PassRequest) (now : Py.datetime) :
  run db (Request cu req now) = db
  \/ exists dest t,
       passes (run db (Request cu req now))
       = (passes db ++ [new_pass db cu dest])%list
       /\ pass_assignments (run db (Request cu req now))
          = (pass_assignments db
             ++ [ {| PassAssignment.pass_id := next_pass_id db;
                     PassAssignment.teacher_id := t |} ])%list
       /\ (kiosk_teacher db (request_token req) t \/ enrolled_with db cu t).
Proof.
  unfold run. simpl.
  destruct (Passes.request_pass db cu req now) as [[db' r] |] eqn:E;
    [| left; reflexivity].
  revert E. unfold Passes.request_pass.
  destruct (negb _); [intros H; inversion H; left; reflexivity |].
  fold (request_token req).
  destruct (Passes.route_on_load _ _ _) as [r0 |] eqn:Eload; simpl; [| discriminate].
  destruct (Passes.method req); [intros H; inversion H; left; reflexivity |].
  destruct (Py.int _) as [dest_id |]; simpl; [| discriminate].
  destruct (get_destination db dest_id) as [dest |];
    [| intros H; inversion H; left; reflexivity].
  destruct (Passes.target_teacher_id _) as [target |] eqn:Et;
    [| intros H; inversion H; left; reflexivity].
  destruct (Py.truthy target); [| intros H; inversion H; left; reflexivity].
  match goal with |- context [bind ?m _] => destruct m as [outside |] end;
    simpl; [| discriminate].
  destruct outside; [intros H; inversion H; left; reflexivity |].
  destruct (commit _) as [db4 |] eqn:Ec; simpl; [| discriminate].
  apply commit_ok in Ec. destruct Ec as [-> _].
  intros H. inversion H. subst. right. exists dest, target.
  split; [reflexivity |]. split; [reflexivity |].
  apply (route_on_post_authority db cu (request_token req) _ _ _ r0
           (route_on_load_authority db cu (request_token req) r0 Eload)
           target Et).
Qed.

(** Without a kiosk and without a chosen period, a student whose enrolled
    periods do not belong to exactly one teacher (none, or several) is asked
    to select a period, and nothing is stored. *)
Theorem ambiguous_enrollment_needs_a_choice (db : DB) (cu : CurrentUser.t)
    (destination_id : string) (d : Z) (dest : Destination.t)
    (now : Py.datetime) :
  Passes.is_student cu = true ->
  List.length (Passes.unique_teachers (Passes.enrolled_periods db cu)) <> 1%nat ->
  Py.int destination_id = Ok d -> get_destination db d = Some dest ->
  Passes.request_pass db cu (plain_request destination_id) now
  = Ok (db, [("Please select a class period (or use a kiosk).", "warning")]).
Proof.
  intros Hs Hn Hd Hdest. unfold Passes.request_pass. rewrite Hs. simpl.
  unfold Passes.route_on_load, Passes.route_on_post. simpl.
  rewrite andb_false_r.
  destruct (Passes.unique_teachers (Passes.enrolled_periods db cu))
    as [| t [| t2 l]]; simpl in *; try (exfalso; apply Hn; reflexivity);
    rewrite Hd; simpl; rewrite Hdest; reflexivity.
Qed.

(** Sam, enrolled with Tom and with Tina, asks from his own device. *)
Lemma ambiguous_enrollment_needs_a_choice_witness :
  Passes.request_pass demo_db sam (plain_request "1") (monday 9 59 0)
  = Ok (demo_db, [("Please select a class period (or use a kiosk).", "warning")]).
Proof.
  apply (ambiguous_enrollment_needs_a_choice demo_db sam "1" 1 restroom);
    try reflexivity.
  vm_compute. lia.
Defined.

(** ** The sweep, again *)

Lemma fold_expire_logs cu l : forall d,
  logs (fold_left (Passes.expire cu) l d) = (logs d ++ map (expiry_entry cu) l)%list.
Proof.
  induction l as [| a l IH]; intros d; simpl.
  - rewrite app_nil_r. reflexivity.
  - rewrite IH. simpl. rewrite <- app_assoc. reflexivity.
Qed.

(** The sweep for a teacher or an admin, on a store with unique keys that
    satisfies its constraints: the table it leaves and the entries it
    logs. *)
Lemma index_result db cu now :
  staff cu = true -> unique_ids db -> constraints db = true ->
  exists db',
    Passes.index db cu now = Ok (db', [])
    /\ passes db' = map (swept now) (passes db)
    /\ logs db' = (logs db ++ map (expiry_entry cu)
                                  (filter (Passes.is_stale now) (passes db)))%list.
Proof.
  intros Hrole Hu Hc. unfold Passes.index. unfold staff in Hrole. rewrite Hrole.
  pose proof (loop_is_map (Passes.expire cu) (fun p => Pass.set_state p EXPIRED)
                (fun _ _ => eq_refl) (fun _ => eq_refl)
                (Passes.is_stale now) db Hu) as Hmap.
  pose proof (fold_expire_logs cu (filter (Passes.is_stale now) (passes db)) db)
    as Hlogs.
  assert (Hk : constraints (fold_left (Passes.expire cu)
                              (filter (Passes.is_stale now) (passes db)) db) = true).
  { apply fold_expire_constraints; [exact Hc |].
    intros p Hp. apply filter_In in Hp. destruct Hp as [Hp _].
    unfold constraints in Hc. apply andb_prop in Hc. destruct Hc as [Hc _].
    rewrite forallb_forall in Hc. auto. }
  revert Hmap Hlogs Hk.
  destruct (filter (Passes.is_stale now) (passes db)) as [| s stale];
    intros Hmap Hlogs Hk.
  - eexists. split; [reflexivity |]. split; [exact Hmap | exact Hlogs].
  - unfold commit. rewrite Hk. simpl. eexists. split; [reflexivity |].
    split; [exact Hmap | exact Hlogs].
Qed.

Lemma swept_not_stale now now' p :
  now' <= now -> Passes.is_stale now' (swept now p) = false.
Proof.
  intros Hle. unfold swept.
  destruct (Passes.is_stale now p) eqn:Es.
  - unfold Passes.is_stale. simpl. reflexivity.
  - destruct (Passes.is_stale now' p) eqn:Es'; [| reflexivity].
    apply is_stale_iff in Es'. destruct Es' as [Hs (e & He & Hlt)].
    assert (Passes.is_stale now p = true).
    { apply is_stale_iff. split; [exact Hs |]. exists e. split; [exact He | lia]. }
    congruence.
Qed.

(** A second sweep, at the same time or earlier by the clock, by anyone,
    changes nothing: after the sweep of [now] no pass is left that a sweep
    up to [now] would expire. *)
Theorem sweep_is_idempotent (db : DB) (cu cu' : CurrentUser.t)
    (now now' : Py.datetime) :
  staff cu = true -> unique_ids db -> constraints db = true -> now' <= now ->
  run (run db (Sweep cu now)) (Sweep cu' now') = run db (Sweep cu now).
Proof.
  intros Hrole Hu Hc Hle.
  destruct (index_result db cu now Hrole Hu Hc) as (db1 & H1 & Hp & _).
  unfold run at 2 3. simpl. rewrite H1.
  unfold run. simpl. unfold Passes.index.
  destruct (_ || _); [| reflexivity].
  assert (Hnone : filter (Passes.is_stale now') (passes db1) = []).
  { rewrite Hp. clear Hp.
    induction (passes db) as [| p l IH]; simpl; [reflexivity |].
    rewrite (swept_not_stale now now' p Hle). exact IH. }
  rewrite Hnone. reflexivity.
Qed.

Lemma sweep_is_idempotent_witness :
  run (run active_db (Sweep tom (monday 10 20 0))) (Sweep alice (monday 10 20 0))
  = run active_db (Sweep tom (monday 10 20 0)).
Proof.
  apply (sweep_is_idempotent active_db tom alice (monday 10 20 0) (monday 10 20 0)).
  - reflexivity.
  - unfold unique_ids. vm_compute. constructor; [simpl; tauto | constructor].
  - vm_compute. reflexivity.
  - lia.
Defined.

(** The sweep logs one [pass_auto_expired] entry, in the name of the user
    whose page load ran it, for each pass it expires, in the order of the
    table, after the entries the log held. *)
Theorem sweep_logs_each_expiry (db : DB) (cu : CurrentUser.t) (now : Py.datetime) :
  staff cu = true -> unique_ids db -> constraints db = true ->
  logs (run db (Sweep cu now))
  = (logs db ++ map (expiry_entry cu)
                    (filter (Passes.is_stale now) (passes db)))%list.
Proof.
  intros Hrole Hu Hc.
  destruct (index_result db cu now Hrole Hu Hc) as (db1 & H1 & _ & Hl).
  unfold run. simpl. rewrite H1. exact Hl.
Qed.

Lemma sweep_logs_each_expiry_witness :
  logs (run active_db (Sweep tom (monday 10 20 0)))
  = (logs active_db
     ++ map (expiry_entry tom)
            (filter (Passes.is_stale (monday 10 20 0)) (passes active_db)))%list.
Proof.
  apply (sweep_logs_each_expiry active_db tom (monday 10 20 0)).
  - reflexivity.
  - unfold unique_ids. vm_compute. constructor; [simpl; tauto | constructor].
  - vm_compute. reflexivity.
Defined.

(** The sweep of [index] does to every pass what the method
    [Pass.mark_expired_if_needed] does at the same instant: on a store with
    unique keys that satisfies its constraints, the table after the sweep is
    the table before it with the method applied to each row. *)
Theorem sweep_marks_each_pass_expired_if_needed (db : DB) (cu : CurrentUser.t)
    (now : Py.datetime) :
  staff cu = true -> unique_ids db -> constraints db = true ->
  passes (run db (Sweep cu now))
  = map (fun p => Pass.mark_expired_if_needed p now) (passes db).
Proof.
  intros Hrole Hu Hc.
  destruct (index_result db cu now Hrole Hu Hc) as (db1 & H1 & Hp & _).
  unfold run. simpl. rewrite H1, Hp. apply map_ext.
  intros p. rewrite mark_expired_if_needed_spec. reflexivity.
Qed.

Lemma sweep_marks_each_pass_expired_if_needed_witness :
  passes (run active_db (Sweep tom (monday 10 20 0)))
  = map (fun p => Pass.mark_expired_if_needed p (monday 10 20 0)) (passes active_db).
Proof.
  apply (sweep_marks_each_pass_expired_if_needed active_db tom (monday 10 20 0)).
  - reflexivity.
  - unfold unique_ids. vm_compute. constructor; [simpl; tauto | constructor].
  - vm_compute. reflexivity.
Defined.

(** ** The batch views keep to the passes of the teacher *)

Lemma loop_skips (F : DB -> Pass.t -> DB) (g : Pass.t -> Pass.t) sel db db' p :
  (forall d a, passes (F d a) = passes (update_pass d (g a))) ->
  (forall a, Pass.id (g a) = Pass.id a) ->
  unique_ids db -> In p (passes db) -> sel p = false ->
  passes db' = passes (fold_left F (filter sel (passes db)) db) ->
  get_pass db' (Pass.id p) = Some p.
Proof.
  intros HF Hg Hu Hin Hsel Hp.
  pose proof (loop_over_filter F g HF Hg sel db p Hu Hin) as H.
  rewrite Hsel in H. unfold get_pass in *. rewrite Hp. exact H.
Qed.

Lemma approve_all_skips db cu period_id now db' r p :
  unique_ids db -> In p (passes db) -> Passes.visible db cu p = false ->
  Passes.my_period_approve_all db cu period_id now = Ok (db', r) ->
  get_pass db' (Pass.id p) = Some p.
Proof.
  intros Hu Hin Hv. unfold Passes.my_period_approve_all.
  destruct (negb _ && negb _);
    [intros H; inversion H; subst; apply unique_ids_get; assumption |].
  destruct (Passes.form_period db period_id) as [period |]; simpl; [| discriminate].
  match goal with |- context [foldM ?f (filter ?sel ?ps) ?a] =>
    set (sel' := sel);
    destruct (foldM f (filter sel' ps) a) as [[db1 updated] |] eqn:Ef end;
    simpl; [| discriminate].
  apply (foldM_approve_is_loop db) in Ef; [| reflexivity].
  assert (Hl : get_pass db1 (Pass.id p) = Some p).
  { refine (loop_skips _ (fun a => activated (Passes.pass_minutes db a) a now)
              sel' db db1 p _ _ Hu Hin _ _); [| | | rewrite Ef; reflexivity]; auto.
    unfold sel'. rewrite Hv, andb_false_r. reflexivity. }
  destruct (Py.truthy updated).
  - destruct (commit db1) as [db2 |] eqn:Ec; simpl; [| discriminate].
    apply commit_ok in Ec. destruct Ec as [-> _].
    intros H. inversion H. subst. exact Hl.
  - intros H. inversion H. subst. exact Hl.
Qed.

Lemma set_state_selected_skips db cu ids from st action db1 count p :
  unique_ids db -> In p (passes db) -> Passes.visible db cu p = false ->
  fold_left (Passes.set_state_one cu st action)
            (Passes.selection db cu ids from) (db, 0) = (db1, count) ->
  get_pass db1 (Pass.id p) = Some p.
Proof.
  intros Hu Hin Hv Hf.
  assert (E : db1 = fst (fold_left (Passes.set_state_one cu st action)
                           (Passes.selection db cu ids from) (db, 0)))
    by (rewrite Hf; reflexivity).
  rewrite fold_set_state_is_loop in E. unfold Passes.selection in E.
  match type of E with _ = fold_left ?F (filter ?sel _) _ =>
    refine (loop_skips F (fun p => Pass.set_state p st) sel db db1 p _ _ Hu Hin _ _) end;
    [| | | rewrite E; reflexivity]; auto.
  simpl. rewrite Hv, andb_false_r. reflexivity.
Qed.

Lemma deny_selected_skips db cu ids db' r p :
  unique_ids db -> In p (passes db) -> Passes.visible db cu p = false ->
  Passes.my_period_deny_selected db cu ids = Ok (db', r) ->
  get_pass db' (Pass.id p) = Some p.
Proof.
  intros Hu Hin Hv. unfold Passes.my_period_deny_selected.
  destruct (negb _ && negb _);
    [intros H; inversion H; subst; apply unique_ids_get; assumption |].
  destruct ids as [| i ids];
    [intros H; inversion H; subst; apply unique_ids_get; assumption |].
  destruct (fold_left _ _ _) as [db1 count] eqn:Ef.
  apply (set_state_selected_skips db cu (i :: ids) PENDING DENIED _ db1 count p Hu Hin Hv)
    in Ef.
  destruct (Py.truthy count).
  - destruct (commit db1) as [db2 |] eqn:Ec; simpl; [| discriminate].
    apply commit_ok in Ec. destruct Ec as [-> _].
    intros H. inversion H. subst. exact Ef.
  - intros H. inversion H. subst. exact Ef.
Qed.

Lemma cancel_selected_skips db cu ids db' r p :
  unique_ids db -> In p (passes db) -> Passes.visible db cu p = false ->
  Passes.my_period_cancel_selected db cu ids = Ok (db', r) ->
  get_pass db' (Pass.id p) = Some p.
Proof.
  intros Hu Hin Hv. unfold Passes.my_period_cancel_selected.
  destruct (negb _ && negb _);
    [intros H; inversion H; subst; apply unique_ids_get; assumption |].
  destruct ids as [| i ids];
    [intros H; inversion H; subst; apply unique_ids_get; assumption |].
  destruct (fold_left _ _ _) as [db1 count] eqn:Ef.
  apply (set_state_selected_skips db cu (i :: ids) ACTIVE CANCELLED _ db1 count p Hu Hin Hv)
    in Ef.
  destruct (Py.truthy count).
  - destruct (commit db1) as [db2 |] eqn:Ec; simpl; [| discriminate].
    apply commit_ok in Ec. destruct Ec as [-> _].
    intros H. inversion H. subst. exact Ef.
  - intros H. inversion H. subst. exact Ef.
Qed.

Lemma override_selected_skips db cu ids m reason db' r p :
  unique_ids db -> In p (passes db) -> Passes.visible db cu p = false ->
  Passes.my_period_override_selected db cu ids m reason = Ok (db', r) ->
  get_pass db' (Pass.id p) = Some p.
Proof.
  intros Hu Hin Hv. unfold Passes.my_period_override_selected.
  destruct (negb _ && negb _);
    [intros H; inversion H; subst; apply unique_ids_get; assumption |].
  destruct (Py.int _) as [minutes |]; simpl; [| discriminate].
  destruct (_ || _);
    [intros H; inversion H; subst; apply unique_ids_get; assumption |].
  match goal with |- context [foldM ?f ?l ?a] =>
    destruct (foldM f l a) as [[db1 count] |] eqn:Ef end; simpl; [| discriminate].
  apply foldM_override_is_loop in Ef.
  unfold Passes.selection in Ef. rewrite filter_filter in Ef.
  assert (Hl : get_pass db1 (Pass.id p) = Some p).
  { match type of Ef with _ = fold_left ?F (filter ?sel _) _ =>
      refine (loop_skips F (extended minutes) sel db db1 p _ _ Hu Hin _ _) end;
      [| | | rewrite Ef; reflexivity]; auto.
    - intros d a. apply extend_row_passes.
    - simpl. rewrite Hv, andb_false_r. reflexivity. }
  destruct (Py.truthy count).
  - destruct (commit db1) as [db2 |] eqn:Ec; simpl; [| discriminate].
    apply commit_ok in Ec. destruct Ec as [-> _].
    intros H. inversion H. subst. exact Hl.
  - intros H. inversion H. subst. exact Hl.
Qed.

(** The four batch views of a teacher (approve all, deny, cancel and extend
    the selected) leave alone every pass that no assignment row joins to
    that teacher, whatever keys and whatever period are submitted. *)
Theorem batch_views_keep_to_assigned_passes (db : DB) (op : Operation)
    (cu : CurrentUser.t) (p : Pass.t) :
  batch_view op = Some cu -> Passes.is_teacher cu = true ->
  unique_ids db -> In p (passes db) ->
  Passes.assigned_to db (CurrentUser.id cu) p = false ->
  get_pass (run db op) (Pass.id p) = Some p.
Proof.
  intros Hop Ht Hu Hin Ha.
  assert (Hv : Passes.visible db cu p = false)
    by (unfold Passes.visible; rewrite Ht; exact Ha).
  unfold run.
  destruct (handle op db) as [[db' r] |] eqn:E;
    [| apply unique_ids_get; assumption].
  destruct op; simpl in Hop; try discriminate; inversion Hop; subst; simpl in E.
  - eapply approve_all_skips; eauto.
  - eapply deny_selected_skips; eauto.
  - eapply cancel_selected_skips; eauto.
  - eapply override_selected_skips; eauto.
Qed.

Lemma batch_views_keep_to_assigned_passes_witness :
  get_pass (run pending_db (DenySelected tina [1])) (Pass.id sam_pass)
  = Some sam_pass.
Proof.
  apply (batch_views_keep_to_assigned_passes pending_db (DenySelected tina [1])
           tina sam_pass); try reflexivity.
  - unfold unique_ids. vm_compute. constructor; [simpl; tauto | constructor].
  - vm_compute. left. reflexivity.
Defined.

Lemma in_period_empty db c p : empty_period db c -> Passes.in_period db (Some c) p = true.
Proof.
  intros He. unfold Passes.in_period.
  match goal with |- context [filter ?f ?l] =>
    assert (Hnil : filter f l = []) end.
  { unfold empty_period in He.
    induction (student_enrollments db) as [| e l IH]; simpl; [reflexivity |].
    destruct (Z.eqb_spec (StudentEnrollment.class_period_id e) (ClassPeriod.id c))
      as [E | E]; simpl.
    - destruct (Z.eqb_spec (StudentEnrollment.is_active e) 1) as [E1 | E1].
      + exfalso. apply (He e (or_introl eq_refl) E E1).
      + apply IH. intros e' He'. apply He. right. exact He'.
    - apply IH. intros e' He'. apply He. right. exact He'. }
  rewrite Hnil. reflexivity.
Qed.

(** A period filter that names a period without any actively enrolled
    student filters nothing: the batch approval with that period does what
    the batch approval without a period does. *)
Theorem empty_period_filters_nothing (db : DB) (cu : CurrentUser.t)
    (period_id : string) (n : Z) (c : ClassPeriod.t) (now : Py.datetime) :
  Py.nonempty period_id = true -> Py.isdigit period_id = true ->
  Py.int period_id = Ok n -> get_class_period db n = Some c ->
  empty_period db c ->
  Passes.my_period_approve_all db cu (Some period_id) now
  = Passes.my_period_approve_all db cu None now.
Proof.
  intros Hne Hd Hi Hc He. unfold Passes.my_period_approve_all, Passes.form_period.
  rewrite Hne, Hd, Hi. simpl. rewrite Hc.
  destruct (negb _ && negb _); [reflexivity |].
  match goal with |- context [filter ?f (passes db)] =>
    match goal with |- context [filter ?g (passes db)] =>
      lazymatch f with g => fail | _ =>
        assert (Hf : filter f (passes db) = filter g (passes db)) end end end.
  { apply filter_ext. intros p. rewrite (in_period_empty db c p He). reflexivity. }
  rewrite Hf. reflexivity.
Qed.

Lemma empty_period_filters_nothing_witness :
  Passes.my_period_approve_all night_db tom (Some "4") (monday 10 0 0)
  = Passes.my_period_approve_all night_db tom None (monday 10 0 0).
Proof.
  apply (empty_period_filters_nothing night_db tom "4" 4 overnight_period);
    try reflexivity.
  intros e [<- | [<- | []]] H; simpl in H; discriminate.
Defined.

(** ** The count of pending passes *)

Lemma existsb_false_filter {A} (f : A -> bool) l :
  existsb f l = false -> filter f l = [].
Proof.
  induction l as [| a l IH]; simpl; [reflexivity |].
  destruct (f a); simpl; [discriminate | exact IH].
Qed.

Lemma join_count (m : Pass.t -> PassAssignment.t -> bool) (rows : list PassAssignment.t)
    (isP : Pass.t -> bool) (l : list Pass.t) :
  (forall p, (List.length (filter (m p) rows) <= 1)%nat) ->
  List.length (flat_map (fun p => filter (m p) rows) (filter isP l))
  = List.length (filter (fun p => isP p && existsb (m p) rows) l).
Proof.
  intros H1. induction l as [| a l IH]; simpl; [reflexivity |].
  destruct (isP a); simpl; [| exact IH].
  rewrite length_app, IH.
  destruct (existsb (m a) rows) eqn:Ea; simpl.
  - pose proof (existsb_filter_nonempty (m a) rows Ea). specialize (H1 a). lia.
  - rewrite (existsb_false_filter _ _ Ea). reflexivity.
Qed.

(** The count [my_period_stats] answers to a teacher or an admin is the
    number of Pending passes the views of [my_period] list for them, in any
    store where no assignment row is repeated. *)
Theorem stats_count_the_listed_pending (db : DB) (cu : CurrentUser.t) :
  staff cu = true -> uq_pass_teacher (pass_assignments db) = true ->
  MyPeriod.my_period_stats db cu = Z.of_nat (List.length (pending_for db cu)).
Proof.
  intros Hrole Huq. unfold MyPeriod.my_period_stats, pending_for, Passes.visible.
  unfold staff in Hrole.
  assert (Hr : negb (Passes.is_teacher cu) && negb (Passes.is_admin cu) = false).
  { destruct (Passes.is_teacher cu), (Passes.is_admin cu); simpl in *; congruence. }
  rewrite Hr. destruct (Passes.is_teacher cu).
  - f_equal. unfold Passes.assigned_to.
    apply (join_count
             (fun p a => (PassAssignment.pass_id a =? Pass.id p)
                         && (PassAssignment.teacher_id a =? CurrentUser.id cu))).
    intros p. apply (uq_pass_teacher_count _ (Pass.id p) (CurrentUser.id cu) Huq).
  - f_equal. f_equal. apply filter_ext. intros p. rewrite andb_true_r. reflexivity.
Qed.

Lemma stats_count_the_listed_pending_witness :
  MyPeriod.my_period_stats pending_db tom
  = Z.of_nat (List.length (pending_for pending_db tom)).
Proof.
  apply (stats_count_the_listed_pending pending_db tom); reflexivity.
Defined.

Lemma stats_zero db cu :
  (forall q, In q (passes db) -> PassState_eqb (Pass.state q) PENDING = true ->
             Passes.visible db cu q = false) ->
  MyPeriod.my_period_stats db cu = 0.
Proof.
  intros H. unfold MyPeriod.my_period_stats.
  destruct (negb _ && negb _); [reflexivity |].
  unfold Passes.visible in H.
  destruct (Passes.is_teacher cu).
  - replace (flat_map _ _) with (@nil PassAssignment.t); [reflexivity |].
    symmetry. induction (passes db) as [| a l IH]; simpl; [reflexivity |].
    destruct (PassState_eqb (Pass.state a) PENDING) eqn:Ea; simpl.
    + rewrite IH by (intros q Hq; apply H; right; exact Hq).
      rewrite app_nil_r. apply existsb_false_filter.
      apply (H a (or_introl eq_refl) Ea).
    + apply IH. intros q Hq. apply H. right. exact Hq.
  - replace (filter _ (passes db)) with (@nil Pass.t); [reflexivity |].
    symmetry. induction (passes db) as [| a l IH]; simpl; [reflexivity |].
    destruct (PassState_eqb (Pass.state a) PENDING) eqn:Ea.
    + specialize (H a (or_introl eq_refl) Ea). discriminate.
    + apply IH. intros q Hq. apply H. right. exact Hq.
Qed.

Lemma approve_all_passes db cu now db' r :
  unique_ids db ->
  negb (Passes.is_teacher cu) && negb (Passes.is_admin cu) = false ->
  Passes.my_period_approve_all db cu None now = Ok (db', r) ->
  passes db'
  = map (fun p => if PassState_eqb (Pass.state p) PENDING && Passes.visible db cu p
                  then activated (Passes.pass_minutes db p) p now else p)
        (passes db).
Proof.
  intros Hu Hr. unfold Passes.my_period_approve_all. rewrite Hr. simpl.
  match goal with |- context [foldM ?f (filter ?sel ?ps) ?a] =>
    set (sel' := sel);
    destruct (foldM f (filter sel' ps) a) as [[db1 updated] |] eqn:Ef end;
    simpl; [| discriminate].
  apply (foldM_approve_is_loop db) in Ef; [| reflexivity].
  assert (Hl : passes db1
               = map (fun p => if sel' p
                               then activated (Passes.pass_minutes db p) p now
                               else p) (passes db)).
  { rewrite Ef.
    apply (loop_is_map _ (fun a => activated (Passes.pass_minutes db a) a now));
      auto. }
  assert (Hsel : forall p, sel' p
                 = PassState_eqb (Pass.state p) PENDING && Passes.visible db cu p)
    by (intros p; unfold sel'; apply andb_true_r).
  rewrite (map_ext _ _ (fun p => f_equal (fun b : bool =>
             if b then activated (Passes.pass_minutes db p) p now else p)
             (Hsel p))) in Hl.
  destruct (Py.truthy updated).
  - destruct (commit db1) as [db2 |] eqn:Ec; simpl; [| discriminate].
    apply commit_ok in Ec. destruct Ec as [-> _].
    intros H. inversion H. subst. exact Hl.
  - intros H. inversion H. subst. exact Hl.
Qed.

(** After a batch approval without a period filter has answered, the count
    of [my_period_stats] for the same user is zero: no Pending pass is left
    among those the user is shown. *)
Theorem approve_all_clears_the_count (db db' : DB) (cu : CurrentUser.t)
    (now : Py.datetime) (r : Response) :
  unique_ids db ->
  Passes.my_period_approve_all db cu None now = Ok (db', r) ->
  MyPeriod.my_period_stats db' cu = 0.
Proof.
  intros Hu H.
  destruct (negb (Passes.is_teacher cu) && negb (Passes.is_admin cu)) eqn:Hr.
  { unfold MyPeriod.my_period_stats. rewrite Hr. reflexivity. }
  pose proof (approve_all_adds_no_assignment db cu None now db' r H) as Ha.
  pose proof (approve_all_passes db cu now db' r Hu Hr H) as Hp.
  apply stats_zero. intros q Hq Hs. rewrite Hp in Hq.
  apply in_map_iff in Hq. destruct Hq as (p & Hqp & Hin).
  assert (Hv : forall x, Passes.visible db' cu x = Passes.visible db cu x).
  { intros x. unfold Passes.visible, Passes.assigned_to. rewrite Ha. reflexivity. }
  rewrite Hv.
  destruct (PassState_eqb (Pass.state p) PENDING) eqn:Ep; simpl in Hqp.
  - destruct (Passes.visible db cu p) eqn:Evp.
    + subst q. simpl in Hs. discriminate.
    + subst q. exact Evp.
  - subst q. congruence.
Qed.

Lemma approve_all_clears_the_count_witness :
  MyPeriod.my_period_stats (run pending_db (ApproveAll tom None (monday 10 0 0))) tom
  = 0.
Proof.
  apply (approve_all_clears_the_count pending_db _ tom (monday 10 0 0)
           [("Approved 1 pending pass(es).", "success")]).
  - unfold unique_ids. vm_compute. constructor; [simpl; tauto | constructor].
  - vm_compute. reflexivity.
Defined.

(** ** The kiosk display *)

(** On the kiosk board, which lists Active passes, the countdown of a pass
    is what [Pass.remaining_seconds] answers for it at the same instant. *)
Theorem kiosk_countdown_is_remaining_seconds (p : Pass.t) (now : Py.datetime) :
  Pass.state p = ACTIVE ->
  KioskView.to_row_remaining p now = Pass.remaining_seconds p now.
Proof.
  intros Hs. unfold KioskView.to_row_remaining, Pass.remaining_seconds.
  rewrite Hs. simpl. destruct (Pass.expires_at p); reflexivity.
Qed.

Lemma kiosk_countdown_is_remaining_seconds_witness :
  KioskView.to_row_remaining sam_active (monday 10 3 0)
  = Pass.remaining_seconds sam_active (monday 10 3 0).
Proof.
  apply (kiosk_countdown_is_remaining_seconds sam_active (monday 10 3 0)).
  reflexivity.
Defined.

(** The cookie the kiosk page sets stands for the link it was opened with:
    when [view], opened with a token in the link and no cookie, sets the
    cookie, a later pass request that carries the cookie and no token in its
    link is handled exactly as the same request with the token in its
    link. *)
Theorem kiosk_cookie_stands_for_the_link (db : DB) (cu : CurrentUser.t)
    (tok c : string) (req : Passes.PassRequest) (now : Py.datetime) :
  KioskView.view db {| KioskView.args_token := Some tok;
                       KioskView.cookie_token := None |} = Some c ->
  Passes.args_token req = Some tok ->
  Passes.request_pass db cu (with_cookie req c) now
  = Passes.request_pass db cu req now.
Proof.
  unfold KioskView.view, KioskView.kiosk_of. simpl.
  destruct (Py.nonempty tok) eqn:Hne; simpl; rewrite ?Hne; [| discriminate].
  destruct (find _ (kiosks db)) as [k |] eqn:Ef; simpl; [| discriminate].
  intros H Ha. inversion H. subst c.
  apply find_some in Ef. destruct Ef as [_ Ek].
  apply andb_prop in Ek. destruct Ek as [Ek _]. apply String.eqb_eq in Ek.
  assert (Htok : Passes.or_else (Passes.args_token (with_cookie req (Kiosk.token k)))
                                (Passes.cookie_token (with_cookie req (Kiosk.token k)))
                 = Passes.or_else (Passes.args_token req) (Passes.cookie_token req)).
  { simpl. rewrite Ha, Ek. simpl. rewrite Hne. reflexivity. }
  unfold Passes.request_pass. rewrite Htok. reflexivity.
Qed.

Lemma kiosk_cookie_stands_for_the_link_witness :
  Passes.request_pass demo_db sam
    (with_cookie kiosk_request "demo-kiosk-token-room-101") (monday 9 59 0)
  = Passes.request_pass demo_db sam kiosk_request (monday 9 59 0).
Proof.
  apply (kiosk_cookie_stands_for_the_link demo_db sam "demo-kiosk-token-room-101");
    reflexivity.
Defined.

(** The kiosk page sets its cookie only to the token of an active kiosk:
    the cookie it sets is the token of a kiosk row that is switched on. *)
Theorem kiosk_cookie_is_an_active_token (db : DB) (req : KioskView.ViewRequest)
    (c : string) :
  KioskView.view db req = Some c ->
  exists k, In k (kiosks db) /\ Kiosk.token k = c /\ Kiosk.is_active k = 1
            /\ active_kiosk db c = Some k.
Proof.
  unfold KioskView.view, KioskView.kiosk_of, active_kiosk.
  destruct (Passes.or_else _ _) as [token |]; [| discriminate].
  destruct (Py.nonempty token); [| discriminate].
  destruct (find _ (kiosks db)) as [k |] eqn:Ef; [| discriminate].
  intros H.
  assert (Hc : Kiosk.token k = c).
  { revert H. destruct (KioskView.cookie_token req) as [c0 |];
      [destruct (Py.nonempty c0); [discriminate |] |];
      intros H; inversion H; reflexivity. }
  pose proof Ef as Ef'. apply find_some in Ef'. destruct Ef' as [Hin Ek].
  apply andb_prop in Ek. destruct Ek as [Et Eact].
  apply String.eqb_eq in Et. apply Z.eqb_eq in Eact.
  exists k. repeat split; try assumption.
  rewrite <- Hc, Et. exact Ef.
Qed.

Lemma kiosk_cookie_is_an_active_token_witness :
  exists k, In k (kiosks demo_db) /\ Kiosk.token k = "demo-kiosk-token-room-101"
            /\ Kiosk.is_active k = 1
            /\ active_kiosk demo_db "demo-kiosk-token-room-101" = Some k.
Proof.
  apply (kiosk_cookie_is_an_active_token demo_db
           {| KioskView.args_token := Some "demo-kiosk-token-room-101";
              KioskView.cookie_token := None |}).
  reflexivity.
Defined.

(** ** The admin views *)

Lemma find_all_false {A} (f : A -> bool) (l : list A) :
  (forall x, In x l -> f x = false) -> find f l = None.
Proof.
  induction l as [| a l IH]; simpl; intros H; [reflexivity |].
  rewrite (H a (or_introl eq_refl)). apply IH. auto.
Qed.

Lemma same_token_same_row (l : list Kiosk.t) a b :
  NoDup (map Kiosk.token l) -> In a l -> In b l ->
  Kiosk.token a = Kiosk.token b -> a = b.
Proof.
  induction l as [| q qs IH]; simpl; [tauto |].
  intros Hnd Ha Hb Ht. inversion Hnd as [| ? ? Hnot Hnd']. subst.
  destruct Ha as [Ha | Ha], Hb as [Hb | Hb]; subst.
  - reflexivity.
  - exfalso. apply Hnot. rewrite Ht. apply in_map. exact Hb.
  - exfalso. apply Hnot. rewrite <- Ht. apply in_map. exact Ha.
  - auto.
Qed.

Lemma get_kiosk_in db i k : get_kiosk db i = Some k -> In k (kiosks db) /\ Kiosk.id k = i.
Proof.
  unfold get_kiosk. intros H. apply find_some in H.
  destruct H as [H1 H2]. apply Z.eqb_eq in H2. auto.
Qed.

(** The active kiosk a token resolves to after a write to the row of
    kiosk [k], when tokens are unique and the write keeps key and token. *)
Lemma active_kiosk_update db k k' :
  unique_tokens db -> In k (kiosks db) ->
  Kiosk.id k' = Kiosk.id k -> Kiosk.token k' = Kiosk.token k ->
  active_kiosk (update_kiosk db k') (Kiosk.token k)
  = if Kiosk.is_active k' =? 1 then Some k' else None.
Proof.
  unfold unique_tokens, active_kiosk. simpl. intros Hnd Hin Hid Htok.
  induction (kiosks db) as [| q l IH]; simpl; [contradiction |].
  inversion Hnd as [| ? ? Hnot Hnd']. subst.
  destruct (Z.eqb_spec (Kiosk.id q) (Kiosk.id k')) as [E | E].
  - rewrite Htok, String.eqb_refl. simpl.
    destruct (Kiosk.is_active k' =? 1) eqn:Ea; [reflexivity |].
    destruct Hin as [-> | Hin].
    + apply find_all_false. intros x Hx. apply in_map_iff in Hx.
      destruct Hx as (y & <- & Hy).
      destruct (Kiosk.id y =? Kiosk.id k');
        [rewrite Ea; apply andb_false_r |].
      destruct (String.eqb_spec (Kiosk.token y) (Kiosk.token k)) as [Et | Et];
        [| reflexivity].
      exfalso. apply Hnot. rewrite <- Et. apply in_map. exact Hy.
    + rewrite (IH Hnd' Hin). reflexivity.
  - destruct Hin as [-> | Hin]; [congruence |].
    destruct (String.eqb_spec (Kiosk.token q) (Kiosk.token k)) as [Et | Et].
    + exfalso. apply Hnot. rewrite Et. apply in_map. exact Hin.
    + simpl. apply IH; assumption.
Qed.

Lemma kiosk_binding_none db tok :
  active_kiosk db tok = None -> Passes.kiosk_binding db (Some tok) = no_kiosk.
Proof.
  unfold active_kiosk, Passes.kiosk_binding. intros ->.
  destruct (Py.nonempty tok); reflexivity.
Qed.

(** Switching a kiosk off revokes its token at once: after [kiosks_toggle]
    by an admin on a kiosk that is on, where tokens are unique, the token of
    the kiosk resolves to no kiosk, and pass requests that carry it are
    routed as requests without a kiosk. *)
Theorem switching_a_kiosk_off_revokes_its_token (db : DB) (cu : CurrentUser.t)
    (kiosk_id : Z) (k : Kiosk.t) :
  Admin.require_admin cu = false -> unique_tokens db ->
  get_kiosk db kiosk_id = Some k -> Py.truthy (Kiosk.is_active k) = true ->
  active_kiosk (store (Admin.kiosks_toggle db cu kiosk_id)) (Kiosk.token k) = None
  /\ Passes.kiosk_binding (store (Admin.kiosks_toggle db cu kiosk_id))
                          (Some (Kiosk.token k))
     = no_kiosk.
Proof.
  intros Hadm Hu Hg Hon.
  assert (H : active_kiosk (store (Admin.kiosks_toggle db cu kiosk_id)) (Kiosk.token k)
              = None).
  { unfold store, Admin.kiosks_toggle. rewrite Hadm, Hg, Hon. simpl fst.
    destruct (get_kiosk_in db kiosk_id k Hg) as [Hin _].
    change (active_kiosk (update_kiosk db (Admin.set_is_active k 0)) (Kiosk.token k)
            = None).
    rewrite (active_kiosk_update db k (Admin.set_is_active k 0) Hu Hin eq_refl eq_refl).
    reflexivity. }
  split; [exact H | apply kiosk_binding_none; exact H].
Qed.

Lemma switching_a_kiosk_off_revokes_its_token_witness :
  active_kiosk (store (Admin.kiosks_toggle demo_db alice 1)) (Kiosk.token demo_kiosk)
  = None
  /\ Passes.kiosk_binding (store (Admin.kiosks_toggle demo_db alice 1))
                          (Some (Kiosk.token demo_kiosk))
     = no_kiosk.
Proof.
  apply (switching_a_kiosk_off_revokes_its_token demo_db alice 1 demo_kiosk);
    try reflexivity.
  unfold unique_tokens. simpl. constructor; [simpl; tauto | constructor].
Defined.

(** Binding a kiosk to a class period: when an admin submits a period key
    (a non-zero integer the store can hold) for an active kiosk with a
    non-empty, unique token, [kiosks_bind] commits, and the token then
    stands for that period and for no teacher, whatever teacher was
    submitted with it. *)
Theorem binding_a_kiosk_to_a_period (db : DB) (cu : CurrentUser.t)
    (kiosk_id : Z) (k : Kiosk.t) (period teacher : string) (c : Z) :
  Admin.require_admin cu = false -> unique_tokens db ->
  get_kiosk db kiosk_id = Some k -> Kiosk.is_active k = 1 ->
  Kiosk.token k <> EmptyString ->
  period <> EmptyString -> Py.int period = Ok c -> c <> 0 ->
  - 2 ^ 63 <= c <= 2 ^ 63 - 1 ->
  exists db' r,
    Admin.kiosks_bind db cu kiosk_id (Some period) (Some teacher) = Ok (db', r)
    /\ Passes.kiosk_binding db' (Some (Kiosk.token k))
       = {| Passes.is_kiosk := true; Passes.kiosk_cp_id := Some c;
            Passes.kiosk_teacher_id := None |}.
Proof.
  intros Hadm Hu Hg Hon Htok Hp Hi Hc Hr.
  unfold Admin.kiosks_bind. rewrite Hadm, Hg.
  assert (Hne : Py.nonempty period = true)
    by (destruct period; [congruence | reflexivity]).
  unfold Admin.or_none. rewrite Hne. simpl. rewrite Hi. simpl.
  unfold Admin.sqlite_integer.
  replace ((- 2 ^ 63 <=? c) && (c <=? 2 ^ 63 - 1)) with true
    by (symmetry; apply andb_true_intro; split; apply Z.leb_le; lia).
  simpl. eexists. eexists. split; [reflexivity |].
  destruct (get_kiosk_in db kiosk_id k Hg) as [Hin _].
  unfold Passes.kiosk_binding.
  assert (Ht : Py.nonempty (Kiosk.token k) = true)
    by (destruct (Kiosk.token k); [congruence | reflexivity]).
  rewrite Ht.
  change (find _ (kiosks _))
    with (active_kiosk (update_kiosk db (Admin.set_binding k (Some c) None))
                       (Kiosk.token k)).
  rewrite (active_kiosk_update db k (Admin.set_binding k (Some c) None)
             Hu Hin eq_refl eq_refl).
  simpl. rewrite Hon. simpl. rewrite (truthy_nonzero c Hc). reflexivity.
Qed.

Lemma binding_a_kiosk_to_a_period_witness :
  exists db' r,
    Admin.kiosks_bind demo_db alice 1 (Some "2") (Some "2") = Ok (db', r)
    /\ Passes.kiosk_binding db' (Some (Kiosk.token demo_kiosk))
       = {| Passes.is_kiosk := true; Passes.kiosk_cp_id := Some 2;
            Passes.kiosk_teacher_id := None |}.
Proof.
  apply (binding_a_kiosk_to_a_period demo_db alice 1 demo_kiosk "2" "2" 2);
    try reflexivity; try discriminate.
  - unfold unique_tokens. simpl. constructor; [simpl; tauto | constructor].
  - lia.
Defined.

Lemma get_setting_other db key key' value default :
  key' <> key ->
  Passes.get_setting (with_settings db (Admin.set_value key value (settings db)))
                     key' default
  = Passes.get_setting db key' default.
Proof.
  intros Hne. unfold Passes.get_setting. simpl.
  induction (settings db) as [| s l IH]; simpl.
  - destruct (String.eqb_spec key key'); [congruence | reflexivity].
  - destruct (String.eqb (Setting.key s) key && String.eqb (Setting.scope s) "global")
      eqn:Es; simpl.
    + apply andb_prop in Es. destruct Es as [Ek _]. apply String.eqb_eq in Ek.
      rewrite Ek. destruct (String.eqb_spec key key'); [congruence | reflexivity].
    + destruct (String.eqb (Setting.key s) key' && String.eqb (Setting.scope s) "global");
        [reflexivity | exact IH].
Qed.

Lemma get_setting_same db key value default :
  Passes.get_setting (with_settings db (Admin.set_value key value (settings db)))
                     key default
  = value.
Proof.
  unfold Passes.get_setting. simpl.
  induction (settings db) as [| s l IH]; simpl.
  - rewrite String.eqb_refl. reflexivity.
  - destruct (String.eqb (Setting.key s) key && String.eqb (Setting.scope s) "global")
      eqn:Es; simpl; rewrite Es; [reflexivity | exact IH].
Qed.

Lemma save_setting_other key field db key' default :
  key' <> key ->
  Passes.get_setting (Admin.save_setting key field db) key' default
  = Passes.get_setting db key' default.
Proof.
  intros Hne. destruct field as [v |]; simpl; [| reflexivity].
  apply get_setting_other. exact Hne.
Qed.

(** The admin settings view writes two keys and no other: whoever asks and
    whatever the form, every other setting, among them the three flags the
    pass views read (strict kiosk binding, enforcement of the time window,
    approval outside the period), reads after it as before. *)
Theorem settings_view_writes_two_keys_only (db : DB) (cu : CurrentUser.t)
    (method : Passes.Method) (refresh near : option string)
    (key default : string) :
  key <> "kiosk_auto_refresh_seconds" -> key <> "near_expiry_seconds" ->
  Passes.get_setting (store (Admin.settings db cu method refresh near)) key default
  = Passes.get_setting db key default.
Proof.
  intros H1 H2. unfold Admin.settings, store.
  destruct (Admin.require_admin cu); [reflexivity |].
  destruct method; [reflexivity |]. simpl fst.
  change (Passes.get_setting
            (Admin.save_setting "near_expiry_seconds" near
               (Admin.save_setting "kiosk_auto_refresh_seconds" refresh db))
            key default
          = Passes.get_setting db key default).
  rewrite (save_setting_other _ near _ key default H2).
  apply save_setting_other. exact H1.
Qed.

Lemma settings_view_writes_two_keys_only_witness :
  Passes.get_setting
    (store (Admin.settings demo_db alice Passes.POST (Some "30") (Some "60")))
    "kiosk_strict_binding" "true"
  = Passes.get_setting demo_db "kiosk_strict_binding" "true".
Proof.
  apply (settings_view_writes_two_keys_only demo_db alice Passes.POST
           (Some "30") (Some "60") "kiosk_strict_binding" "true");
    discriminate.
Defined.

(** What an admin saves is what is read: after a POST to the settings view
    each of the two keys present in the form reads as the submitted value
    with the white space around it removed, whether the key had a row or
    not and whatever is submitted for the other key. *)
Theorem saved_settings_are_read_back (db : DB) (cu : CurrentUser.t)
    (v default : string) :
  Admin.require_admin cu = false ->
  (forall near,
     Passes.get_setting (store (Admin.settings db cu Passes.POST (Some v) near))
                        "kiosk_auto_refresh_seconds" default
     = Py.strip v)
  /\ (forall refresh,
        Passes.get_setting (store (Admin.settings db cu Passes.POST refresh (Some v)))
                           "near_expiry_seconds" default
        = Py.strip v).
Proof.
  intros Hadm. unfold Admin.settings, store. rewrite Hadm. simpl fst.
  split; intros other.
  - change (Passes.get_setting
              (Admin.save_setting "near_expiry_seconds" other
                 (Admin.save_setting "kiosk_auto_refresh_seconds" (Some v) db))
              "kiosk_auto_refresh_seconds" default = Py.strip v).
    rewrite save_setting_other by discriminate.
    apply get_setting_same.
  - change (Passes.get_setting
              (Admin.save_setting "near_expiry_seconds" (Some v)
                 (Admin.save_setting "kiosk_auto_refresh_seconds" other db))
              "near_expiry_seconds" default = Py.strip v).
    apply get_setting_same.
Qed.

Lemma saved_settings_are_read_back_witness :
  (forall near,
     Passes.get_setting
       (store (Admin.settings demo_db alice Passes.POST (Some " 30 ") near))
       "kiosk_auto_refresh_seconds" "10"
     = Py.strip " 30 ")
  /\ (forall refresh,
        Passes.get_setting
          (store (Admin.settings demo_db alice Passes.POST refresh (Some " 30 ")))
          "near_expiry_seconds" "10"
        = Py.strip " 30 ").
Proof.
  apply (saved_settings_are_read_back demo_db alice " 30 " "10").
  reflexivity.
Defined.

Lemma get_destination_update db d' i :
  get_destination (update_destination db d') i
  = if i =? Destination.id d'
    then match get_destination db i with Some _ => Some d' | None => None end
    else get_destination db i.
Proof.
  unfold get_destination. simpl.
  induction (destinations db) as [| q qs IH]; simpl.
  - destruct (i =? Destination.id d'); reflexivity.
  - destruct (Z.eqb_spec (Destination.id q) (Destination.id d')) as [Eqd | Eqd].
    + destruct (Z.eqb_spec i (Destination.id d')) as [Ei | Ei].
      * subst i. rewrite Z.eqb_refl, Eqd, Z.eqb_refl. reflexivity.
      * destruct (Z.eqb_spec (Destination.id d') i) as [E | _]; [congruence |].
        destruct (Z.eqb_spec (Destination.id q) i) as [E | _]; [congruence |].
        exact IH.
    + destruct (Z.eqb_spec (Destination.id q) i) as [Eqi | Eqi].
      * destruct (Z.eqb_spec i (Destination.id d')) as [E | _]; [congruence |].
        reflexivity.
      * exact IH.
Qed.

(** [destinations_update] does not check the minutes it is given, and a
    duration of zero or less stops approvals: once an admin has saved such a
    default for a destination, no Pending pass for that destination can be
    approved; [approve] leaves the store as it is. *)
Theorem nonpositive_default_stops_approvals (db : DB) (admin cu : CurrentUser.t)
    (dest_id : Z) (d : Destination.t) (minutes : string) (m : Z)
    (i : Z) (p : Pass.t) (now : Py.datetime) :
  Admin.require_admin admin = false ->
  get_destination db dest_id = Some d ->
  Py.int minutes = Ok m -> - 2 ^ 63 <= m <= 0 ->
  - 2 ^ 63 <= Destination.max_concurrent d <= 2 ^ 63 - 1 ->
  get_pass db i = Some p -> Pass.state p = PENDING ->
  Pass.destination_id p = dest_id ->
  exists db' r,
    Admin.destinations_update db admin dest_id (Some minutes) None = Ok (db', r)
    /\ get_destination db' dest_id
       = Some {| Destination.id := Destination.id d;
                 Destination.name := Destination.name d;
                 Destination.default_minutes := m;
                 Destination.max_concurrent := Destination.max_concurrent d |}
    /\ run db' (Approve cu i now) = db'.
Proof.
  intros Hadm Hd Hi Hm Hmax Hg Hs Hp.
  assert (Hfits : forall n, - 2 ^ 63 <= n <= 2 ^ 63 - 1 ->
                            Admin.sqlite_integer n = Ok n).
  { intros n Hn. unfold Admin.sqlite_integer.
    replace ((- 2 ^ 63 <=? n) && (n <=? 2 ^ 63 - 1)) with true; [reflexivity |].
    symmetry. apply andb_true_intro. split; apply Z.leb_le; lia. }
  unfold Admin.destinations_update. rewrite Hadm, Hd. simpl. rewrite Hi. simpl.
  rewrite (Hfits m) by lia. simpl. rewrite (Hfits _ Hmax). simpl.
  eexists. eexists. split; [reflexivity |].
  set (d' := {| Destination.id := Destination.id d;
                Destination.name := Destination.name d;
                Destination.default_minutes := m;
                Destination.max_concurrent := Destination.max_concurrent d |}).
  assert (Hid : Destination.id d = dest_id).
  { unfold get_destination in Hd. apply find_some in Hd.
    destruct Hd as [_ Hd]. apply Z.eqb_eq in Hd. exact Hd. }
  assert (Hd' : get_destination
                  (add_log (update_destination db d')
                     (Admin.log_entry admin "dest_updated" "destination"
                        (Some (Destination.id d)) None)) dest_id = Some d').
  { change (get_destination (update_destination db d') dest_id = Some d').
    rewrite get_destination_update. simpl. rewrite Hid, Z.eqb_refl, Hd.
    reflexivity. }
  split; [exact Hd' |].
  apply (approve_nonpositive _ cu i p d' now); try assumption.
  - rewrite Hp. exact Hd'.
  - simpl. lia.
Qed.

Lemma nonpositive_default_stops_approvals_witness :
  exists db' r,
    Admin.destinations_update pending_db alice 1 (Some "0") None = Ok (db', r)
    /\ get_destination db' 1
       = Some {| Destination.id := Destination.id restroom;
                 Destination.name := Destination.name restroom;
                 Destination.default_minutes := 0;
                 Destination.max_concurrent := Destination.max_concurrent restroom |}
    /\ run db' (Approve tom 1 (monday 10 0 0)) = db'.
Proof.
  apply (nonpositive_default_stops_approvals pending_db alice tom 1 restroom
           "0" 0 1 sam_pass (monday 10 0 0)); try reflexivity; simpl; lia.
Defined.

(** ** The new views on the sample school *)

(** With Sam's request pending and routed to Tom: the count for Tom, for
    Tina, for Alice and for Sam. *)
Example stats_samples :
  MyPeriod.my_period_stats pending_db tom = 1
  /\ MyPeriod.my_period_stats pending_db tina = 0
  /\ MyPeriod.my_period_stats pending_db alice = 1
  /\ MyPeriod.my_period_stats pending_db sam = 0.
Proof. repeat split. Qed.

(** The kiosk page sets the cookie for a valid token in the link, not for
    an unknown token, and not when the browser already holds the cookie. *)
Example view_samples :
  KioskView.view demo_db {| KioskView.args_token := Some "demo-kiosk-token-room-101";
                            KioskView.cookie_token := None |}
  = Some "demo-kiosk-token-room-101"
  /\ KioskView.view demo_db {| KioskView.args_token := Some "nope";
                               KioskView.cookie_token := None |} = None
  /\ KioskView.view demo_db {| KioskView.args_token := None;
                               KioskView.cookie_token :=
                                 Some "demo-kiosk-token-room-101" |} = None.
Proof. repeat split. Qed.

(** Binding the kiosk of room 101: to period 2 with a teacher submitted as
    well; to teacher 4 alone; with a period that is not a number; by a
    teacher. *)
Example kiosks_bind_samples :
  (match Admin.kiosks_bind demo_db alice 1 (Some "2") (Some "4") with
   | Ok (d, _) => Some (map Kiosk.class_period_id (kiosks d),
                        map Kiosk.teacher_id (kiosks d),
                        map LogEntry.message (logs d))
   | Raise _ => None
   end) = Some ([Some 2], [None], [Some "cp=2 teacher=None"])
  /\ (match Admin.kiosks_bind demo_db alice 1 None (Some "4") with
      | Ok (d, _) => Some (map Kiosk.class_period_id (kiosks d),
                           map Kiosk.teacher_id (kiosks d),
                           map LogEntry.message (logs d))
      | Raise _ => None
      end) = Some ([None], [Some 4], [Some "cp=None teacher=4"])
  /\ Admin.kiosks_bind demo_db alice 1 (Some "x") None = Raise ValueError
  /\ Admin.kiosks_bind demo_db tom 1 (Some "2") None
     = Ok (demo_db, [Admin.ADMIN_REQUIRED]).
Proof. repeat split. Qed.

(** Saving one of the two settings; a number too large for the store. *)
Example admin_samples :
  settings (store (Admin.settings demo_db alice Passes.POST (Some " 30 ") None))
  = [ {| Setting.key := "kiosk_auto_refresh_seconds"; Setting.scope := "global";
         Setting.value := "30" |};
      {| Setting.key := "near_expiry_seconds"; Setting.scope := "global";
         Setting.value := "120" |} ]
  /\ map Kiosk.is_active (kiosks (store (Admin.kiosks_toggle demo_db alice 1))) = [0]
  /\ Admin.destinations_update demo_db alice 1 (Some "99999999999999999999") None
     = Raise OverflowError.
Proof. repeat split. Qed.
